(** * OSIBL IRMS processing: the peak classification pipeline

    A shallow embedding of [Scripts/base_functions.py]: schema
    normalisation, segregation of standards and samples, and the
    retention-time classifier, with the properties of the specification
    stated and proved (or refuted) over it.

    Conventions of the embedding.
    - A pandas [DataFrame] is a header (the list of column names, in order)
      and a list of rows; a row is a finite map from column name to cell.
    - Floating-point columns hold exact rationals ([Q]); [NA] stands for
      [NaN], [None], [pd.NA] and [NaT].
    - Interactive input, console output and the run log are threaded
      through an explicit [world]; Python exceptions are the [Err] results
      of the monad [M]. *)

From Stdlib Require Import Ascii String QArith Qabs Qminmax Floats.
From stdpp Require Import base option list sorting strings pretty gmap.

Local Open Scope string_scope.

(** ** Python strings *)

Module PyStr.

(** The characters [str.strip] removes from an ASCII string. *)
Definition is_space (a : ascii) : bool :=
  let n := nat_of_ascii a in
  ((9 <=? n) && (n <=? 13) || (28 <=? n) && (n <=? 32))%nat.

Fixpoint lstrip (s : string) : string :=
  match s with
  | String a s' => if is_space a then lstrip s' else s
  | EmptyString => EmptyString
  end.

(** [rstrip], written as one right-to-left pass: a space is dropped
    when everything after it has been dropped. *)
Fixpoint rstrip (s : string) : string :=
  match s with
  | String a s' =>
      match rstrip s' with
      | EmptyString => if is_space a then EmptyString else String a EmptyString
      | t => String a t
      end
  | EmptyString => EmptyString
  end.

Definition strip (s : string) : string := rstrip (lstrip s).

Definition lower_ascii (a : ascii) : ascii :=
  let n := nat_of_ascii a in
  if ((65 <=? n) && (n <=? 90))%nat then ascii_of_nat (n + 32) else a.

Fixpoint lower (s : string) : string :=
  match s with
  | String a s' => String (lower_ascii a) (lower s')
  | EmptyString => EmptyString
  end.

(** [s.split(sep)] for a one-character separator: never empty. *)
Fixpoint split (sep : ascii) (s : string) : list string :=
  match s with
  | EmptyString => [EmptyString]
  | String a s' =>
      if Ascii.eqb a sep then EmptyString :: split sep s'
      else match split sep s' with
           | t :: ts => String a t :: ts
           | [] => [String a EmptyString]
           end
  end.

(** [sep.join(l)] *)
Fixpoint join (sep : string) (l : list string) : string :=
  match l with
  | [] => ""
  | [s] => s
  | s :: l' => s +:+ sep +:+ join sep l'
  end.

End PyStr.

(** ** The fragment of [re] that [Series.str.contains] is used with

    [str.contains(pat)] searches with [pat] read as a regular expression.
    The patterns of this program are plain characters and, in ["H3+"], one
    postfix [+]; a pattern compiles to a list of atoms, an atom being a
    character with or without the [+] quantifier. *)

Module Re.

Definition atom : Type := ascii * bool.

Fixpoint compile (pat : string) : list atom :=
  match pat with
  | EmptyString => []
  | String c (String "+"%char rest) => (c, true) :: compile rest
  | String c rest => (c, false) :: compile rest
  end.

(** Does a prefix of [s] match the atoms [p]? *)
Fixpoint match_here (s : string) (p : list atom) {struct s} : bool :=
  match p with
  | [] => true
  | (c, plus) :: rest =>
      match s with
      | EmptyString => false
      | String a s' =>
          Ascii.eqb a c
          && ((if plus then match_here s' p else false) || match_here s' rest)
      end
  end.

(** [re.search]: a match starting at some position of [s]. *)
Fixpoint search_atoms (p : list atom) (s : string) : bool :=
  match_here s p
  || match s with
     | EmptyString => false
     | String _ s' => search_atoms p s'
     end.

Definition search (pat s : string) : bool := search_atoms (compile pat) s.

End Re.

(** The literal reading of a marker: [sub] occurs in [s]. *)
Fixpoint has_substring (sub s : string) : bool :=
  String.prefix sub s
  || match s with
     | EmptyString => false
     | String _ s' => has_substring sub s'
     end.

(** ** Cells, rows and frames *)

Inductive cell : Type :=
  | NA                    (* NaN, None, pd.NA, NaT *)
  | Str (s : string)
  | Num (q : Q)           (* a float *)
  | Stamp (t : Z).        (* a datetime, in seconds since the epoch *)

#[export] Instance Q_eq_dec : EqDecision Q.
Proof. solve_decision. Defined.

#[export] Instance cell_eq_dec : EqDecision cell.
Proof. solve_decision. Defined.

Abbreviation row := (gmap string cell).

Record frame : Type := Frame { columns : list string; rows : list row }.

(** The value a row holds under a column of the header. *)
Definition at_col (name : string) (r : row) : cell := default NA (r !! name).

(** [a == b] on two cells: [NaN] equals nothing, floats compare by value. *)
Definition py_eq (a b : cell) : bool :=
  match a, b with
  | Str s, Str t => String.eqb s t
  | Num p, Num q => Qeq_bool p q
  | Stamp t, Stamp u => Z.eqb t u
  | _, _ => false
  end.

(** The equality of [unique] and [isin]: as [py_eq], and [NaN] is one value. *)
Definition same_value (a b : cell) : bool :=
  match a, b with
  | NA, NA => true
  | _, _ => py_eq a b
  end.

(** [Series.isin(values)] at one cell. *)
Definition isin (values : list cell) (c : cell) : bool :=
  existsb (same_value c) values.

Definition isin_str (values : list string) (c : cell) : bool :=
  isin (Str <$> values) c.

Definition isna (c : cell) : bool :=
  match c with NA => true | _ => false end.

(** [Series.unique()]: the distinct values in order of first appearance. *)
Fixpoint unique (l : list cell) : list cell :=
  match l with
  | [] => []
  | c :: l' => c :: List.filter (fun d => negb (same_value c d)) (unique l')
  end.

(** [df[mask]] *)
Definition select (mask : row -> bool) (df : frame) : frame :=
  Frame (columns df) (List.filter mask (rows df)).

(** [df[name] = values], one value computed per row: the column is
    overwritten in place, or appended to the header when it is new. *)
Definition set_column (name : string) (value : row -> cell) (df : frame) : frame :=
  Frame (if bool_decide (name ∈ columns df) then columns df else columns df ++ [name])
        ((fun r => <[name := value r]> r) <$> rows df).

(** [df.rename(columns={old: new})] *)
Definition rename_key (old new : string) (r : row) : row :=
  match r !! old with
  | Some c => <[new := c]> (delete old r)
  | None => r
  end.

Definition rename (old new : string) (df : frame) : frame :=
  Frame ((fun c => if String.eqb c old then new else c) <$> columns df)
        (rename_key old new <$> rows df).

(** ** Exceptions, the outside world and the monad of the program *)

Inductive exn : Type :=
  | KeyError | AttributeError | TypeError | ValueError
  | IndexError | UnboundLocalError | EOFError.

Inductive result (A : Type) : Type :=
  | Ok (a : A)
  | Err (e : exn).
Arguments Ok {A} a.
Arguments Err {A} e.

(** [stdin]: the lines the operator will type; [stdout]: what was printed
    (prompts included); [logfile]: the messages appended to the run log,
    without their wall-clock suffix. *)
Record world : Type := World {
  stdin : list string;
  stdout : list string;
  logfile : list string
}.

Definition M (A : Type) : Type := world -> result A * world.

#[export] Instance M_ret : MRet M := fun A a w => (Ok a, w).
#[export] Instance M_bind : MBind M := fun A B f m w =>
  match m w with
  | (Ok a, w') => f a w'
  | (Err e, w') => (Err e, w')
  end.

Definition raise {A} (e : exn) : M A := fun w => (Err e, w).

Definition print (s : string) : M unit := fun w =>
  (Ok tt, World (stdin w) (stdout w ++ [s]) (logfile w)).

(** [input(prompt)]: [EOFError] when the operator has nothing more to say. *)
Definition input (prompt : string) : M string := fun w =>
  match stdin w with
  | line :: rest => (Ok line, World rest (stdout w ++ [prompt]) (logfile w))
  | [] => (Err EOFError, World [] (stdout w ++ [prompt]) (logfile w))
  end.

(** [append_to_log(log_file_path, log_message)] *)
Definition append_to_log (log_file_path log_message : string) : M unit := fun w =>
  (Ok tt, World (stdin w) (stdout w) (logfile w ++ [log_message])).

(** A [for] loop that updates the local state [s]. *)
Fixpoint for_each {A S : Type} (l : list A) (body : A -> S -> M S) (s : S) : M S :=
  match l with
  | [] => mret s
  | a :: l' => s' ← body a s; for_each l' body s'
  end.

(** A fallible computation per element, left to right. *)
Fixpoint map_M {A B : Type} (f : A -> M B) (l : list A) : M (list B) :=
  match l with
  | [] => mret []
  | a :: l' => b ← f a; bs ← map_M f l'; mret (b :: bs)
  end.

(** [df[name]]: [KeyError] for a column that is not in the header. *)
Definition column (name : string) (df : frame) : M (list cell) :=
  if bool_decide (name ∈ columns df) then mret (at_col name <$> rows df)
  else raise KeyError.

(** [df.name]: attribute access, [AttributeError] when absent. *)
Definition attribute (name : string) (df : frame) : M (list cell) :=
  if bool_decide (name ∈ columns df) then mret (at_col name <$> rows df)
  else raise AttributeError.

(** ** Library and collaborator functions

    [strptime date_string format], [float] and [int] are Python's;
    [pos_response] and [neg_response] come from the module [queries],
    which recognises the operator's yes and no. [py_float] stands for
    [float] on the texts that denote a finite number: [float] also accepts
    [nan] and [inf], for which [Q] has no value, and a reference retention
    time of that kind is outside the statements below. *)

Class Externals : Type := {
  strptime : string -> string -> option Z;
  py_float : string -> option Q;
  py_int : string -> option Z;
  pos_response : string -> bool;
  neg_response : string -> bool
}.

(** ** The program *)

Section Program.

Context {ext : Externals}.

(** [make_correction_df]: the frame indexed by correction type. *)
Definition make_correction_df : list (string * Z) :=
  [("Drift", 0%Z); ("Linearity", 0%Z); ("VSMOW", 0%Z); ("Methylation", 0%Z)].

Definition date_formats : list string :=
  ["%m/%d/%Y %H:%M:%S"; "%m/%d/%y %H:%M:%S"; "%Y-%m-%d %H:%M:%S"; "%d/%m/%Y %H:%M:%S"].

Fixpoint first_parse (formats : list string) (date_str : string) : option Z :=
  match formats with
  | [] => None
  | fmt :: formats' =>
      match strptime date_str fmt with
      | Some t => Some t               (* return datetime.strptime(...) *)
      | None => first_parse formats' date_str   (* except ValueError: continue *)
      end
  end.

Definition try_parse_date (date_str : string) : option Z :=
  first_parse date_formats date_str.

(** *** [import_data], lines 72-84: the canonical header *)

Definition iso_rat_of (isotope : string) : option string :=
  let iso_rat := None in
  let iso_rat := if String.eqb isotope "dD" then Some "d 2H/1H" else iso_rat in
  let iso_rat := if String.eqb isotope "dC" then Some "d 13C/12C" else iso_rat in
  iso_rat.

(** One turn of the loop over the three source names; the state is the
    frame and the counter [x]. *)
Definition normalize_step (new_name : list string) (name : string)
    (st : frame * nat) : M (frame * nat) :=
  let '(df, x) := st in
  if bool_decide (name ∈ columns df) then
    match List.filter (Re.search name) (columns df), new_name !! x with
    | old :: _, Some new => mret (rename old new df, S x)
    | _, _ => raise IndexError
    end
  else
    _ ← print name;
    mret (set_column name (fun _ => NA) df, x).

Definition normalize (isotope : string) (df : frame) : M frame :=
  let new_name := [isotope; "area"; "chain"] in
  match iso_rat_of isotope with
  | None => raise UnboundLocalError
  | Some iso_rat =>
      st ← for_each [iso_rat; "Area All"; "Component"] (normalize_step new_name) (df, 0%nat);
      mret (fst st)
  end.

(** *** Lines 86-88: the reconstructed timestamp and its numeric forms *)

(** [try_parse_date(row["Date"] + " " + row["Time"])]; [None] when the
    two cells cannot be concatenated. *)
Definition date_time_true (r : row) : option cell :=
  match at_col "Date" r, at_col "Time" r with
  | Str d, Str t => Some (from_option Stamp NA (try_parse_date (d +:+ " " +:+ t)))
  | _, _ => None
  end.

(** [date2num]: days since the epoch. *)
Definition date2num (c : cell) : cell :=
  match c with
  | Stamp t => Num (inject_Z t / 86400)
  | _ => NA
  end.

Definition floats (l : list cell) : list Q :=
  omap (fun c => match c with Num q => Some q | _ => None end) l.

(** [Series.max()] and [Series.min()] skip [NaN]. *)
Definition series_max (l : list cell) : option Q :=
  match floats l with
  | [] => None
  | q :: qs => Some (fold_left Qmax qs q)
  end.

Definition series_min (l : list cell) : option Q :=
  match floats l with
  | [] => None
  | q :: qs => Some (fold_left Qmin qs q)
  end.

Definition minus_max (top : option Q) (c : cell) : cell :=
  match c, top with
  | Num q, Some m => Num (q - m)
  | _, _ => NA
  end.

(** The three assignments of lines 86-88, once [df.apply] has given one
    value per row. *)
Definition stamp_columns (df : frame) : frame :=
  let df := set_column "date-time_true" (fun r => default NA (date_time_true r)) df in
  let df := set_column "date-time" (fun r => date2num (at_col "date-time_true" r)) df in
  let top := series_max (at_col "date-time" <$> rows df) in
  set_column "time_rel" (fun r => minus_max top (at_col "date-time" r)) df.

(** On a frame without rows [df.apply(..., axis=1)] does not call the
    function on a row: it returns a copy of the frame, and assigning a frame
    to the one column ["date-time_true"] is a [ValueError] unless that copy
    has exactly one column (pandas 2). On a frame with rows the function
    runs on each of them: [KeyError] without the two columns, [TypeError]
    on cells that cannot be concatenated. *)
Definition add_timestamps (df : frame) : M frame :=
  match rows df with
  | [] =>
      if (length (columns df) =? 1)%nat then mret (stamp_columns df)
      else raise ValueError
  | _ :: _ =>
      if bool_decide ("Date" ∈ columns df) && bool_decide ("Time" ∈ columns df) then
        if forallb (fun r => bool_decide (is_Some (date_time_true r))) (rows df) then
          mret (stamp_columns df)
        else raise TypeError
      else raise KeyError
  end.

(** *** Lines 90-110: linearity standards, drift standards, unknowns *)

(** [Series.str.contains(pat)] at one cell: [NaN] where there is no string. *)
Definition str_contains (pat : string) (c : cell) : option bool :=
  match c with
  | Str s => Some (Re.search pat s)
  | _ => None
  end.

Definition is_str (c : cell) : bool :=
  match c with Str _ => true | _ => false end.

(** [df[name].str]: the column must exist and must not be numeric. *)
Definition str_accessor (name : string) (df : frame) : M unit :=
  if bool_decide (name ∈ columns df) then
    match rows df with
    | [] => mret tt
    | _ => if existsb (fun r => is_str (at_col name r)) (rows df) then mret tt
           else raise AttributeError
    end
  else raise KeyError.

(** [a & b] on two masks that may hold [NaN]: a [NaN] counts as false. *)
Definition mask_and (a b : option bool) : bool :=
  match a, b with
  | Some x, Some y => x && y
  | _, _ => false
  end.

Definition has_markers (m1 m2 : string) (r : row) : bool :=
  mask_and (str_contains m1 (at_col "Identifier 1" r))
           (str_contains m2 (at_col "Identifier 1" r)).

(** The order of [sort_values]: timestamps ascending, [NaT] last. *)
Definition stamp_leb (a b : cell) : bool :=
  match a, b with
  | Stamp t, Stamp u => (t <=? u)%Z
  | Stamp _, _ => true
  | _, Stamp _ => false
  | _, _ => true
  end.

Definition by_column (key : string) : relation row :=
  fun r1 r2 => stamp_leb (at_col key r1) (at_col key r2).

#[export] Instance by_column_dec key r1 r2 : Decision (by_column key r1 r2).
Proof. unfold by_column. apply _. Defined.

(** [df.sort_values(key)], as a stable merge sort. The default quicksort
    of pandas may order rows of equal key otherwise; the statements below
    use that the result is sorted and holds the same rows. *)
Definition sort_values (key : string) (df : frame) : frame :=
  Frame (columns df) (merge_sort (by_column key) (rows df)).

Definition linearity_candidates (df : frame) : frame :=
  select (fun r => isin_str ["C20"; "C28"] (at_col "chain" r))
         (select (has_markers "C20" "C28") df).

Definition drift_candidates (df : frame) : frame :=
  select (fun r => isin_str ["C18"; "C24"] (at_col "chain" r))
         (select (has_markers "C18" "C24") df).

(** Lines 100-104: "Remove first two drift runs". *)
Definition remove_first_two (drift_std : frame) : frame :=
  let drift_std := sort_values "date-time_true" drift_std in
  let unique_time_signatures := unique (at_col "date-time" <$> rows drift_std) in
  let time_signatures_to_remove := take 2 unique_time_signatures in
  select (fun r => negb (isin time_signatures_to_remove (at_col "date-time" r))) drift_std.

(** Lines 106-109: the rows outside both marker pairs. *)
Definition unmarked (df : frame) : frame :=
  let mask := has_markers "C18" "C24" in
  let unknown := select (fun r => negb (mask r)) df in
  let mask := has_markers "C20" "C28" in
  select (fun r => negb (mask r)) unknown.

(** Line 110: [~] fails on a mask that holds [NaN]. *)
Definition drop_calibration (unknown : frame) : M frame :=
  if forallb (fun r => is_str (at_col "Identifier 1" r)) (rows unknown) then
    mret (select (fun r => negb (default false (str_contains "H3+" (at_col "Identifier 1" r))))
                 unknown)
  else raise TypeError.

Definition count_chain (label : string) (df : frame) : nat :=
  length (rows (select (fun r => py_eq (at_col "chain" r) (Str label)) df)).

Definition segregate (df : frame) (log_file_path : string) : M (frame * frame * frame) :=
  _ ← str_accessor "Identifier 1" df;
  _ ← attribute "chain" df;
  let linearity_std := linearity_candidates df in
  _ ← append_to_log log_file_path
        ("Number of linearity standards analyzed: " +:+ pretty (count_chain "C28" linearity_std));
  let drift_std := drift_candidates df in
  _ ← append_to_log log_file_path
        ("Number of Drift standards analyzed: " +:+ pretty (count_chain "C24" drift_std));
  _ ← column "date-time_true" drift_std;
  _ ← column "date-time" drift_std;
  let drift_std := remove_first_two drift_std in
  _ ← append_to_log log_file_path "First two drift standards ignored.";
  unknown ← drop_calibration (unmarked df);
  mret (linearity_std, drift_std, unknown).

(** *** [closest_rt] *)

Definition abs_difference (target_rt : Q) (c : cell) : cell :=
  match c with
  | Num q => Num (Qabs (q - target_rt))
  | _ => NA
  end.

(** [differences <= limit]; a comparison with [NaN] is false. *)
Definition within (limit : option Q) (d : cell) : bool :=
  match d, limit with
  | Num x, Some m => Qle_bool x m
  | _, _ => false
  end.

(** Lines 158-161. Retention times are exact rationals here. pandas
    computes the difference, [1 + threshold] and their product in binary64,
    each of them rounded, so a peak at the very edge of the band can fall
    on the other side of the rounded test ([band64]). *)
Definition closest_rows (df : frame) (time_val : cell) (target_rt threshold : Q) : frame :=
  let sample_df := select (fun r => py_eq (at_col "Time" r) time_val) df in
  let differences := fun r => abs_difference target_rt (at_col "Rt" r) in
  let min_diff := series_min (differences <$> rows sample_df) in
  select (fun r => within ((fun m => (m * (1 + threshold))%Q) <$> min_diff) (differences r))
         sample_df.

Definition closest_rt (df : frame) (time_val : cell) (target_rt threshold : Q) : M frame :=
  _ ← column "Time" df;
  _ ← column "Rt" df;
  mret (closest_rows df time_val target_rt threshold).

(** The default of the parameter [threshold]. *)
Definition default_threshold : Q := 5 # 100.

(** *** [ask_user_for_rt] *)

Definition chain_lengths : list string :=
  ["C16"; "C18"; "C20"; "C22"; "C24"; "C26"; "C28"; "C30"; "C32"].

(** The dictionary keeps its keys in insertion order. *)
Definition rt_table : Type := list (string * option Q).

Definition rt_entry (rt : string) : M (option Q) :=
  if String.eqb (PyStr.lower (PyStr.strip rt)) "none" then mret None
  else match py_float (PyStr.strip rt) with
       | Some q => mret (Some q)
       | None => raise ValueError
       end.

Fixpoint build_rt_dict (pairs : list (string * string)) : M rt_table :=
  match pairs with
  | [] => mret []
  | (chain, rt) :: pairs' =>
      v ← rt_entry rt;
      d ← build_rt_dict pairs';
      mret ((chain, v) :: d)
  end.

(** The body of [while True]: [Some v] is [return v], [None] goes round
    again. *)
Definition ask_once (log_file_path : string) : M (option (option rt_table)) :=
  response ← input "Do you want to detect components in this dataset by retention time? (Y/N):";
  let response := PyStr.lower (PyStr.strip response) in
  if pos_response response then
    _ ← append_to_log log_file_path "User opted to identify chains.";
    rt_values ← input ("Enter retention times for " +:+ PyStr.join ", " chain_lengths
                        +:+ " separated by commas (type 'none' for any you don't want to use):");
    let rt_values := PyStr.split ","%char rt_values in
    if (length rt_values =? length chain_lengths)%nat then
      rt_dict ← build_rt_dict (zip chain_lengths rt_values);
      mret (Some (Some rt_dict))
    else
      _ ← print "Invalid input. Please provide the correct number of values.";
      mret None
  else if neg_response response then
    _ ← append_to_log log_file_path "User opted not to identify chains.";
    _ ← print "Component detection not selected.";
    mret (Some None)
  else
    _ ← print "Invalid response. Please answer 'yes' or 'no'.";
    mret None.

(** [while True: body]. Every turn of the loops of this program reads a
    line, so the number of turns is bounded by the lines left on [stdin]
    (see [ask_user_for_rt_fuel]); the zero case is never reached. *)
Fixpoint while_true {A : Type} (fuel : nat) (body : M (option A)) : M A :=
  match fuel with
  | O => raise EOFError
  | S fuel' =>
      r ← body;
      match r with
      | Some a => mret a
      | None => while_true fuel' body
      end
  end.

Definition ask_user_for_rt (log_file_path : string) : M (option rt_table) :=
  fun w => while_true (S (length (stdin w))) (ask_once log_file_path) w.

(** *** [process_dataframe] *)

Definition accepted_chains : list string :=
  ["C16"; "C18"; "C20"; "C22"; "C24"; "C26"; "C28"; "C30"; "C32"].

(** [df.loc[mask, name] = value] *)
Definition set_where (mask : row -> bool) (name : string) (value : cell) (df : frame) : frame :=
  Frame (columns df) ((fun r => if mask r then <[name := value]> r else r) <$> rows df).

Definition assign (time_val correct_rt : cell) (chain : string) (df : frame) : frame :=
  set_where (fun r => py_eq (at_col "Time" r) time_val && py_eq (at_col "Rt" r) correct_rt)
            "chain" (Str chain) df.

(** [.iloc[i]]: a negative position counts from the end. *)
Definition iloc {A : Type} (l : list A) (i : Z) : option A :=
  let n := Z.of_nat (length l) in
  if (0 <=? i)%Z then l !! Z.to_nat i
  else if (- n <=? i)%Z then l !! Z.to_nat (n + i)
  else None.

(** [str(x)] for the cells that appear in messages. It is Python's [str]
    on text; a number is written as a fraction and a timestamp as its
    count of seconds, which Python does not do, so the statements below
    state a message only where its cells are text. *)
Definition show (c : cell) : string :=
  match c with
  | Str s => s
  | NA => "nan"
  | Num q => pretty (Qnum q) +:+ "/" +:+ pretty (Zpos (Qden q))
  | Stamp t => pretty t
  end.

(** The body of the loop over [rt_dict.items()]. The figure that is drawn
    and saved in the near-tie branch needs the column ["Area All"]; its
    other effects stay outside the model. *)
Definition chain_step (time_val sample_id : cell) (item : string * option Q)
    (df : frame) : M frame :=
  let '(chain, rt) := item in
  match rt with
  | None => mret df
  | Some rt =>
      closest ← closest_rt df time_val rt default_threshold;
      match rows closest with
      | [r] =>
          (* Only one clear closest match *)
          mret (assign time_val (at_col "Rt" r) chain df)
      | _ :: _ :: _ =>
          (* Two closely matched peaks, prompt the user *)
          _ ← column "Area All" df;
          choice ← input ("Enter the number associated with the correct retention time for "
                           +:+ chain +:+ " in sample " +:+ show sample_id
                           +:+ " (" +:+ show time_val +:+ "), or type 'none' to skip:");
          let choice := PyStr.lower (PyStr.strip choice) in
          if String.eqb choice "none" then mret df   (* continue *)
          else
            match py_int choice with
            | None => raise ValueError
            | Some n =>
                match iloc (rows closest) (n - 1) with
                | None => raise IndexError
                | Some r => mret (assign time_val (at_col "Rt" r) chain df)
                end
            end
      | [] => mret df    (* df.loc[closest_rows.index, "chain"] = chain *)
      end
  end.

(** The body of the loop over [unique_times]. *)
Definition time_step (rt_dict : rt_table) (time_val : cell) (df : frame) : M frame :=
  _ ← column "Identifier 1" df;
  match rows (select (fun r => py_eq (at_col "Time" r) time_val) df) with
  | [] => raise IndexError     (* .iloc[0] *)
  | r :: _ =>
      let sample_id := at_col "Identifier 1" r in
      for_each rt_dict (chain_step time_val sample_id) df
  end.

(** [str] of the array [export_df.chain.unique()]. *)
Definition show_array (l : list cell) : string :=
  "[" +:+ PyStr.join " " ((fun c => "'" +:+ show c +:+ "'") <$> l) +:+ "]".

Definition process_dataframe (df : frame) (rt_dict : option rt_table)
    (folder_path log_file_path : string) : M frame :=
  match rt_dict with
  | None => mret df
  | Some rt_dict =>
      let df := set_column "chain" (fun _ => NA) df in
      times ← column "Time" df;
      let unique_times := unique times in
      df ← for_each unique_times (time_step rt_dict) df;
      let export_df := select (fun r => isin_str accepted_chains (at_col "chain" r)) df in
      _ ← append_to_log log_file_path
            ("Chain lengths identified by user: "
             +:+ show_array (unique (at_col "chain" <$> rows export_df)));
      mret export_df
  end.

(** *** Calling [process_dataframe]

    A call binds its positional arguments to the parameters of the
    [def]; [process_dataframe] declares four, none with a default. *)

Inductive pyval : Type :=
  | VFrame (df : frame)
  | VTable (rt_dict : option rt_table)
  | VStr (s : string).

Record pydef : Type := Def { params : list string; body : list pyval -> M frame }.

Definition call (f : pydef) (args : list pyval) : M frame :=
  if (length args =? length (params f))%nat then body f args
  else raise TypeError.     (* missing or surplus positional arguments *)

Definition process_dataframe_def : pydef :=
  Def ["df"; "rt_dict"; "folder_path"; "log_file_path"]
      (fun args =>
         match args with
         | [VFrame df; VTable rt_dict; VStr folder_path; VStr log_file_path] =>
             process_dataframe df rt_dict folder_path log_file_path
         | _ => raise TypeError
         end).

(** *** [import_data], lines 111-122 *)

(** [if rt_dict:] *)
Definition truthy (rt_dict : option rt_table) : bool :=
  match rt_dict with
  | Some (_ :: _) => true
  | _ => false
  end.

Definition whitelist : list string :=
  ["C16"; "C18"; "C20"; "C22"; "C24"; "C24"; "C26"; "C28"; "C30"; "C32"].

Definition classify (rt_dict : option rt_table) (folder_path : string)
    (tables : frame * frame * frame) : M (frame * frame * frame) :=
  let '(linearity_std, drift_std, unknown) := tables in
  if truthy rt_dict then
    unknown ← call process_dataframe_def [VFrame unknown; VTable rt_dict; VStr folder_path];
    _ ← attribute "chain" unknown;
    let unknown := select (fun r => negb (py_eq (at_col "chain" r) (Str "None"))) unknown in
    linearity_std ← call process_dataframe_def
                      [VFrame linearity_std; VTable rt_dict; VStr folder_path];
    drift_std ← call process_dataframe_def [VFrame drift_std; VTable rt_dict; VStr folder_path];
    mret (linearity_std, drift_std, unknown)
  else
    _ ← attribute "chain" unknown;
    mret (linearity_std, drift_std,
          select (fun r => isin_str whitelist (at_col "chain" r)) unknown).

(** Lines 119-120: [for i in [...]: i = i[~i.chain.isna()]]. The
    assignment binds the loop variable [i]; the three tables stay as
    they are. *)
Definition drop_unlabeled_loop (tables : list frame) : M unit :=
  for_each tables
    (fun i _ =>
       _ ← attribute "chain" i;
       let i := select (fun r => negb (isna (at_col "chain" r))) i in
       mret tt)
    tt.

(** The stages before the operator is asked: lines 72-110. [df] is the
    frame [pd.read_csv(data_location)] returned. *)
Definition prepare (df : frame) (log_file_path isotope : string) : M (frame * frame * frame) :=
  df ← normalize isotope df;
  df ← add_timestamps df;
  segregate df log_file_path.

(** Lines 119-122: the loop, the correction log, the [return]. *)
Definition return_tables (tables : frame * frame * frame)
    : M (frame * frame * frame * list (string * Z)) :=
  let '(linearity_std, drift_std, unknown) := tables in
  _ ← drop_unlabeled_loop [unknown; drift_std; linearity_std];
  let correction_log := make_correction_df in
  mret (linearity_std, drift_std, unknown, correction_log).

Definition import_data (df : frame) (folder_path log_file_path isotope : string)
    : M (frame * frame * frame * list (string * Z)) :=
  tables ← prepare df log_file_path isotope;
  rt_dict ← ask_user_for_rt log_file_path;
  tables ← classify rt_dict folder_path tables;
  return_tables tables.

End Program.

(** * Notions used in the statements *)

(** A pattern without [+] is matched literally. *)
Fixpoint plain (pat : string) : bool :=
  match pat with
  | EmptyString => true
  | String c pat' => negb (Ascii.eqb c "+") && plain pat'
  end.

(** A test for subsequences, by greedy matching. *)
Fixpoint is_subsequence (k l : list row) : bool :=
  match k, l with
  | [], _ => true
  | _ :: _, [] => false
  | x :: k', y :: l' => if decide (x = y) then is_subsequence k' l' else is_subsequence k l'
  end.

(** The order of the time signatures after the sort: numbers ascending,
    the null signature last. *)
Definition signature_le (a b : cell) : Prop :=
  match a, b with
  | Num x, Num y => (x <= y)%Q
  | Num _, _ => True
  | _, Num _ => False
  | _, _ => True
  end.

(** The values are [q1], [q2] or later ones. *)
Definition from_two (q1 q2 : Q) (c : cell) : Prop :=
  exists x, c = Num x /\ (x == q1 \/ x == q2 \/ q2 < x)%Q.

(** Lines 86-87 leave every row with a numeric timestamp that is the day
    number of its parsed timestamp. *)
Definition stamped (r : row) : Prop :=
  at_col "date-time" r = date2num (at_col "date-time_true" r).

(** The rows [closest_rt] selects depend on the rows of the frame only. *)
Definition closest (rs : list row) (t : cell) (R : Q) : list row :=
  rows (closest_rows (Frame [] rs) t R default_threshold).

(** One chain of the reference table applied to one row, the candidates
    being looked up among the rows [base]. A near-tie leaves the row as it
    is: this is the step as it runs when nobody has to be asked. *)
Definition label_step (base : list row) (t : cell) (item : string * option Q) (r : row) : row :=
  match item.2 with
  | None => r
  | Some R =>
      match closest base t R with
      | [r'] =>
          if py_eq (at_col "Time" r) t && py_eq (at_col "Rt" r) (at_col "Rt" r')
          then <["chain" := Str item.1]> r
          else r
      | _ => r
      end
  end.

Definition label_group (base : list row) (items : rt_table) (t : cell) (r : row) : row :=
  fold_left (fun r item => label_step base t item r) items r.

Definition label_all (base : list row) (items : rt_table) (ts : list cell) (r : row) : row :=
  fold_left (fun r t => label_group base items t r) ts r.

(** No injection has two candidates for a chain. *)
Definition settled (base : list row) (items : rt_table) (ts : list cell) : Prop :=
  forall t c R, t ∈ ts -> (c, Some R) ∈ items -> (length (closest base t R) <= 1)%nat.

(** A function on rows that touches the chain label only. *)
Definition chain_only (F : row -> row) : Prop :=
  forall (r : row) (k : string), k <> "chain" -> F r !! k = r !! k.

Definition needs_rt (items : rt_table) : Prop := exists c R, (c, Some R) ∈ items.

Definition accepted (r : row) : bool := isin_str accepted_chains (at_col "chain" r).

Definition keys_accepted (items : rt_table) : Prop :=
  forall c R, (c, Some R) ∈ items -> c ∈ accepted_chains.

Definition group (rs : list row) (t : cell) : list row :=
  List.filter (fun r => py_eq (at_col "Time" r) t) rs.

Definition difference (R : Q) (r : row) : cell := abs_difference R (at_col "Rt" r).

Definition limit (rs : list row) (t : cell) (R : Q) : option Q :=
  (fun m => (m * (1 + default_threshold))%Q) <$> series_min (difference R <$> group rs t).

(** The injection times of a table; the label the classifier gives a row
    of it; the rows that leave the classifier. *)
Definition times_of (base : list row) : list cell := unique (at_col "Time" <$> base).

Definition relabel (base : list row) (items : rt_table) : row -> row :=
  label_all base items (times_of base).

Definition kept (base : list row) (items : rt_table) (r : row) : bool :=
  accepted (relabel base items r).

Definition kept_rows (base : list row) (items : rt_table) : list row :=
  List.filter (kept base items) base.

(** The table as the classifier starts on it: every label cleared. *)
Definition cleared (df : frame) : frame := set_column "chain" (fun _ => NA) df.

(** The test of [closest_rt] on two peaks of one injection, in the binary64
    arithmetic of pandas: is each difference within the band around the
    smaller one? *)
Definition band64 (rt1 rt2 target_rt threshold : float) : bool * bool :=
  let d1 := PrimFloat.abs (rt1 - target_rt)%float in
  let d2 := PrimFloat.abs (rt2 - target_rt)%float in
  let min_diff := if PrimFloat.ltb d2 d1 then d2 else d1 in
  (PrimFloat.leb d1 (min_diff * (1 + threshold))%float,
   PrimFloat.leb d2 (min_diff * (1 + threshold))%float).

(** ** Notions used in the further properties *)

(** The row [add_timestamps] makes of a row, [top] being the latest
    numeric timestamp of the table. *)
Definition stamp_row {ext : Externals} (top : option Q) (r : row) : row :=
  let r1 := <["date-time_true" := default NA (date_time_true r)]> r in
  let r2 := <["date-time" := date2num (at_col "date-time_true" r1)]> r1 in
  <["time_rel" := minus_max top (at_col "date-time" r2)]> r2.

(** The column that line 80 renames: the first of the header in which the
    source name is found. *)
Definition renamed_column (name : string) (df : frame) : string :=
  default name (head (List.filter (Re.search name) (columns df))).

(** The names line 78 goes through. *)
Definition source_names (isotope : string) : list string :=
  match iso_rat_of isotope with
  | Some iso_rat => [iso_rat; "Area All"; "Component"]
  | None => []
  end.

(** The value kept for a typed entry. *)
Definition entry_value {ext : Externals} (rt : string) (v : option Q) : Prop :=
  match v with
  | None => PyStr.lower (PyStr.strip rt) = "none"
  | Some q => PyStr.lower (PyStr.strip rt) <> "none" /\ py_float (PyStr.strip rt) = Some q
  end.

(** The two questions of [ask_user_for_rt], as they reach the operator. *)
Definition detect_question : string :=
  "Do you want to detect components in this dataset by retention time? (Y/N):".

Definition times_question : string :=
  "Enter retention times for C16, C18, C20, C22, C24, C26, C28, C30, C32 separated by commas (type 'none' for any you don't want to use):".

(** The answers that are neither a yes nor a no. *)
Definition unrecognized {ext : Externals} (line : string) : Prop :=
  pos_response (PyStr.lower (PyStr.strip line)) = false
  /\ neg_response (PyStr.lower (PyStr.strip line)) = false.

(** Two rows that differ in their chain label at most. *)
Definition same_data (r0 r : row) : Prop := forall k : string, k <> "chain" -> r !! k = r0 !! k.

(** A row without label, or with the chain of an entry of the reference
    table that has a retention time. *)
Definition labelled_from (items : rt_table) (r : row) : Prop :=
  at_col "chain" r = NA \/ exists c R, (c, Some R) ∈ items /\ at_col "chain" r = Str c.

(** What the two loops keep. *)
Definition classifier_invariant (items : rt_table) (df0 : frame) (w0 : world)
    (df : frame) (w : world) : Prop :=
  columns df = columns df0
  /\ Forall2 same_data (rows df0) (rows df)
  /\ Forall (labelled_from items) (rows df)
  /\ (w = w0 \/ "Area All" ∈ columns df0).

(** The columns the loop of lines 78-84 does not touch. *)
Definition untouched (isotope c : string) : Prop :=
  Forall (fun name => Re.search name c = false /\ name <> c) (source_names isotope)
  /\ c ∉ [isotope; "area"; "chain"].

(** ** A concrete environment for running the program

    Unsigned decimal literals for [float] (the only ones the sample runs
    type), decimal literals for [int], the usual short answers for
    the operator's yes and no, and the parses of the date strings that the
    sample runs below use (all of them under the first format, counted in
    seconds from 1970-01-01 00:00:00). *)

Module Sample.

Definition digit (a : ascii) : option Z :=
  let n := nat_of_ascii a in
  if ((48 <=? n) && (n <=? 57))%nat then Some (Z.of_nat n - 48)%Z else None.

Fixpoint digits (s : string) (acc : Z) : option Z :=
  match s with
  | EmptyString => Some acc
  | String a s' =>
      match digit a with
      | Some d => digits s' (10 * acc + d)%Z
      | None => None
      end
  end.

Definition natural (s : string) : option Z :=
  match s with
  | EmptyString => None
  | _ => digits s 0%Z
  end.

Definition integer (s : string) : option Z :=
  match s with
  | String "-"%char s' => Z.opp <$> natural s'
  | _ => natural s
  end.

Definition decimal (s : string) : option Q :=
  match PyStr.split "."%char s with
  | [i] => inject_Z <$> natural i
  | [i; f] =>
      match natural i, natural f with
      | Some n, Some m =>
          let scale := Pos.pow 10 (Pos.of_nat (String.length f)) in
          Some (Qmake (n * Zpos scale + m) scale)
      | _, _ => None
      end
  | _ => None
  end.

Definition parsed_dates : list (string * Z) :=
  [("01/01/1970 00:00:10", 10%Z);
   ("01/01/1970 00:00:20", 20%Z);
   ("01/01/1970 00:00:30", 30%Z);
   ("01/01/1970 00:00:40", 40%Z);
   ("01/01/1970 00:00:50", 50%Z)].

Definition strptime_sample (date_str fmt : string) : option Z :=
  if String.eqb fmt "%m/%d/%Y %H:%M:%S" then
    snd <$> List.find (fun e => String.eqb (fst e) date_str) parsed_dates
  else None.

#[export] Instance env : Externals := {|
  strptime := strptime_sample;
  py_float := decimal;
  py_int := integer;
  pos_response := fun s => String.eqb s "y" || String.eqb s "yes";
  neg_response := fun s => String.eqb s "n" || String.eqb s "no"
|}.

(** One line of an export file. *)
Definition peak (identifier date time : string) (rt : Q) (area ratio : Q)
    (component : cell) : row :=
  list_to_map
    [("Identifier 1", Str identifier); ("Date", Str date); ("Time", Str time);
     ("Rt", Num rt); ("Area All", Num area); ("d 2H/1H", Num ratio);
     ("Component", component)].

Definition export_header : list string :=
  ["Identifier 1"; "Date"; "Time"; "Rt"; "Area All"; "d 2H/1H"; "Component"].

Definition quiet (lines : list string) : world := World lines [] [].

(** A run of eleven peaks: six injections of the drift standard at five
    distinct times, not in chronological order; two peaks of the linearity
    standard, one of them labelled outside its pair; three other peaks. *)
Definition run_table : frame :=
  Frame export_header
    [ peak "C18C24 std" "01/01/1970" "00:00:40" 500 10 (-100) (Str "C18");
      peak "C18C24 std" "01/01/1970" "00:00:30" 510 11 (-101) (Str "C24");
      peak "C18C24 std" "01/01/1970" "00:00:10" 500 12 (-102) (Str "C18");
      peak "C18C24 std" "01/01/1970" "00:00:20" 510 13 (-103) (Str "C24");
      peak "C18C24 std" "01/01/1970" "00:00:50" 500 14 (-104) (Str "C18");
      peak "C18C24 std" "01/01/1970" "00:00:50" 510 15 (-105) (Str "C24");
      peak "C20C28 std" "01/01/1970" "00:00:20" 520 16 (-106) (Str "C28");
      peak "C20C28 std" "01/01/1970" "00:00:20" 505 17 (-107) (Str "C22");
      peak "leaf wax 7" "01/01/1970" "00:00:30" 515 18 (-108) (Str "C26");
      peak "H3+ factor" "01/01/1970" "00:00:10" 100 19 (-109) NA;
      peak "CH3 ester" "01/01/1970" "00:00:30" 495 20 (-110) (Str "C16") ].

(** The table after lines 72-88. *)
Definition normalized_table : frame :=
  match (normalize "dD" run_table ≫= add_timestamps) (quiet []) with
  | (Ok df, _) => df
  | (Err _, _) => run_table
  end.

(** Its three subsets, as lines 90-110 produce them. *)
Definition segregated : frame * frame * frame :=
  match fst (segregate normalized_table "log" (quiet [])) with
  | Ok tables => tables
  | Err _ => (run_table, run_table, run_table)
  end.

Definition linearity_out : frame := segregated.1.1.
Definition drift_out : frame := segregated.1.2.
Definition unknown_out : frame := segregated.2.

(** The row of [normalized_table] at a position (counted from 0). *)
Definition nth_row (i : nat) : row := default ∅ (rows normalized_table !! i).

(** An export without a ["Component"] column. *)
Definition unlabelled_export : frame :=
  Frame ["Identifier 1"; "Date"; "Time"; "Rt"; "Area All"; "d 2H/1H"]
    [ delete "Component" (peak "leaf wax 7" "01/01/1970" "00:00:30" 515 18 (-108) NA) ].

Definition wax_peak (time : string) (rt : Q) : row :=
  list_to_map [("Identifier 1", Str "leaf wax 7"); ("Time", Str time);
               ("Rt", Num rt); ("Area All", Num 18)].

(** One injection with two peaks. *)
Definition injection (rt1 rt2 : Q) : frame :=
  Frame ["Identifier 1"; "Time"; "Rt"; "Area All"]
    [ wax_peak "00:00:30" rt1; wax_peak "00:00:30" rt2 ].

(** Two injections of four and two peaks, and a reference table that
    singles out one peak per chain. *)
Definition two_injections : frame :=
  Frame ["Identifier 1"; "Time"; "Rt"; "Area All"]
    [ wax_peak "00:00:30" 400; wax_peak "00:00:30" 500; wax_peak "00:00:30" 600;
      wax_peak "00:00:30" 700; wax_peak "00:00:40" 410; wax_peak "00:00:40" 690 ].

Definition two_references : rt_table :=
  [("C16", Some 410%Q); ("C18", Some 505%Q); ("C20", None); ("C22", Some 480%Q);
   ("C24", None); ("C26", None); ("C28", None); ("C30", None); ("C32", None)].

(** [two_injections], classified with [two_references]. *)
Definition classified : frame :=
  match fst (process_dataframe two_injections (Some two_references) "out" "log" (quiet [])) with
  | Ok df => df
  | Err _ => two_injections
  end.

(** A reference table with a key that is not a chain label. *)
Definition foreign_references : rt_table := [("C16", Some 100%Q); ("C34", Some 200%Q)].


End Sample.

(** * Properties *)

(** ** Running the monad *)

Lemma bind_Ok {A B : Type} (m : M A) (f : A -> M B) (w w' : world) (b : B) :
  (m ≫= f) w = (Ok b, w') <-> exists a w1, m w = (Ok a, w1) /\ f a w1 = (Ok b, w').
Proof.
  unfold mbind, M_bind. split.
  - destruct (m w) as [[a|e] w1]; [eauto | discriminate].
  - intros (a & w1 & -> & Hf). exact Hf.
Qed.

Lemma bind_run {A B : Type} (m : M A) (f : A -> M B) (w w1 : world) (a : A) :
  m w = (Ok a, w1) -> (m ≫= f) w = f a w1.
Proof. unfold mbind, M_bind. intros ->. reflexivity. Qed.

Lemma bind_Err {A B : Type} (m : M A) (f : A -> M B) (w w1 : world) (e : exn) :
  m w = (Err e, w1) -> (m ≫= f) w = (Err e, w1).
Proof. unfold mbind, M_bind. intros ->. reflexivity. Qed.

Lemma ret_Ok {A : Type} (a b : A) (w w' : world) :
  mret (M := M) a w = (Ok b, w') <-> a = b /\ w = w'.
Proof. unfold mret, M_ret. split; [intros [= -> ->] | intros [-> ->]]; auto. Qed.

Lemma raise_Ok {A : Type} (e : exn) (a : A) (w w' : world) :
  raise e w = (Ok a, w') -> False.
Proof. discriminate. Qed.

Lemma column_Ok name df w l w' :
  column name df w = (Ok l, w') -> name ∈ columns df /\ w' = w.
Proof. unfold column. case_bool_decide; [intros [= _ ->]; auto | discriminate]. Qed.

Lemma attribute_Ok name df w l w' :
  attribute name df w = (Ok l, w') -> name ∈ columns df /\ w' = w.
Proof. unfold attribute. case_bool_decide; [intros [= _ ->]; auto | discriminate]. Qed.

Lemma attribute_run name df w :
  name ∈ columns df -> attribute name df w = (Ok (at_col name <$> rows df), w).
Proof. intros Hin. unfold attribute. rewrite bool_decide_eq_true_2; done. Qed.

Lemma column_run name df w :
  name ∈ columns df -> column name df w = (Ok (at_col name <$> rows df), w).
Proof. intros Hin. unfold column. rewrite bool_decide_eq_true_2; done. Qed.

Lemma append_to_log_run path msg w :
  append_to_log path msg w = (Ok tt, World (stdin w) (stdout w) (logfile w ++ [msg])).
Proof. reflexivity. Qed.

(** Taking a successful run apart, one bind at a time. *)
Ltac run_inv H :=
  lazymatch type of H with
  | (_ ≫= _) _ = (Ok _, _) =>
      let a := fresh "a" in
      let w := fresh "w" in
      let H1 := fresh "Hrun" in
      let H2 := fresh "Hrun" in
      apply bind_Ok in H; destruct H as (a & w & H1 & H2);
      run_inv H1; run_inv H2
  | mret _ _ = (Ok _, _) =>
      apply ret_Ok in H; destruct H as [? ?]; simplify_eq
  | raise _ _ = (Ok _, _) => destruct (raise_Ok _ _ _ _ H)
  | attribute _ _ _ = (Ok _, _) =>
      let Hin := fresh "Hcol" in
      apply attribute_Ok in H; destruct H as [Hin ?]; subst
  | column _ _ _ = (Ok _, _) =>
      let Hin := fresh "Hcol" in
      apply column_Ok in H; destruct H as [Hin ?]; subst
  | append_to_log _ _ _ = (Ok _, _) =>
      rewrite append_to_log_run in H; simplify_eq
  | _ => idtac
  end.

(** ** Selections *)

Lemma elem_of_select mask df r :
  r ∈ rows (select mask df) <-> r ∈ rows df /\ mask r = true.
Proof. unfold select; simpl. rewrite !list_elem_of_In. apply filter_In. Qed.

Lemma columns_select mask df : columns (select mask df) = columns df.
Proof. reflexivity. Qed.

Lemma sublist_select mask df : rows (select mask df) `sublist_of` rows df.
Proof.
  unfold select; simpl. induction (rows df) as [|r l IH]; simpl; [constructor|].
  destruct (mask r); [by apply sublist_skip | by apply sublist_cons].
Qed.

Lemma elem_of_sort_values key df r :
  r ∈ rows (sort_values key df) <-> r ∈ rows df.
Proof. unfold sort_values; simpl. by rewrite merge_sort_Permutation. Qed.

Lemma elem_of_remove_first_two df r :
  r ∈ rows (remove_first_two df) -> r ∈ rows df.
Proof.
  unfold remove_first_two. rewrite elem_of_select, elem_of_sort_values. tauto.
Qed.

(** ** What a successful segregation returns *)

Lemma drop_calibration_Ok unknown w out w' :
  drop_calibration unknown w = (Ok out, w') ->
  out = select (fun r => negb (default false (str_contains "H3+" (at_col "Identifier 1" r))))
               unknown
  /\ Forall (fun r => is_str (at_col "Identifier 1" r) = true) (rows unknown)
  /\ w' = w.
Proof.
  unfold drop_calibration.
  destruct (forallb _ _) eqn:Hall; [|discriminate].
  intros [= <- <-]. repeat split.
  apply Forall_forall. intros r Hr.
  rewrite forallb_forall in Hall. apply Hall. by apply list_elem_of_In.
Qed.

Lemma segregate_Ok df lp w linearity_std drift_std unknown w' :
  segregate df lp w = (Ok (linearity_std, drift_std, unknown), w') ->
  linearity_std = linearity_candidates df
  /\ drift_std = remove_first_two (drift_candidates df)
  /\ unknown = select (fun r => negb (default false (str_contains "H3+" (at_col "Identifier 1" r))))
                      (unmarked df)
  /\ Forall (fun r => is_str (at_col "Identifier 1" r) = true) (rows (unmarked df))
  /\ "chain" ∈ columns df.
Proof.
  unfold segregate. intros Hrun. run_inv Hrun.
  match goal with
  | Hd : drop_calibration _ _ = _ |- _ => apply drop_calibration_Ok in Hd as (-> & Hall & _)
  end.
  auto.
Qed.

(** ** Segregation: the three subsets are pairwise disjoint *)

Lemma isin_str_pairs_disjoint c :
  isin_str ["C20"; "C28"] c = true -> isin_str ["C18"; "C24"] c = true -> False.
Proof.
  destruct c as [|s|q|t]; try discriminate.
  unfold isin_str, isin; simpl. rewrite !orb_false_r, !orb_true_iff, !String.eqb_eq.
  intros [-> | ->] [? | ?]; discriminate.
Qed.

Lemma elem_of_linearity_candidates df r :
  r ∈ rows (linearity_candidates df) <->
  r ∈ rows df /\ has_markers "C20" "C28" r = true
  /\ isin_str ["C20"; "C28"] (at_col "chain" r) = true.
Proof. unfold linearity_candidates. rewrite !elem_of_select. tauto. Qed.

Lemma elem_of_drift_candidates df r :
  r ∈ rows (drift_candidates df) <->
  r ∈ rows df /\ has_markers "C18" "C24" r = true
  /\ isin_str ["C18"; "C24"] (at_col "chain" r) = true.
Proof. unfold drift_candidates. rewrite !elem_of_select. tauto. Qed.

Lemma elem_of_unmarked df r :
  r ∈ rows (unmarked df) <->
  r ∈ rows df /\ has_markers "C18" "C24" r = false /\ has_markers "C20" "C28" r = false.
Proof.
  unfold unmarked. rewrite !elem_of_select, !negb_true_iff. tauto.
Qed.

(** C7. Whenever segregation succeeds, no row is in two of the three
    subsets: linearity and drift rows carry labels from disjoint pairs,
    and an unknown row carries neither marker pair. *)
Theorem segregation_exclusive df lp w linearity_std drift_std unknown w' :
  segregate df lp w = (Ok (linearity_std, drift_std, unknown), w') ->
  forall r : row,
    ~ (r ∈ rows linearity_std /\ r ∈ rows drift_std)
    /\ ~ (r ∈ rows linearity_std /\ r ∈ rows unknown)
    /\ ~ (r ∈ rows drift_std /\ r ∈ rows unknown).
Proof.
  intros Hrun r. apply segregate_Ok in Hrun as (-> & -> & -> & _ & _).
  repeat split.
  - intros [Hl Hd]. apply elem_of_remove_first_two in Hd.
    apply elem_of_linearity_candidates in Hl as (_ & _ & Hl).
    apply elem_of_drift_candidates in Hd as (_ & _ & Hd).
    eapply isin_str_pairs_disjoint; eauto.
  - intros [Hl Hu]. apply elem_of_select in Hu as [Hu _].
    apply elem_of_linearity_candidates in Hl as (_ & Hl & _).
    apply elem_of_unmarked in Hu as (_ & _ & Hu). congruence.
  - intros [Hd Hu]. apply elem_of_select in Hu as [Hu _].
    apply elem_of_remove_first_two in Hd.
    apply elem_of_drift_candidates in Hd as (_ & Hd & _).
    apply elem_of_unmarked in Hu as (_ & Hu & _). congruence.
Qed.

Lemma sample_segregation :
  segregate Sample.normalized_table "log" (Sample.quiet [])
  = (Ok (Sample.linearity_out, Sample.drift_out, Sample.unknown_out),
     World [] []
       ["Number of linearity standards analyzed: 1";
        "Number of Drift standards analyzed: 3";
        "First two drift standards ignored."]).
Proof. vm_compute. reflexivity. Qed.

Lemma segregation_exclusive_witness :
  ~ (Sample.nth_row 6 ∈ rows Sample.linearity_out /\ Sample.nth_row 6 ∈ rows Sample.drift_out)
  /\ ~ (Sample.nth_row 6 ∈ rows Sample.linearity_out /\ Sample.nth_row 6 ∈ rows Sample.unknown_out)
  /\ ~ (Sample.nth_row 6 ∈ rows Sample.drift_out /\ Sample.nth_row 6 ∈ rows Sample.unknown_out).
Proof.
  apply (segregation_exclusive Sample.normalized_table "log" (Sample.quiet [])
           Sample.linearity_out Sample.drift_out Sample.unknown_out
           (World [] []
              ["Number of linearity standards analyzed: 1";
               "Number of Drift standards analyzed: 3";
               "First two drift standards ignored."])).
  vm_compute. reflexivity.
Defined.

(** The union need not cover the table: the calibration peak, and the
    peak of the linearity standard labelled outside its pair, are rows of
    the table that reach none of the three subsets. *)
Lemma rows_in_no_subset :
  Forall (fun r => r ∈ rows Sample.normalized_table
                   /\ (r ∉ rows Sample.linearity_out)
                   /\ (r ∉ rows Sample.drift_out)
                   /\ (r ∉ rows Sample.unknown_out))
         [Sample.nth_row 9; Sample.nth_row 7]
  /\ at_col "Identifier 1" (Sample.nth_row 9) = Str "H3+ factor"
  /\ at_col "Identifier 1" (Sample.nth_row 7) = Str "C20C28 std"
  /\ at_col "chain" (Sample.nth_row 7) = Str "C22".
Proof.
  split; [|by vm_compute].
  apply (bool_decide_unpack _). vm_compute. exact I.
Qed.

(** ** The patterns of [str.contains], read as regular expressions *)

Lemma compile_plain c pat :
  plain pat = true -> Re.compile (String c pat) = (c, false) :: Re.compile pat.
Proof.
  destruct pat as [|d pat]; [reflexivity|]. simpl.
  intros [Hd _]%andb_true_iff. apply negb_true_iff, Ascii.eqb_neq in Hd.
  destruct d as [[] [] [] [] [] [] [] []]; congruence.
Qed.

Lemma match_here_plain pat s :
  plain pat = true -> Re.match_here s (Re.compile pat) = String.prefix pat s.
Proof.
  revert s. induction pat as [|c pat IH]; intros s Hp.
  - destruct s; reflexivity.
  - simpl in Hp. apply andb_true_iff in Hp as [_ Hp].
    rewrite compile_plain by done. destruct s as [|a s]; [reflexivity|].
    simpl. rewrite IH by done.
    destruct (Ascii.eqb_spec a c) as [->|Hne].
    + by destruct (ascii_dec c c).
    + by destruct (ascii_dec c a); [subst|].
Qed.

Lemma search_plain pat s :
  plain pat = true -> Re.search pat s = has_substring pat s.
Proof.
  intros Hp. unfold Re.search.
  induction s as [|a s IH]; cbn [Re.search_atoms has_substring].
  - by rewrite match_here_plain.
  - rewrite IH. f_equal. by apply match_here_plain.
Qed.

(** ["H3+"] is an [H] followed by one or more [3]: it is found exactly
    where the two characters ["H3"] are. *)
Lemma search_H3_plus s : Re.search "H3+" s = has_substring "H3" s.
Proof.
  unfold Re.search. change (Re.compile "H3+") with [("H"%char, false); ("3"%char, true)].
  induction s as [|a s IH]; [reflexivity|].
  cbn [Re.search_atoms has_substring]. rewrite IH. f_equal.
  cbn [Re.match_here String.prefix].
  destruct (Ascii.eqb_spec a "H") as [->|Hne].
  - destruct (ascii_dec "H" "H"); [|done]. destruct s as [|b s]; [reflexivity|].
    cbn [Re.match_here String.prefix andb orb].
    destruct (Ascii.eqb_spec b "3") as [->|Hne].
    + destruct (ascii_dec "3" "3"); [|done].
      destruct s; cbn [Re.match_here String.prefix andb]; by rewrite ?orb_true_r.
    + by destruct (ascii_dec "3" b); [subst|].
  - by destruct (ascii_dec "H" a); [subst|].
Qed.

(** ** Segregation: the unknown samples *)

(** What lines 106-110 keep: the rows that carry neither marker pair and
    in whose identifier the pattern ["H3+"] finds no match. *)
Lemma elem_of_unknown df lp w linearity_std drift_std unknown w' :
  segregate df lp w = (Ok (linearity_std, drift_std, unknown), w') ->
  forall r : row,
    r ∈ rows unknown <->
    r ∈ rows df /\ has_markers "C18" "C24" r = false /\ has_markers "C20" "C28" r = false
    /\ exists s, at_col "Identifier 1" r = Str s /\ has_substring "H3" s = false.
Proof.
  intros Hrun r. apply segregate_Ok in Hrun as (_ & _ & -> & Hstr & _).
  rewrite elem_of_select, elem_of_unmarked. split.
  - intros [(Hr & H1 & H2) Hc]. repeat split; try done.
    rewrite Forall_forall in Hstr.
    specialize (Hstr r). rewrite elem_of_unmarked in Hstr.
    specialize (Hstr (conj Hr (conj H1 H2))).
    destruct (at_col "Identifier 1" r) as [|s| |]; try discriminate.
    exists s. split; [done|]. simpl in Hc. rewrite search_H3_plus in Hc.
    by apply negb_true_iff.
  - intros (Hr & H1 & H2 & s & Hs & Hc). split; [done|].
    rewrite Hs. simpl. rewrite search_H3_plus, Hc. done.
Qed.

(** C8 (the code at the failing input). The peak ["CH3 ester"] carries
    neither marker pair and its identifier does not contain ["H3+"], yet
    it is not among the unknown samples: the pattern is read as a regular
    expression and matches the ["H3"] of the name. *)
Theorem unknown_drops_H3_identifier :
  let r := Sample.nth_row 10 in
  r ∈ rows Sample.normalized_table
  /\ at_col "Identifier 1" r = Str "CH3 ester"
  /\ (has_substring "C18" "CH3 ester" && has_substring "C24" "CH3 ester") = false
  /\ (has_substring "C20" "CH3 ester" && has_substring "C28" "CH3 ester") = false
  /\ has_substring "H3+" "CH3 ester" = false
  /\ segregate Sample.normalized_table "log" (Sample.quiet [])
     = (Ok (Sample.linearity_out, Sample.drift_out, Sample.unknown_out),
        World [] []
          ["Number of linearity standards analyzed: 1";
           "Number of Drift standards analyzed: 3";
           "First two drift standards ignored."])
  /\ r ∉ rows Sample.unknown_out.
Proof.
  cbv zeta. split; [|split; [|split; [|split; [|split; [|split]]]]];
    try (vm_compute; reflexivity).
  - apply (bool_decide_unpack _). vm_compute. exact I.
  - apply (bool_decide_unpack _). vm_compute. exact I.
Qed.

(** ** The operator's reference table *)

Lemma build_rt_dict_keys {ext : Externals} pairs w d w' :
  build_rt_dict pairs w = (Ok d, w') -> d.*1 = pairs.*1.
Proof.
  revert w d w'. induction pairs as [|[chain rt] pairs IH]; intros w d w' Hrun.
  - simpl in Hrun. run_inv Hrun. reflexivity.
  - simpl in Hrun. run_inv Hrun. simpl. f_equal. eauto.
Qed.

Lemma ask_once_keys {ext : Externals} lp w d w' :
  ask_once lp w = (Ok (Some (Some d)), w') -> d.*1 = chain_lengths.
Proof.
  unfold ask_once. intros Hrun.
  apply bind_Ok in Hrun as (response & w0 & _ & Hrun).
  destruct (pos_response _).
  - apply bind_Ok in Hrun as ([] & w1 & _ & Hrun).
    apply bind_Ok in Hrun as (rt_values & w2 & _ & Hrun).
    destruct (_ =? _)%nat eqn:Hlen.
    + apply Nat.eqb_eq in Hlen.
      apply bind_Ok in Hrun as (d0 & w3 & Hb & Hrun). run_inv Hrun.
      apply build_rt_dict_keys in Hb. rewrite Hb. apply fst_zip. lia.
    + apply bind_Ok in Hrun as ([] & w3 & _ & Hrun). run_inv Hrun.
  - destruct (neg_response _);
      apply bind_Ok in Hrun as ([] & w1 & _ & Hrun).
    + apply bind_Ok in Hrun as ([] & w2 & _ & Hrun). run_inv Hrun.
    + run_inv Hrun.
Qed.

Lemma while_true_Ok {A : Type} fuel (body : M (option A)) w a w' :
  while_true fuel body w = (Ok a, w') -> exists w1, body w1 = (Ok (Some a), w').
Proof.
  revert w. induction fuel as [|fuel IH]; intros w Hrun; [discriminate|].
  simpl in Hrun. apply bind_Ok in Hrun as ([b|] & w1 & Hbody & Hrest).
  - run_inv Hrest. eauto.
  - eauto.
Qed.

(** A table the operator has entered has the nine chain labels as its
    keys, in order. *)
Lemma ask_user_for_rt_keys {ext : Externals} lp w d w' :
  ask_user_for_rt lp w = (Ok (Some d), w') -> d.*1 = chain_lengths.
Proof.
  unfold ask_user_for_rt. intros [w1 Hbody]%while_true_Ok.
  by apply ask_once_keys in Hbody.
Qed.

(** Each turn of the loop that goes round again has read a line. *)
Lemma ask_once_again {ext : Externals} lp w w' :
  ask_once lp w = (Ok None, w') -> (length (stdin w') < length (stdin w))%nat.
Proof.
  unfold ask_once, input. intros Hrun. apply bind_Ok in Hrun as (a & w1 & Hin & Hrun).
  destruct (stdin w) as [|line rest] eqn:Hw; [discriminate|]. simplify_eq. simpl.
  destruct (pos_response _).
  - apply bind_Ok in Hrun as ([] & w2 & Hlog & Hrun). rewrite append_to_log_run in Hlog.
    simplify_eq. apply bind_Ok in Hrun as (b & w3 & Hin & Hrun).
    simpl in Hin. destruct rest as [|line2 rest]; [discriminate|]. simplify_eq.
    destruct (_ =? _)%nat.
    + run_inv Hrun.
    + apply bind_Ok in Hrun as ([] & w4 & Hp & Hrun). unfold print in Hp. simplify_eq.
      run_inv Hrun. simpl. lia.
  - destruct (neg_response _).
    + run_inv Hrun.
    + apply bind_Ok in Hrun as ([] & w4 & Hp & Hrun). unfold print in Hp. simplify_eq.
      run_inv Hrun. simpl. lia.
Qed.

(** So the loop never runs out of turns: any larger number of turns gives
    the same run. *)
Lemma ask_user_for_rt_fuel {ext : Externals} lp fuel w :
  (length (stdin w) < fuel)%nat ->
  while_true fuel (ask_once lp) w = ask_user_for_rt lp w.
Proof.
  unfold ask_user_for_rt.
  remember (length (stdin w)) as n eqn:Hn. revert fuel w Hn.
  induction (lt_wf n) as [n _ IH]. intros fuel w Hn Hlt.
  destruct fuel as [|fuel]; [lia|]. simpl.
  unfold mbind, M_bind. destruct (ask_once lp w) as [[[a|]|e] w1] eqn:Hbody; try reflexivity.
  apply ask_once_again in Hbody.
  rewrite (IH (length (stdin w1))) by (try reflexivity; lia).
  symmetry. destruct n as [|n]; [lia|].
  rewrite (IH (length (stdin w1))) by (try reflexivity; lia).
  reflexivity.
Qed.

(** ** The call of [process_dataframe] in [import_data] *)

Lemma call_three_arguments {ext : Externals} a b c w :
  call process_dataframe_def [a; b; c] w = (Err TypeError, w).
Proof. reflexivity. Qed.

Lemma classify_truthy {ext : Externals} rt_dict folder_path tables w :
  truthy rt_dict = true -> classify rt_dict folder_path tables w = (Err TypeError, w).
Proof.
  intros Ht. destruct tables as [[l d] u]. unfold classify. rewrite Ht.
  apply bind_Err, call_three_arguments.
Qed.

Lemma classify_falsy {ext : Externals} rt_dict folder_path l d u w :
  truthy rt_dict = false -> "chain" ∈ columns u ->
  classify rt_dict folder_path (l, d, u) w
  = (Ok (l, d, select (fun r => isin_str whitelist (at_col "chain" r)) u), w).
Proof.
  intros Ht Hc. unfold classify. rewrite Ht.
  erewrite bind_run by (by apply attribute_run). reflexivity.
Qed.

Lemma classify_Ok {ext : Externals} rt_dict folder_path l d u w l' d' u' w' :
  classify rt_dict folder_path (l, d, u) w = (Ok (l', d', u'), w') ->
  truthy rt_dict = false /\ l' = l /\ d' = d
  /\ u' = select (fun r => isin_str whitelist (at_col "chain" r)) u /\ w' = w.
Proof.
  destruct (truthy rt_dict) eqn:Ht.
  - by rewrite classify_truthy.
  - unfold classify. rewrite Ht. intros Hrun. run_inv Hrun. auto.
Qed.

Lemma columns_remove_first_two df :
  columns (remove_first_two df) = columns df.
Proof. reflexivity. Qed.

Lemma drop_unlabeled_loop_run tables w :
  Forall (fun t => "chain" ∈ columns t) tables ->
  drop_unlabeled_loop tables w = (Ok tt, w).
Proof.
  unfold drop_unlabeled_loop. induction 1 as [|t tables Ht _ IH]; [reflexivity|].
  simpl. erewrite bind_run; [exact IH|].
  erewrite bind_run by (by apply attribute_run). reflexivity.
Qed.

(** The loop looks up the chain column of each table and changes none of
    them: its only effect is the [AttributeError] of a table without that
    column. *)
Lemma drop_unlabeled_loop_cases tables w :
  drop_unlabeled_loop tables w
  = (if bool_decide (Forall (fun t => "chain" ∈ columns t) tables)
     then Ok tt else Err AttributeError, w).
Proof.
  destruct (decide (Forall (fun t => "chain" ∈ columns t) tables)) as [Hall|Hnot].
  - rewrite bool_decide_eq_true_2 by done. by apply drop_unlabeled_loop_run.
  - rewrite bool_decide_eq_false_2 by done. apply not_Forall_Exists in Hnot; [|apply _].
    unfold drop_unlabeled_loop. induction tables as [|t tables IH]; [by apply Exists_nil in Hnot|].
    cbn [for_each]. destruct (decide ("chain" ∈ columns t)) as [Hin|Hin].
    + apply Exists_cons in Hnot as [Hnot|Hnot]; [done|].
      erewrite bind_run; [exact (IH Hnot)|].
      erewrite bind_run by (by apply attribute_run). reflexivity.
    + apply bind_Err. apply bind_Err. unfold attribute.
      by rewrite bool_decide_eq_false_2.
Qed.

Lemma prepare_Ok {ext : Externals} df lp isotope w tables w' :
  prepare df lp isotope w = (Ok tables, w') ->
  exists df1 w1 df2 w2,
    normalize isotope df w = (Ok df1, w1)
    /\ add_timestamps df1 w1 = (Ok df2, w2)
    /\ segregate df2 lp w2 = (Ok tables, w').
Proof.
  unfold prepare. intros Hrun.
  apply bind_Ok in Hrun as (df1 & w1 & Hn & Hrun).
  apply bind_Ok in Hrun as (df2 & w2 & Ht & Hrun). eauto 8.
Qed.

Lemma prepare_columns {ext : Externals} df lp isotope w l d u w' :
  prepare df lp isotope w = (Ok (l, d, u), w') ->
  "chain" ∈ columns l /\ "chain" ∈ columns d /\ "chain" ∈ columns u.
Proof.
  intros (df1 & w1 & df2 & w2 & _ & _ & Hs)%prepare_Ok.
  apply segregate_Ok in Hs as (-> & -> & -> & _ & Hc). auto.
Qed.

(** What a normal return of [import_data] went through. *)
Lemma import_data_Ok {ext : Externals} df fp lp isotope w l d u clog w' :
  import_data df fp lp isotope w = (Ok (l, d, u, clog), w') ->
  exists u0 w1 rt_dict,
    prepare df lp isotope w = (Ok (l, d, u0), w1)
    /\ ask_user_for_rt lp w1 = (Ok rt_dict, w')
    /\ truthy rt_dict = false
    /\ u = select (fun r => isin_str whitelist (at_col "chain" r)) u0
    /\ clog = make_correction_df.
Proof.
  unfold import_data. intros Hrun.
  apply bind_Ok in Hrun as ([[l0 d0] u0] & w1 & Hp & Hrun).
  apply bind_Ok in Hrun as (rt & w2 & Ha & Hrun).
  apply bind_Ok in Hrun as ([[l1 d1] u1] & w3 & Hc & Hrun).
  apply classify_Ok in Hc as (Ht & -> & -> & -> & ->).
  unfold return_tables in Hrun.
  apply bind_Ok in Hrun as ([] & w4 & Hl & Hrun).
  pose proof (prepare_columns _ _ _ _ _ _ _ _ Hp) as (Hcl & Hcd & Hcu).
  rewrite drop_unlabeled_loop_run in Hl by (repeat constructor; done).
  run_inv Hrun. simplify_eq. eauto 10.
Qed.

(** C2. Once the tables are segregated and the operator has answered:
    with a reference table (opted in) the first call of
    [process_dataframe] lacks its fourth argument and [import_data] ends
    in a [TypeError]; without one (opted out) it returns normally. *)
Theorem opt_in_raises_TypeError {ext : Externals} df fp lp isotope w tables w1 rt_dict w2 :
  prepare df lp isotope w = (Ok tables, w1) ->
  ask_user_for_rt lp w1 = (Ok rt_dict, w2) ->
  (rt_dict <> None -> import_data df fp lp isotope w = (Err TypeError, w2))
  /\ (rt_dict = None -> exists out, import_data df fp lp isotope w = (Ok out, w2)).
Proof.
  intros Hp Ha. unfold import_data.
  rewrite (bind_run _ _ _ _ _ Hp), (bind_run _ _ _ _ _ Ha). split.
  - intros Hsome. apply bind_Err, classify_truthy.
    destruct rt_dict as [d|]; [|done].
    apply ask_user_for_rt_keys in Ha. by destruct d.
  - intros ->. destruct tables as [[l d] u].
    pose proof (prepare_columns _ _ _ _ _ _ _ _ Hp) as (Hcl & Hcd & Hcu).
    erewrite bind_run by (by apply classify_falsy). unfold return_tables.
    erewrite bind_run by (apply drop_unlabeled_loop_run; repeat constructor; done).
    eauto.
Qed.

Lemma opt_in_raises_TypeError_witness :
  fst (import_data (ext := Sample.env) Sample.run_table "out" "log" "dD"
         (Sample.quiet ["y"; "480,500,520,540,560,580,600,620,none"]))
  = Err TypeError.
Proof.
  edestruct (opt_in_raises_TypeError (ext := Sample.env) Sample.run_table "out" "log" "dD"
               (Sample.quiet ["y"; "480,500,520,540,560,580,600,620,none"])) as [Hin _].
  - vm_compute. reflexivity.
  - vm_compute. reflexivity.
  - rewrite Hin; [reflexivity | discriminate].
Defined.

(** The other path: a run in which the operator declines completes. *)
Lemma opt_out_completes :
  exists out w',
    import_data (ext := Sample.env) Sample.run_table "out" "log" "dD" (Sample.quiet ["n"])
    = (Ok out, w')
    /\ stdin w' = [].
Proof. eexists _, _. split; vm_compute; reflexivity. Qed.

(** ** The returned tables hold no unlabelled row *)

Lemma isin_str_not_na values c : isin_str values c = true -> c <> NA.
Proof.
  intros Hin ->. unfold isin_str, isin in Hin.
  induction values as [|v values IH]; simpl in Hin; [discriminate | auto].
Qed.

(** In every normal return of [import_data], each of the three tables is
    what removing its rows with a null chain label would leave: none of
    their rows has a null chain label. The proof goes through the [isin]
    filters of lines 92, 96 and 118 only. *)
Lemma returned_tables_labelled {ext : Externals} df fp lp isotope w l d u clog w' :
  import_data df fp lp isotope w = (Ok (l, d, u, clog), w') ->
  Forall (fun t : frame =>
            t = select (fun r => negb (isna (at_col "chain" r))) t
            /\ forall r : row, r ∈ rows t -> at_col "chain" r <> NA)
         [l; d; u].
Proof.
  intros (u0 & w1 & rt & Hp & _ & _ & -> & _)%import_data_Ok.
  apply prepare_Ok in Hp as (df1 & w2 & df2 & w3 & _ & _ & Hs).
  apply segregate_Ok in Hs as (-> & -> & -> & _ & _).
  assert (Hkeep : forall t : frame,
             (forall r : row, r ∈ rows t -> at_col "chain" r <> NA) ->
             t = select (fun r => negb (isna (at_col "chain" r))) t
             /\ forall r : row, r ∈ rows t -> at_col "chain" r <> NA).
  { intros [cols rs] Hall. split; [|done]. unfold select. simpl in *. f_equal.
    induction rs as [|r rs IH]; [reflexivity|]. simpl.
    assert (Hr : at_col "chain" r <> NA) by (apply Hall; left).
    destruct (at_col "chain" r); [done | simpl; f_equal; apply IH; intros; apply Hall; by right..]. }
  constructor; [|constructor; [|constructor; [|constructor]]]; apply Hkeep; intros r Hr.
  - apply elem_of_linearity_candidates in Hr as (_ & _ & Hr). by eapply isin_str_not_na.
  - apply elem_of_remove_first_two, elem_of_drift_candidates in Hr as (_ & _ & Hr).
    by eapply isin_str_not_na.
  - apply elem_of_select in Hr as [_ Hr]. by eapply isin_str_not_na.
Qed.

Lemma returned_tables_labelled_witness :
  Forall (fun t : frame =>
            t = select (fun r => negb (isna (at_col "chain" r))) t
            /\ forall r : row, r ∈ rows t -> at_col "chain" r <> NA)
         [Sample.linearity_out; Sample.drift_out;
          select (fun r => isin_str whitelist (at_col "chain" r)) Sample.unknown_out].
Proof.
  eapply (returned_tables_labelled (ext := Sample.env) Sample.run_table "out" "log" "dD"
            (Sample.quiet ["n"])).
  vm_compute. reflexivity.
Defined.


(** ** Segregation and the order of the rows *)

#[export] Instance by_column_trans key : Transitive (by_column key).
Proof.
  intros r1 r2 r3. unfold by_column.
  destruct (at_col key r1), (at_col key r2), (at_col key r3); simpl; try done.
  rewrite !Is_true_true, !Z.leb_le. lia.
Qed.

#[export] Instance by_column_total key : Total (by_column key).
Proof.
  intros r1 r2. unfold by_column.
  destruct (at_col key r1), (at_col key r2); simpl; auto.
  rewrite !Is_true_true, !Z.leb_le. lia.
Qed.

Lemma StronglySorted_sublist {A : Type} (R : relation A) (k l : list A) :
  k `sublist_of` l -> StronglySorted R l -> StronglySorted R k.
Proof.
  induction 1 as [|x k l Hsub IH|x k l Hsub IH]; intros Hl.
  - constructor.
  - apply StronglySorted_inv in Hl as [Hl Hx]. constructor; [auto|].
    apply Forall_forall. intros y Hy. rewrite Forall_forall in Hx.
    apply Hx. by eapply sublist_subseteq.
  - apply StronglySorted_inv in Hl as [Hl _]. auto.
Qed.

Lemma remove_first_two_sorted df :
  StronglySorted (by_column "date-time_true") (rows (remove_first_two df)).
Proof.
  unfold remove_first_two. eapply StronglySorted_sublist; [apply sublist_select|].
  apply (StronglySorted_merge_sort _).
Qed.

Lemma remove_first_two_submseteq df : rows (remove_first_two df) ⊆+ rows df.
Proof.
  unfold remove_first_two. etrans; [apply sublist_submseteq, sublist_select|].
  apply Permutation_submseteq. unfold sort_values; simpl. apply merge_sort_Permutation.
Qed.

Lemma is_subsequence_tail x k l : is_subsequence (x :: k) l = true -> is_subsequence k l = true.
Proof.
  revert x k. induction l as [|y l IH]; intros x k; [discriminate|]. simpl.
  destruct (decide (x = y)) as [->|Hne]; intros Hk.
  - destruct k as [|z k]; [reflexivity|]. simpl. destruct (decide (z = y)); eauto.
  - destruct k as [|z k]; [reflexivity|]. simpl.
    apply IH in Hk. destruct (decide (z = y)); [by eapply IH | done].
Qed.

Lemma sublist_is_subsequence k l : k `sublist_of` l -> is_subsequence k l = true.
Proof.
  induction 1 as [|x k l Hsub IH|x k l Hsub IH]; simpl.
  - reflexivity.
  - by rewrite decide_True.
  - destruct k as [|y k]; [reflexivity|].
    destruct (decide (y = x)); [by eapply is_subsequence_tail | done].
Qed.

(** C4 (as stated, refuted). In the sample run the drift standard injected
    at 00:00:40 is the first row of the table and the one injected at
    00:00:30 the second; the drift output lists them the other way round,
    so it is not a subsequence of the table. *)
Lemma drift_order_counterexample :
  segregate Sample.normalized_table "log" (Sample.quiet [])
  = (Ok (Sample.linearity_out, Sample.drift_out, Sample.unknown_out),
     World [] []
       ["Number of linearity standards analyzed: 1";
        "Number of Drift standards analyzed: 3";
        "First two drift standards ignored."])
  /\ take 2 (rows Sample.normalized_table) = [Sample.nth_row 0; Sample.nth_row 1]
  /\ take 2 (rows Sample.drift_out) = [Sample.nth_row 1; Sample.nth_row 0]
  /\ ~ rows Sample.drift_out `sublist_of` rows Sample.normalized_table.
Proof.
  split; [exact sample_segregation|]. split; [by vm_compute|]. split; [by vm_compute|].
  intros Hsub%sublist_is_subsequence. vm_compute in Hsub. discriminate.
Qed.

(** C4 (amended). The linearity standards and the unknown samples keep the
    order of the table; the drift standards are rows of the table put in
    ascending order of their parsed timestamp, unparsed ones last. *)
Theorem segregation_order df lp w linearity_std drift_std unknown w' :
  segregate df lp w = (Ok (linearity_std, drift_std, unknown), w') ->
  rows linearity_std `sublist_of` rows df
  /\ rows unknown `sublist_of` rows df
  /\ rows drift_std ⊆+ rows df
  /\ StronglySorted (by_column "date-time_true") (rows drift_std).
Proof.
  intros (-> & -> & -> & _ & _)%segregate_Ok. repeat split.
  - unfold linearity_candidates. etrans; apply sublist_select.
  - unfold unmarked. etrans; [apply sublist_select|]. etrans; apply sublist_select.
  - etrans; [apply remove_first_two_submseteq|].
    apply sublist_submseteq. unfold drift_candidates. etrans; apply sublist_select.
  - apply remove_first_two_sorted.
Qed.

Lemma segregation_order_witness :
  rows Sample.linearity_out `sublist_of` rows Sample.normalized_table
  /\ rows Sample.unknown_out `sublist_of` rows Sample.normalized_table
  /\ rows Sample.drift_out ⊆+ rows Sample.normalized_table
  /\ StronglySorted (by_column "date-time_true") (rows Sample.drift_out).
Proof.
  apply (segregation_order Sample.normalized_table "log" (Sample.quiet [])
           Sample.linearity_out Sample.drift_out Sample.unknown_out
           (World [] []
              ["Number of linearity standards analyzed: 1";
               "Number of Drift standards analyzed: 3";
               "First two drift standards ignored."])).
  vm_compute. reflexivity.
Defined.

(** ** The canonical header *)

(** C5 (the code at the failing input). The export has no ["Component"]
    column: the loop prints the name and adds a column called
    ["Component"], not the canonical ["chain"]; the header ends up without
    a chain column and [import_data] stops at [linearity_std.chain]. *)
Theorem normalize_missing_component :
  exists df' w',
    normalize "dD" Sample.unlabelled_export (Sample.quiet []) = (Ok df', w')
    /\ columns df' = ["Identifier 1"; "Date"; "Time"; "Rt"; "area"; "dD"; "Component"]
    /\ ("chain" ∉ columns df')
    /\ Forall (fun r => at_col "Component" r = NA) (rows df')
    /\ stdout w' = ["Component"]
    /\ fst (import_data (ext := Sample.env) Sample.unlabelled_export "out" "log" "dD"
              (Sample.quiet ["n"])) = Err AttributeError.
Proof.
  eexists _, _. split; [vm_compute; reflexivity|].
  split; [reflexivity|]. split; [|split; [|split]].
  - apply (bool_decide_unpack _). vm_compute. exact I.
  - repeat constructor.
  - reflexivity.
  - vm_compute. reflexivity.
Qed.

(** The counter [x] advances only when a source column is found: when the
    ratio column is the missing one, the area column takes the name of the
    ratio and the component column the name of the area. *)
Lemma normalize_missing_ratio :
  exists df' w',
    normalize "dD" (Frame ["Identifier 1"; "Area All"; "Component"] []) (Sample.quiet [])
    = (Ok df', w')
    /\ columns df' = ["Identifier 1"; "dD"; "area"; "d 2H/1H"].
Proof. eexists _, _. split; [vm_compute; reflexivity | reflexivity]. Qed.

(** ** The prompts *)

Lemma ask_again {ext : Externals} lp w w1 :
  ask_once lp w = (Ok None, w1) -> ask_user_for_rt lp w = ask_user_for_rt lp w1.
Proof.
  intros Hbody. unfold ask_user_for_rt at 1. cbn [while_true].
  rewrite (bind_run _ _ _ _ _ Hbody). apply ask_user_for_rt_fuel.
  by eapply ask_once_again.
Qed.

(** An answer that is neither a yes nor a no: the message is printed and
    the question asked again. *)
Lemma unrecognized_answer_reprompts {ext : Externals} lp line rest out log :
  pos_response (PyStr.lower (PyStr.strip line)) = false ->
  neg_response (PyStr.lower (PyStr.strip line)) = false ->
  ask_user_for_rt lp (World (line :: rest) out log)
  = ask_user_for_rt lp
      (World rest
         (out ++ ["Do you want to detect components in this dataset by retention time? (Y/N):";
                  "Invalid response. Please answer 'yes' or 'no'."])
         log).
Proof.
  intros Hpos Hneg. apply ask_again.
  unfold ask_once, mbind, M_bind, input. cbn [stdin stdout logfile].
  rewrite Hpos, Hneg. unfold print, mret, M_ret. cbn [stdin stdout logfile].
  by rewrite <- (assoc_L (++)).
Qed.

(** A list of retention times with the wrong number of entries: the
    message is printed and the operator is asked again, from the first
    question. *)
Lemma wrong_count_reprompts {ext : Externals} lp line values rest out log :
  pos_response (PyStr.lower (PyStr.strip line)) = true ->
  length (PyStr.split "," values) <> length chain_lengths ->
  ask_user_for_rt lp (World (line :: values :: rest) out log)
  = ask_user_for_rt lp
      (World rest
         (out ++ ["Do you want to detect components in this dataset by retention time? (Y/N):";
                  "Enter retention times for C16, C18, C20, C22, C24, C26, C28, C30, C32 separated by commas (type 'none' for any you don't want to use):";
                  "Invalid input. Please provide the correct number of values."])
         (log ++ ["User opted to identify chains."])).
Proof.
  intros Hpos Hlen. apply ask_again. apply Nat.eqb_neq in Hlen.
  unfold ask_once, mbind, M_bind, input. cbn [stdin stdout logfile].
  rewrite Hpos. unfold append_to_log. cbn [stdin stdout logfile].
  rewrite Hlen. unfold print, mret, M_ret. cbn [stdin stdout logfile].
  by rewrite <- !(assoc_L (++)).
Qed.

(** C9 (the code at the failing input). Two peaks at 499 and 501 are
    equally close to the reference 500, so the operator is asked to
    choose; the answer ["abc"] reaches [int] unchecked and the
    [ValueError] leaves [process_dataframe]: nothing is asked again. *)
Theorem near_tie_choice_not_validated :
  process_dataframe (ext := Sample.env) (Sample.injection 499 501)
    (Some [("C18", Some 500%Q)]) "out" "log" (Sample.quiet ["abc"; "1"])
  = (Err ValueError,
     World ["1"]
       ["Enter the number associated with the correct retention time for C18 in sample leaf wax 7 (00:00:30), or type 'none' to skip:"]
       []).
Proof. vm_compute. reflexivity. Qed.

(** A choice of [0] is taken as the last candidate, and a number past
    the candidates ends in an [IndexError]. *)
Lemma near_tie_choice_out_of_range :
  (exists df' w',
     process_dataframe (ext := Sample.env) (Sample.injection 499 501)
       (Some [("C18", Some 500%Q)]) "out" "log" (Sample.quiet ["0"]) = (Ok df', w')
     /\ (fun r => (at_col "Rt" r, at_col "chain" r)) <$> rows df' = [(Num 501, Str "C18")])
  /\ fst (process_dataframe (ext := Sample.env) (Sample.injection 499 501)
            (Some [("C18", Some 500%Q)]) "out" "log" (Sample.quiet ["3"])) = Err IndexError.
Proof.
  split; [eexists _, _; split|]; vm_compute; reflexivity.
Qed.

(** ** A peak exactly at the reference retention time *)

Lemma abs_self (R : Q) : (Qabs (R - R) == 0)%Q.
Proof. assert (Hz : (R - R == 0)%Q) by ring. rewrite Hz. reflexivity. Qed.

Lemma abs_offset (R δ : Q) : (0 < δ)%Q -> (Qabs (R + δ - R) == δ)%Q.
Proof.
  intros Hpos. assert (Hz : (R + δ - R == δ)%Q) by ring. rewrite Hz.
  apply Qabs_pos. by apply Qlt_le_weak.
Qed.

(** With one peak at the reference and one above it, the smallest
    difference is 0 and so is the band around it, whatever the threshold:
    only the first peak is selected. *)
Lemma closest_rows_exact cols (r1 r2 : row) time_val (R δ threshold : Q) :
  py_eq (at_col "Time" r1) time_val = true ->
  py_eq (at_col "Time" r2) time_val = true ->
  at_col "Rt" r1 = Num R ->
  at_col "Rt" r2 = Num (R + δ) ->
  (0 < δ)%Q ->
  closest_rows (Frame cols [r1; r2]) time_val R threshold = Frame cols [r1].
Proof.
  intros Ht1 Ht2 Hr1 Hr2 Hpos.
  unfold closest_rows, select. cbn [rows columns List.filter].
  rewrite Ht1, Ht2. cbn [rows columns List.filter fmap list_fmap].
  rewrite Hr1, Hr2. unfold series_min.
  cbn [abs_difference floats omap list_omap fold_left fmap option_fmap option_map within].
  assert (Hlim : (Qmin (Qabs (R - R)) (Qabs (R + δ - R)) * (1 + threshold) == 0)%Q).
  { rewrite Q.min_l; [rewrite abs_self; ring|].
    rewrite abs_self, abs_offset by done. by apply Qlt_le_weak. }
  assert (H1 : Qle_bool (Qabs (R - R))
                 (Qmin (Qabs (R - R)) (Qabs (R + δ - R)) * (1 + threshold)) = true).
  { apply Qle_bool_iff. rewrite Hlim, abs_self. apply Qle_refl. }
  assert (H2 : Qle_bool (Qabs (R + δ - R))
                 (Qmin (Qabs (R - R)) (Qabs (R + δ - R)) * (1 + threshold)) = false).
  { apply not_true_is_false. intros Hle%Qle_bool_iff.
    rewrite Hlim, abs_offset in Hle by done. by apply Qlt_not_le in Hpos. }
  by rewrite H1, H2.
Qed.

(** C1 (as stated, refuted). Peaks at 500 and 500.01, reference 500,
    threshold 0.05: one row qualifies, not two; the label is assigned
    without a prompt and the operator's line is left unread. *)
Lemma near_tie_counterexample :
  rows (closest_rows (Sample.injection 500 (50001 # 100)) (Str "00:00:30") 500 default_threshold)
  = [Sample.wax_peak "00:00:30" 500]
  /\ exists df',
       process_dataframe (ext := Sample.env) (Sample.injection 500 (50001 # 100))
         (Some [("C18", Some 500%Q)]) "out" "log" (Sample.quiet ["1"])
       = (Ok df', World ["1"] [] ["Chain lengths identified by user: ['C18']"])
       /\ (fun r => (at_col "Rt" r, at_col "chain" r)) <$> rows df' = [(Num 500, Str "C18")].
Proof.
  split; [by vm_compute|]. eexists. split; vm_compute; reflexivity.
Qed.

(** The rationals of the model are exact where pandas rounds; on this
    instance the rounding changes nothing. The decimals are written as the
    binary64 values nearest to 500.01 and 0.05. *)
Lemma near_tie_binary64 :
  band64 500 0x1.f4028f5c28f5cp+8 500 0x1.999999999999ap-5 = (true, false).
Proof. vm_compute. reflexivity. Qed.

(** C1 (amended). In a group of two peaks at [R] and [R + δ], [δ > 0],
    with the reference at [R], only the peak at [R] qualifies, and the
    step of the classifier labels it directly: the world is unchanged, so
    nothing was asked. *)
Theorem exact_match_assigned_silently {ext : Externals} cols (r1 r2 : row)
    time_val sample_id chain (R δ : Q) w :
  "Time" ∈ cols -> "Rt" ∈ cols ->
  py_eq (at_col "Time" r1) time_val = true ->
  py_eq (at_col "Time" r2) time_val = true ->
  at_col "Rt" r1 = Num R ->
  at_col "Rt" r2 = Num (R + δ) ->
  (0 < δ)%Q ->
  rows (closest_rows (Frame cols [r1; r2]) time_val R default_threshold) = [r1]
  /\ chain_step time_val sample_id (chain, Some R) (Frame cols [r1; r2]) w
     = (Ok (Frame cols [<["chain" := Str chain]> r1; r2]), w).
Proof.
  intros Hc1 Hc2 Ht1 Ht2 Hr1 Hr2 Hpos.
  pose proof (closest_rows_exact cols r1 r2 time_val R δ default_threshold
                Ht1 Ht2 Hr1 Hr2 Hpos) as Hcl.
  split; [by rewrite Hcl|].
  unfold chain_step, closest_rt.
  erewrite bind_run; [|erewrite bind_run by (by apply column_run);
                        erewrite bind_run by (by apply column_run); reflexivity].
  rewrite Hcl. cbn [rows]. unfold mret, M_ret, assign, set_where.
  cbn [rows columns fmap list_fmap]. rewrite Ht1, Ht2, Hr1, Hr2.
  cbn [py_eq andb].
  assert (Heq : Qeq_bool R R = true) by (apply Qeq_bool_iff; reflexivity).
  assert (Hne : Qeq_bool (R + δ) R = false).
  { apply not_true_is_false. intros Heq'%Qeq_bool_iff.
    assert (Hz : (δ == 0)%Q) by (rewrite <- (Qplus_inj_l _ _ R), Heq'; ring).
    rewrite Hz in Hpos. by apply Qlt_irrefl in Hpos. }
  by rewrite Heq, Hne.
Qed.

Lemma exact_match_assigned_silently_witness :
  rows (closest_rows (Sample.injection 500 (50001 # 100)) (Str "00:00:30") 500
          default_threshold)
  = [Sample.wax_peak "00:00:30" 500]
  /\ chain_step (ext := Sample.env) (Str "00:00:30") (Str "leaf wax 7") ("C18", Some 500%Q)
       (Sample.injection 500 (50001 # 100)) (Sample.quiet ["1"])
     = (Ok (Frame ["Identifier 1"; "Time"; "Rt"; "Area All"]
              [<["chain" := Str "C18"]> (Sample.wax_peak "00:00:30" 500);
               Sample.wax_peak "00:00:30" (50001 # 100)]),
        Sample.quiet ["1"]).
Proof.
  apply (exact_match_assigned_silently (ext := Sample.env)
           ["Identifier 1"; "Time"; "Rt"; "Area All"]
           (Sample.wax_peak "00:00:30" 500) (Sample.wax_peak "00:00:30" (50001 # 100))
           (Str "00:00:30") (Str "leaf wax 7") "C18" 500 (1 # 100) (Sample.quiet ["1"]));
    try (vm_compute; reflexivity).
  - apply (bool_decide_unpack _). vm_compute. exact I.
  - apply (bool_decide_unpack _). vm_compute. exact I.
Defined.

(** ** The first two drift runs *)

Lemma same_value_refl_num x : same_value (Num x) (Num x) = true.
Proof. simpl. apply Qeq_bool_iff. reflexivity. Qed.

Lemma same_value_sym a b : same_value a b = same_value b a.
Proof.
  destruct a, b; simpl; try reflexivity.
  - apply String.eqb_sym.
  - apply eq_true_iff_eq. rewrite !Qeq_bool_iff. split; intros Heq; by symmetry.
  - apply Z.eqb_sym.
Qed.

Lemma same_value_trans a b c :
  same_value a b = true -> same_value b c = true -> same_value a c = true.
Proof.
  destruct a, b, c; simpl; try done.
  - rewrite !String.eqb_eq. congruence.
  - rewrite !Qeq_bool_iff. intros Hab Hbc. by rewrite Hab.
  - rewrite !Z.eqb_eq. congruence.
Qed.

Lemma same_value_compat a b c :
  same_value a b = true -> same_value c a = same_value c b.
Proof.
  intros Hab. apply eq_true_iff_eq. split; intros Hc.
  - by eapply same_value_trans.
  - eapply same_value_trans; [done|]. by rewrite same_value_sym.
Qed.

Lemma filter_filter_bool {A : Type} (P Q : A -> bool) (l : list A) :
  List.filter P (List.filter Q l) = List.filter (fun x => Q x && P x) l.
Proof.
  induction l as [|x l IH]; [reflexivity|]. simpl.
  destruct (Q x); simpl; [destruct (P x)|]; by rewrite IH.
Qed.

(** Among the distinct values, in order of first appearance, the first one
    with a property is the first one of the list with it. *)
Lemma head_filter_unique (P : cell -> bool) (l : list cell) :
  (forall a b, same_value a b = true -> P a = P b) ->
  head (List.filter P (unique l)) = head (List.filter P l).
Proof.
  revert P. induction l as [|a l IH]; intros P HP; [reflexivity|].
  cbn [unique List.filter]. destruct (P a) eqn:Ha; [reflexivity|].
  rewrite filter_filter_bool, IH.
  - f_equal. apply filter_ext_in. intros x _.
    destruct (P x) eqn:Hx; [|apply andb_false_r].
    destruct (same_value a x) eqn:Hax; [|reflexivity].
    apply HP in Hax. congruence.
  - intros x y Hxy. by rewrite (HP _ _ Hxy), (same_value_compat _ _ a Hxy).
Qed.

Lemma same_value_num c q :
  same_value c (Num q) = true -> exists x, c = Num x /\ (x == q)%Q.
Proof. destruct c; try done. simpl. intros Heq%Qeq_bool_iff. eauto. Qed.

Lemma signature_le_null c q : signature_le NA c -> same_value c (Num q) = true -> False.
Proof. by destruct c. Qed.

(** In a sorted column in which [q1 < q2] occur and every other number is
    later than [q2], the first two distinct values are [q1] and [q2],
    whatever number of later values and of null cells there is. *)
Lemma two_earliest_signatures (L : list cell) (q1 q2 : Q) :
  StronglySorted signature_le L ->
  Forall (fun c => c = NA \/ from_two q1 q2 c) L ->
  (q1 < q2)%Q ->
  (exists c, c ∈ L /\ same_value c (Num q1) = true) ->
  (exists c, c ∈ L /\ same_value c (Num q2) = true) ->
  exists c d, take 2 (unique L) = [c; d]
              /\ same_value c (Num q1) = true /\ same_value d (Num q2) = true.
Proof.
  intros Hsort Hall Hlt (e1 & He1 & Hq1) (e2 & He2 & Hq2).
  destruct L as [|c L]; [by apply elem_of_nil in He1|].
  apply StronglySorted_inv in Hsort as [Hsort Hc].
  apply Forall_cons in Hall as [Hhead Hall].
  rewrite Forall_forall in Hc, Hall.
  (* the head is a number: a null head would leave no number behind it *)
  destruct Hhead as [->|(x & -> & Hx)].
  { exfalso. apply elem_of_cons in He1 as [->|He1]; [done|].
    by eapply signature_le_null; [apply Hc|]. }
  (* and it is the earliest value *)
  assert (Hxq1 : (x == q1)%Q).
  { apply elem_of_cons in He1 as [->|He1].
    - simpl in Hq1. by apply Qeq_bool_iff in Hq1.
    - specialize (Hc _ He1). apply same_value_num in Hq1 as (y & -> & Hy).
      simpl in Hc. rewrite Hy in Hc.
      destruct Hx as [Hx|[Hx|Hx]]; [done|..].
      + rewrite Hx in Hc. by apply Qle_not_lt in Hc.
      + exfalso. apply (Qle_not_lt _ _ Hc). by etrans. }
  assert (Hcq1 : same_value (Num x) (Num q1) = true) by (by apply Qeq_bool_iff).
  assert (Hne : forall y, (y == q2 \/ q2 < y)%Q -> same_value (Num x) (Num y) = false).
  { intros y Hy. apply not_true_is_false. intros Hxy%Qeq_bool_iff.
    rewrite Hxq1 in Hxy. destruct Hy as [Hy|Hy]; rewrite <- Hxy in Hy.
    - rewrite Hy in Hlt. by apply Qlt_irrefl in Hlt.
    - apply (Qlt_irrefl q1). by etrans. }
  apply same_value_num in Hq2 as (z & -> & Hz).
  apply elem_of_cons in He2 as [He2|He2].
  { injection He2 as ->. rewrite Hxq1 in Hz. rewrite Hz in Hlt.
    by apply Qlt_irrefl in Hlt. }
  pose (P := fun d => negb (same_value (Num x) d)).
  assert (He2P : Num z ∈ List.filter P L).
  { apply list_elem_of_In, filter_In. split; [by apply list_elem_of_In|].
    unfold P. rewrite Hne; [done|]. by left. }
  destruct (List.filter P L) as [|d M] eqn:HM; [by apply elem_of_nil in He2P|].
  assert (HdL : d ∈ L /\ P d = true).
  { rewrite list_elem_of_In. apply filter_In. rewrite HM. by left. }
  destruct HdL as [HdL HPd].
  assert (HsM : StronglySorted signature_le (d :: M)).
  { rewrite <- HM. eapply StronglySorted_sublist; [|exact Hsort].
    clear. induction L as [|y L IH]; simpl; [constructor|].
    destruct (P y); [by apply sublist_skip | by apply sublist_cons]. }
  apply StronglySorted_inv in HsM as [_ HdM]. rewrite Forall_forall in HdM.
  (* the second distinct value is a number as well *)
  destruct (Hall _ HdL) as [->|(y & -> & Hy)].
  { exfalso. apply elem_of_cons in He2P as [?|He2M]; [done|].
    apply (HdM _ He2M). }
  assert (Hyq2 : (y == q2)%Q).
  { destruct Hy as [Hy|[Hy|Hy]]; [|done|].
    - unfold P in HPd. apply negb_true_iff in HPd. exfalso.
      apply not_true_iff_false in HPd. apply HPd. simpl. apply Qeq_bool_iff.
      by rewrite Hxq1, Hy.
    - apply elem_of_cons in He2P as [He2P|He2M].
      + injection He2P as ->. done.
      + specialize (HdM _ He2M). simpl in HdM. rewrite Hz in HdM.
        by apply Qle_not_lt in HdM. }
  exists (Num x), (Num y). split; [|split; [done | by apply Qeq_bool_iff]].
  cbn [unique take]. f_equal.
  assert (Hhead : head (List.filter P (unique L)) = Some (Num y)).
  { rewrite head_filter_unique, HM; [done|].
    intros a b Hab. unfold P. by rewrite (same_value_compat _ _ _ Hab). }
  fold P. destruct (List.filter P (unique L)) as [|d' M']; [done|].
  simpl in Hhead. by simplify_eq.
Qed.

Lemma add_timestamps_Ok {ext : Externals} df w df' w' :
  add_timestamps df w = (Ok df', w') ->
  w' = w /\ df' = stamp_columns df
  /\ forallb (fun r => bool_decide (is_Some (date_time_true r))) (rows df) = true.
Proof.
  unfold add_timestamps. destruct (rows df) as [|r rs].
  - destruct (_ =? _)%nat; [|discriminate]. by intros [= <- <-].
  - destruct (_ && _); [|discriminate].
    destruct (forallb _ _) eqn:Hall; [|discriminate]. by intros [= <- <-].
Qed.

Lemma add_timestamps_stamped {ext : Externals} df w df' w' :
  add_timestamps df w = (Ok df', w') -> Forall stamped (rows df').
Proof.
  intros (_ & -> & _)%add_timestamps_Ok. unfold stamp_columns.
  cbn [rows set_column]. rewrite !Forall_fmap. apply Forall_forall. intros r _.
  unfold stamped, at_col, compose.
  rewrite !(lookup_insert_ne _ "time_rel") by done.
  rewrite lookup_insert_eq. rewrite (lookup_insert_ne _ "date-time") by done.
  reflexivity.
Qed.

Lemma date2num_signature a b :
  stamp_leb a b -> signature_le (date2num a) (date2num b).
Proof.
  destruct a as [| | |t], b as [| | |u]; simpl; try done.
  intros Hle%Is_true_true%Z.leb_le.
  apply Qmult_le_compat_r; [by rewrite <- Zle_Qle | done].
Qed.

Lemma StronglySorted_fmap_on {A B : Type} (R1 : relation A) (R2 : relation B)
    (f : A -> B) (P : A -> Prop) (l : list A) :
  (forall x y, P x -> P y -> R1 x y -> R2 (f x) (f y)) ->
  Forall P l -> StronglySorted R1 l -> StronglySorted R2 (f <$> l).
Proof.
  intros Hf HP Hl. induction Hl as [|x l Hl IH Hx]; [constructor|].
  apply Forall_cons in HP as [Hpx HP]. simpl. constructor; [auto|].
  rewrite Forall_fmap. rewrite Forall_forall in Hx, HP |- *.
  intros y Hy. apply Hf; auto.
Qed.

(** Lines 100-104 on a table of drift rows in which two numeric
    timestamps [q1 < q2] occur and every other numeric timestamp is later
    than [q2]: exactly the rows that carry neither of the two are left. *)
Lemma remove_first_two_two_earliest cand (q1 q2 : Q) :
  Forall stamped (rows cand) ->
  (q1 < q2)%Q ->
  (forall (r : row) x, r ∈ rows cand -> at_col "date-time" r = Num x ->
                       (x == q1 \/ x == q2 \/ q2 < x)%Q) ->
  (exists r : row, r ∈ rows cand /\ same_value (at_col "date-time" r) (Num q1) = true) ->
  (exists r : row, r ∈ rows cand /\ same_value (at_col "date-time" r) (Num q2) = true) ->
  forall r : row,
    r ∈ rows (remove_first_two cand) <->
    r ∈ rows cand
    /\ same_value (at_col "date-time" r) (Num q1) = false
    /\ same_value (at_col "date-time" r) (Num q2) = false.
Proof.
  intros Hst H12 Hall (r1 & Hr1 & Hq1) (r2 & Hr2 & Hq2) r.
  unfold remove_first_two.
  set (S := sort_values "date-time_true" cand).
  set (L := at_col "date-time" <$> rows S).
  assert (HS : forall x : row, x ∈ rows S <-> x ∈ rows cand)
    by (intros x; apply elem_of_sort_values).
  assert (Hcand_st : forall x : row, x ∈ rows cand -> stamped x).
  { intros x Hx. rewrite Forall_forall in Hst. by apply Hst. }
  assert (HL : exists c d, take 2 (unique L) = [c; d]
                 /\ same_value c (Num q1) = true /\ same_value d (Num q2) = true).
  { apply two_earliest_signatures; [| |done|..].
    - unfold L, S, sort_values. cbn [rows].
      apply (StronglySorted_fmap_on (by_column "date-time_true") _ _ stamped).
      + intros x y Hx Hy Hxy. rewrite Hx, Hy. by apply date2num_signature.
      + apply Forall_forall. intros x Hx. apply Hcand_st.
        by rewrite merge_sort_Permutation in Hx.
      + apply (StronglySorted_merge_sort _).
    - unfold L. rewrite Forall_fmap. apply Forall_forall. intros x Hx%HS.
      unfold compose. pose proof (Hcand_st x Hx) as Hstamp. unfold stamped in Hstamp.
      destruct (at_col "date-time" x) as [| |y|] eqn:Hy.
      + by left.
      + by destruct (at_col "date-time_true" x).
      + right. exists y. split; [done|]. by eapply Hall.
      + by destruct (at_col "date-time_true" x).
    - exists (at_col "date-time" r1). split; [|done].
      unfold L. apply list_elem_of_fmap. exists r1. split; [done | by apply HS].
    - exists (at_col "date-time" r2). split; [|done].
      unfold L. apply list_elem_of_fmap. exists r2. split; [done | by apply HS]. }
  destruct HL as (c & d & -> & Hc & Hd).
  rewrite elem_of_select, HS, negb_true_iff. unfold isin. cbn [existsb].
  rewrite orb_false_r, orb_false_iff.
  by rewrite (same_value_compat _ _ _ Hc), (same_value_compat _ _ _ Hd).
Qed.

Lemma drift_candidates_stamped df :
  Forall stamped (rows df) -> Forall stamped (rows (drift_candidates df)).
Proof.
  rewrite !Forall_forall. intros Hst x Hx. apply Hst.
  by apply elem_of_drift_candidates in Hx as (Hx & _).
Qed.

(** C6. Two numeric timestamps [q1 < q2] occur among the drift-standard
    rows and every other numeric timestamp of a drift row is later than
    [q2], whatever the number of runs and of rows without a parsed
    timestamp: the drift output is made of exactly the drift-standard rows
    that carry neither [q1] nor [q2]. With five timestamps
    [t1 < ... < t5] no row at [t1] or [t2] is left and every row at [t3],
    [t4] or [t5] is. *)
Theorem two_earliest_runs_removed df lp w linearity_std drift_std unknown w' (q1 q2 : Q) :
  segregate df lp w = (Ok (linearity_std, drift_std, unknown), w') ->
  Forall stamped (rows df) ->
  (q1 < q2)%Q ->
  (forall (r : row) x, r ∈ rows (drift_candidates df) -> at_col "date-time" r = Num x ->
                       (x == q1 \/ x == q2 \/ q2 < x)%Q) ->
  (exists r : row, r ∈ rows (drift_candidates df)
                   /\ same_value (at_col "date-time" r) (Num q1) = true) ->
  (exists r : row, r ∈ rows (drift_candidates df)
                   /\ same_value (at_col "date-time" r) (Num q2) = true) ->
  forall r : row,
    r ∈ rows drift_std <->
    r ∈ rows (drift_candidates df)
    /\ same_value (at_col "date-time" r) (Num q1) = false
    /\ same_value (at_col "date-time" r) (Num q2) = false.
Proof.
  intros (_ & -> & _)%segregate_Ok Hst H12 Hall Hq1 Hq2.
  apply remove_first_two_two_earliest; try done. by apply drift_candidates_stamped.
Qed.

Lemma sample_stamped : Forall stamped (rows Sample.normalized_table).
Proof. apply (bool_decide_unpack _). vm_compute. exact I. Qed.

Lemma two_earliest_runs_removed_witness :
  Sample.nth_row 1 ∈ rows Sample.drift_out <->
  Sample.nth_row 1 ∈ rows (drift_candidates Sample.normalized_table)
  /\ same_value (at_col "date-time" (Sample.nth_row 1)) (Num (10 # 86400)) = false
  /\ same_value (at_col "date-time" (Sample.nth_row 1)) (Num (20 # 86400)) = false.
Proof.
  apply (two_earliest_runs_removed Sample.normalized_table "log" (Sample.quiet [])
           Sample.linearity_out Sample.drift_out Sample.unknown_out
           (World [] []
              ["Number of linearity standards analyzed: 1";
               "Number of Drift standards analyzed: 3";
               "First two drift standards ignored."])
           (10 # 86400) (20 # 86400));
    [vm_compute; reflexivity | exact sample_stamped | reflexivity | | | ].
  - intros r x Hr.
    assert (Hin : r ∈ [Sample.nth_row 0; Sample.nth_row 1; Sample.nth_row 2;
                        Sample.nth_row 3; Sample.nth_row 4; Sample.nth_row 5])
      by exact Hr.
    rewrite !elem_of_cons, elem_of_nil in Hin.
    destruct Hin as [->|[->|[->|[->|[->|[->|[]]]]]]];
      intros Hx; vm_compute in Hx; injection Hx as <-;
      first [left; reflexivity | right; left; reflexivity | right; right; reflexivity].
  - exists (Sample.nth_row 2).
    split; [apply (bool_decide_unpack _); vm_compute; exact I | vm_compute; reflexivity].
  - exists (Sample.nth_row 3).
    split; [apply (bool_decide_unpack _); vm_compute; exact I | vm_compute; reflexivity].
Defined.

(** The instance of five runs: the drift-standard rows carry five distinct
    numeric timestamps [q1 < q2 < q3 < q4 < q5]; the drift output is made
    of exactly the drift-standard rows at [q3], [q4] and [q5]. *)
Lemma five_drift_runs df lp w linearity_std drift_std unknown w' (q1 q2 q3 q4 q5 : Q) :
  segregate df lp w = (Ok (linearity_std, drift_std, unknown), w') ->
  Forall stamped (rows df) ->
  (q1 < q2)%Q -> (q2 < q3)%Q -> (q3 < q4)%Q -> (q4 < q5)%Q ->
  (forall r : row, r ∈ rows (drift_candidates df) ->
     exists q, q ∈ [q1; q2; q3; q4; q5] /\ same_value (at_col "date-time" r) (Num q) = true) ->
  (forall q, q ∈ [q1; q2; q3; q4; q5] ->
     exists r : row, r ∈ rows (drift_candidates df)
                     /\ same_value (at_col "date-time" r) (Num q) = true) ->
  forall r : row,
    r ∈ rows drift_std <->
    r ∈ rows (drift_candidates df)
    /\ exists q, q ∈ [q3; q4; q5] /\ same_value (at_col "date-time" r) (Num q) = true.
Proof.
  intros (_ & -> & _)%segregate_Ok Hst H12 H23 H34 H45 Hall Hocc r.
  assert (H24 : (q2 < q4)%Q) by (by etrans).
  assert (H25 : (q2 < q5)%Q) by (by etrans).
  assert (Hlater : forall q, q ∈ [q3; q4; q5] -> (q2 < q)%Q).
  { intros q. rewrite !elem_of_cons, elem_of_nil. intros [->|[->|[->|[]]]]; done. }
  assert (Hdistinct : forall a b, (a < b)%Q -> Qeq_bool b a = false).
  { intros a b Hab. apply not_true_is_false. intros Heq%Qeq_bool_iff.
    rewrite Heq in Hab. by apply Qlt_irrefl in Hab. }
  rewrite (remove_first_two_two_earliest (drift_candidates df) q1 q2);
    [|by apply drift_candidates_stamped|done| |apply Hocc; rewrite !elem_of_cons; auto
     |apply Hocc; rewrite !elem_of_cons; auto].
  - split.
    + intros (Hr & Hr1 & Hr2). split; [done|].
      destruct (Hall r Hr) as (q & Hq & Hrq).
      rewrite !elem_of_cons, elem_of_nil in Hq.
      destruct Hq as [->|[->|Hq]]; [congruence..|].
      exists q. split; [|done]. rewrite !elem_of_cons, elem_of_nil. tauto.
    + intros (Hr & q & Hq & Hrq). split; [done|].
      apply same_value_num in Hrq as (x & -> & Hx). apply Hlater in Hq. simpl.
      split; apply Hdistinct; rewrite Hx; [by etrans | done].
  - intros x y Hx Hy. destruct (Hall x Hx) as (q & Hq & Hxq). rewrite Hy in Hxq.
    simpl in Hxq. apply Qeq_bool_iff in Hxq. rewrite Hxq.
    rewrite !elem_of_cons, elem_of_nil in Hq.
    destruct Hq as [->|[->|Hq]]; [by left | by right; left|].
    right; right. apply Hlater. rewrite !elem_of_cons, elem_of_nil. tauto.
Qed.

(** ** Reclassifying a classified table *)

(** *** The classifier without its prompts *)

Lemma chain_only_at_col F r name :
  chain_only F -> name <> "chain" -> at_col name (F r) = at_col name r.
Proof. intros HF Hne. unfold at_col. by rewrite HF. Qed.

Lemma chain_only_id : chain_only id.
Proof. done. Qed.

Lemma chain_only_compose F G : chain_only F -> chain_only G -> chain_only (F ∘ G).
Proof. intros HF HG r k Hk. unfold compose. by rewrite HF, HG. Qed.

Lemma label_step_chain_only base t item : chain_only (label_step base t item).
Proof.
  intros r k Hk. unfold label_step. destruct item.2; [|done].
  destruct (closest base t q) as [|r' [|]]; try done.
  destruct (_ && _); [|done]. by rewrite lookup_insert_ne.
Qed.

Lemma label_group_chain_only base items t : chain_only (label_group base items t).
Proof.
  unfold label_group. induction items as [|item items IH]; intros r k Hk; [done|].
  simpl. rewrite IH by done. by apply label_step_chain_only.
Qed.

Lemma label_all_chain_only base items ts : chain_only (label_all base items ts).
Proof.
  unfold label_all. induction ts as [|t ts IH]; intros r k Hk; [done|].
  simpl. rewrite IH by done. by apply label_group_chain_only.
Qed.

Lemma filter_fmap_bool {A B : Type} (p : B -> bool) (f : A -> B) (l : list A) :
  List.filter p (f <$> l) = f <$> List.filter (fun a => p (f a)) l.
Proof.
  induction l as [|a l IH]; [reflexivity|]. csimpl.
  destruct (p (f a)); csimpl; by rewrite IH.
Qed.

Lemma filter_comm_bool {A : Type} (p q : A -> bool) (l : list A) :
  List.filter p (List.filter q l) = List.filter q (List.filter p l).
Proof.
  rewrite !filter_filter_bool. apply filter_ext. intros a. apply andb_comm.
Qed.

Lemma closest_unfold rs t R :
  closest rs t R =
  let group := List.filter (fun r => py_eq (at_col "Time" r) t) rs in
  let difference := fun r => abs_difference R (at_col "Rt" r) in
  let limit := (fun m => (m * (1 + default_threshold))%Q) <$> series_min (difference <$> group) in
  List.filter (fun r => within limit (difference r)) group.
Proof. reflexivity. Qed.

Lemma closest_rows_rows df t R :
  rows (closest_rows df t R default_threshold) = closest (rows df) t R.
Proof. reflexivity. Qed.

(** Relabelling the rows relabels the selection. *)
Lemma closest_fmap F rs t R :
  chain_only F -> closest (F <$> rs) t R = F <$> closest rs t R.
Proof.
  intros HF. rewrite !closest_unfold. cbv zeta.
  rewrite !filter_fmap_bool. rewrite <- list_fmap_compose.
  assert (Hg : List.filter (fun a => py_eq (at_col "Time" (F a)) t) rs
               = List.filter (fun r => py_eq (at_col "Time" r) t) rs).
  { apply filter_ext. intros r. by rewrite chain_only_at_col. }
  rewrite Hg. f_equal.
  assert (Hd : (fun r => abs_difference R (at_col "Rt" r)) ∘ F
               = fun r => abs_difference R (at_col "Rt" (F r))) by done.
  rewrite Hd.
  assert (Hm : (fun r => abs_difference R (at_col "Rt" (F r)))
                 <$> List.filter (fun r => py_eq (at_col "Time" r) t) rs
               = (fun r => abs_difference R (at_col "Rt" r))
                   <$> List.filter (fun r => py_eq (at_col "Time" r) t) rs).
  { apply list_fmap_ext. intros i r _. by rewrite chain_only_at_col. }
  rewrite Hm. apply filter_ext. intros r. by rewrite chain_only_at_col.
Qed.

(** *** The loops of [process_dataframe] when nobody is asked *)

Lemma label_step_skip base t c r : label_step base t (c, None) r = r.
Proof. reflexivity. Qed.

Lemma chain_step_no_tie {ext : Externals} cols F base t sid c R w :
  chain_only F -> "Time" ∈ cols -> "Rt" ∈ cols ->
  (length (closest base t R) <= 1)%nat ->
  chain_step t sid (c, Some R) (Frame cols (F <$> base)) w
  = (Ok (Frame cols ((label_step base t (c, Some R) ∘ F) <$> base)), w).
Proof.
  intros HF Ht Hr Hlen. unfold chain_step, closest_rt.
  erewrite bind_run; [|erewrite bind_run by (by apply column_run);
                        erewrite bind_run by (by apply column_run); reflexivity].
  rewrite closest_rows_rows. cbn [rows]. rewrite closest_fmap by done.
  unfold label_step, compose. cbn [fst snd].
  destruct (closest base t R) as [|r' [|r'' l]]; csimpl in *; [| |lia].
  - reflexivity.
  - unfold mret, M_ret, assign, set_where. cbn [rows columns].
    rewrite <- list_fmap_compose. do 3 f_equal. apply list_fmap_ext.
    intros i r _. unfold compose. by rewrite (chain_only_at_col F r').
Qed.

Lemma chain_step_quiet {ext : Externals} cols F base t sid item w df' w' :
  chain_only F -> stdin w = [] ->
  chain_step t sid item (Frame cols (F <$> base)) w = (Ok df', w') ->
  w' = w /\ df' = Frame cols ((label_step base t item ∘ F) <$> base)
  /\ forall R, item.2 = Some R -> (length (closest base t R) <= 1)%nat /\ "Rt" ∈ cols.
Proof.
  intros HF Hin Hrun. destruct item as [c [R|]].
  - assert (Hcols : "Time" ∈ cols /\ "Rt" ∈ cols).
    { unfold chain_step, closest_rt in Hrun.
      apply bind_Ok in Hrun as (cl & w0 & Hcl & _). run_inv Hcl. done. }
    destruct Hcols as [Ht Hr].
    destruct (decide (length (closest base t R) <= 1)%nat) as [Hlen|Hlen].
    + rewrite chain_step_no_tie in Hrun by done. simplify_eq.
      split; [done|]. split; [done|]. intros R' [= <-]. done.
    + exfalso. unfold chain_step, closest_rt in Hrun.
      erewrite bind_run in Hrun; [|erewrite bind_run by (by apply column_run);
                        erewrite bind_run by (by apply column_run); reflexivity].
      rewrite closest_rows_rows in Hrun. cbn [rows] in Hrun.
      rewrite closest_fmap in Hrun by done.
      destruct (closest base t R) as [|r' [|r'' l]]; csimpl in *; [lia..|].
      apply bind_Ok in Hrun as (a & w0 & Ha & Hrun). run_inv Ha.
      apply bind_Ok in Hrun as (choice & w1 & Hc & _).
      unfold input in Hc. rewrite Hin in Hc. discriminate.
  - unfold chain_step in Hrun. run_inv Hrun. done.
Qed.

Lemma items_loop_no_tie {ext : Externals} cols base t sid items :
  forall F w,
    chain_only F ->
    (needs_rt items -> "Time" ∈ cols /\ "Rt" ∈ cols) ->
    (forall c R, (c, Some R) ∈ items -> (length (closest base t R) <= 1)%nat) ->
    for_each items (chain_step t sid) (Frame cols (F <$> base)) w
    = (Ok (Frame cols ((label_group base items t ∘ F) <$> base)), w).
Proof.
  induction items as [|[c [R|]] items IH]; intros F w HF Hcols Hlen.
  - reflexivity.
  - assert (Hn : needs_rt ((c, Some R) :: items)) by (exists c, R; left).
    destruct (Hcols Hn) as [Ht Hr].
    cbn [for_each]. erewrite bind_run.
    2:{ apply chain_step_no_tie; try done. apply (Hlen c). left. }
    rewrite IH; [done|by apply chain_only_compose, HF; apply label_step_chain_only|..].
    + done.
    + intros c' R' Hin. apply (Hlen c'). by right.
  - cbn [for_each]. unfold chain_step at 1. erewrite bind_run by reflexivity.
    rewrite IH; [done|done|..].
    + intros (c' & R' & Hin). apply Hcols. exists c', R'. by right.
    + intros c' R' Hin. apply (Hlen c'). by right.
Qed.

Lemma items_loop_quiet {ext : Externals} cols base t sid items :
  forall F w df' w',
    chain_only F -> stdin w = [] ->
    for_each items (chain_step t sid) (Frame cols (F <$> base)) w = (Ok df', w') ->
    w' = w /\ df' = Frame cols ((label_group base items t ∘ F) <$> base)
    /\ forall c R, (c, Some R) ∈ items ->
         (length (closest base t R) <= 1)%nat /\ "Rt" ∈ cols.
Proof.
  induction items as [|item items IH]; intros F w df' w' HF Hin Hrun.
  - cbn [for_each] in Hrun. run_inv Hrun. split; [done|]. split; [done|].
    intros c R Hc. by apply elem_of_nil in Hc.
  - cbn [for_each] in Hrun. apply bind_Ok in Hrun as (df1 & w1 & Hstep & Hrun).
    apply chain_step_quiet in Hstep as (-> & -> & Hitem); [|done..].
    apply IH in Hrun as (-> & -> & Hitems); [|by apply chain_only_compose, HF;
                                               apply label_step_chain_only|done].
    split; [done|]. split; [done|].
    intros c R [<-|Hc]%elem_of_cons; [by apply Hitem | by apply (Hitems c)].
Qed.

Lemma group_fmap F base t :
  chain_only F ->
  List.filter (fun r => py_eq (at_col "Time" r) t) (F <$> base)
  = F <$> List.filter (fun r => py_eq (at_col "Time" r) t) base.
Proof.
  intros HF. rewrite filter_fmap_bool. f_equal. apply filter_ext.
  intros r. by rewrite chain_only_at_col.
Qed.

Lemma time_step_no_tie {ext : Externals} cols base items t F w :
  chain_only F ->
  "Identifier 1" ∈ cols ->
  (needs_rt items -> "Time" ∈ cols /\ "Rt" ∈ cols) ->
  (exists r, r ∈ base /\ py_eq (at_col "Time" r) t = true) ->
  (forall c R, (c, Some R) ∈ items -> (length (closest base t R) <= 1)%nat) ->
  time_step items t (Frame cols (F <$> base)) w
  = (Ok (Frame cols ((label_group base items t ∘ F) <$> base)), w).
Proof.
  intros HF Hid Hcols (r & Hr & Hrt) Hlen. unfold time_step.
  erewrite bind_run by (by apply column_run).
  unfold select. cbn [rows]. rewrite group_fmap by done.
  destruct (List.filter _ base) as [|r0 g] eqn:Hg.
  { assert (Hin : In r (List.filter (fun r => py_eq (at_col "Time" r) t) base))
      by (apply filter_In; split; [by apply list_elem_of_In | done]).
    rewrite Hg in Hin. destruct Hin. }
  csimpl. by apply items_loop_no_tie.
Qed.

Lemma time_step_quiet {ext : Externals} cols base items t F w df' w' :
  chain_only F -> stdin w = [] ->
  time_step items t (Frame cols (F <$> base)) w = (Ok df', w') ->
  w' = w /\ df' = Frame cols ((label_group base items t ∘ F) <$> base)
  /\ "Identifier 1" ∈ cols
  /\ forall c R, (c, Some R) ∈ items ->
       (length (closest base t R) <= 1)%nat /\ "Rt" ∈ cols.
Proof.
  intros HF Hin Hrun. unfold time_step in Hrun.
  apply bind_Ok in Hrun as (a & w0 & Ha & Hrun). run_inv Ha.
  destruct (rows (select _ _)) as [|r0 g]; [discriminate|].
  apply items_loop_quiet in Hrun as (-> & -> & Hitems); done.
Qed.

Lemma times_loop_no_tie {ext : Externals} cols base items ts :
  forall F w,
    chain_only F ->
    (ts <> [] -> "Identifier 1" ∈ cols /\ (needs_rt items -> "Time" ∈ cols /\ "Rt" ∈ cols)) ->
    (forall t, t ∈ ts -> exists r, r ∈ base /\ py_eq (at_col "Time" r) t = true) ->
    settled base items ts ->
    for_each ts (time_step items) (Frame cols (F <$> base)) w
    = (Ok (Frame cols ((label_all base items ts ∘ F) <$> base)), w).
Proof.
  induction ts as [|t ts IH]; intros F w HF Hcols Hgroups Hset; [reflexivity|].
  destruct (Hcols ltac:(done)) as [Hid Hrt].
  cbn [for_each]. erewrite bind_run.
  2:{ apply time_step_no_tie; try done.
      - apply Hgroups. left.
      - intros c R Hc. eapply Hset; [left | done]. }
  rewrite IH; [done|by apply chain_only_compose, HF; apply label_group_chain_only|..].
  - done.
  - intros t' Ht'. apply Hgroups. by right.
  - intros t' c R Ht' Hc. eapply Hset; [by right | done].
Qed.

Lemma times_loop_quiet {ext : Externals} cols base items ts :
  forall F w df' w',
    chain_only F -> stdin w = [] ->
    for_each ts (time_step items) (Frame cols (F <$> base)) w = (Ok df', w') ->
    w' = w /\ df' = Frame cols ((label_all base items ts ∘ F) <$> base)
    /\ settled base items ts
    /\ (ts <> [] -> "Identifier 1" ∈ cols /\ (needs_rt items -> "Rt" ∈ cols)).
Proof.
  induction ts as [|t ts IH]; intros F w df' w' HF Hin Hrun.
  - cbn [for_each] in Hrun. run_inv Hrun. split; [done|]. split; [done|]. split; [|done].
    intros t c R Ht. by apply elem_of_nil in Ht.
  - cbn [for_each] in Hrun. apply bind_Ok in Hrun as (df1 & w1 & Hstep & Hrun).
    apply time_step_quiet in Hstep as (-> & -> & Hid & Hitems); [|done..].
    apply IH in Hrun as (-> & -> & Hset & _); [|by apply chain_only_compose, HF;
                                               apply label_group_chain_only|done].
    split; [done|]. split; [done|]. split.
    + intros t' c R [->|Ht']%elem_of_cons Hc; [by apply (Hitems c) | by eapply Hset].
    + intros _. split; [done|]. intros (c & R & Hc). by apply (Hitems c R).
Qed.

(** *** Times of injection *)

Lemma py_eq_sym a b : py_eq a b = py_eq b a.
Proof.
  destruct a, b; simpl; try reflexivity.
  - apply String.eqb_sym.
  - apply eq_true_iff_eq. rewrite !Qeq_bool_iff. split; intros Heq; by symmetry.
  - apply Z.eqb_sym.
Qed.

Lemma py_eq_trans a b c : py_eq a b = true -> py_eq b c = true -> py_eq a c = true.
Proof.
  destruct a, b, c; simpl; try done.
  - rewrite !String.eqb_eq. congruence.
  - rewrite !Qeq_bool_iff. intros Hab Hbc. by rewrite Hab.
  - rewrite !Z.eqb_eq. congruence.
Qed.

Lemma py_eq_compat a b x : py_eq a b = true -> py_eq x a = py_eq x b.
Proof.
  intros Hab. apply eq_true_iff_eq. split; intros Hx.
  - by eapply py_eq_trans.
  - eapply py_eq_trans; [done|]. by rewrite py_eq_sym.
Qed.

Lemma py_eq_same_value a b : py_eq a b = true -> same_value a b = true.
Proof. by destruct a, b. Qed.

Lemma same_value_py_eq a b : same_value a b = true -> a <> NA -> py_eq a b = true.
Proof. by destruct a, b. Qed.

Lemma py_eq_not_na a b : py_eq a b = true -> a <> NA.
Proof. by destruct a. Qed.

Lemma elem_of_unique l c : c ∈ unique l -> c ∈ l.
Proof.
  revert c. induction l as [|a l IH]; intros c; [done|]. cbn [unique].
  intros [->|Hc]%elem_of_cons; [left|right].
  apply IH. apply list_elem_of_In in Hc. apply filter_In in Hc as [Hc _].
  by apply list_elem_of_In.
Qed.

Lemma unique_covers l c : c ∈ l -> exists t, t ∈ unique l /\ same_value t c = true.
Proof.
  induction l as [|a l IH]; intros Hc; [by apply elem_of_nil in Hc|]. cbn [unique].
  destruct (same_value a c) eqn:Hac.
  { exists a. split; [left | done]. }
  apply elem_of_cons in Hc as [->|Hc].
  { destruct a; simpl in Hac; try done.
    - by rewrite String.eqb_refl in Hac.
    - by rewrite (proj2 (Qeq_bool_iff q q)) in Hac.
    - by rewrite Z.eqb_refl in Hac. }
  destruct (IH Hc) as (t & Ht & Htc). exists t. split; [|done].
  right. apply list_elem_of_In, filter_In. split; [by apply list_elem_of_In|].
  apply negb_true_iff, not_true_is_false. intros Hat.
  by rewrite (same_value_trans _ _ _ Hat Htc) in Hac.
Qed.

Lemma unique_distinct l :
  StronglySorted (fun a b => same_value a b = false) (unique l).
Proof.
  induction l as [|a l IH]; cbn [unique]; constructor.
  - eapply StronglySorted_sublist; [|exact IH].
    clear. induction (unique l) as [|y L IHL]; simpl; [constructor|].
    destruct (negb _); [by apply sublist_skip | by apply sublist_cons].
  - apply Forall_forall. intros x Hx%list_elem_of_In%filter_In.
    destruct Hx as [_ Hx]. by apply negb_true_iff.
Qed.

(** *** What the pure classifier does to one row *)

Lemma label_step_other_time base t item r :
  py_eq (at_col "Time" r) t = false -> label_step base t item r = r.
Proof.
  intros Hne. unfold label_step. destruct item.2; [|done].
  destruct (closest base t q) as [|r' [|]]; try done. by rewrite Hne.
Qed.

Lemma label_group_other_time base items t r :
  py_eq (at_col "Time" r) t = false -> label_group base items t r = r.
Proof.
  intros Hne. unfold label_group. induction items as [|item items IH]; [done|].
  simpl. by rewrite label_step_other_time.
Qed.

Lemma label_all_other_times base items ts r :
  Forall (fun t => py_eq (at_col "Time" r) t = false) ts ->
  label_all base items ts r = r.
Proof.
  unfold label_all. induction 1 as [|t ts Ht _ IH]; [done|].
  simpl. by rewrite label_group_other_time.
Qed.

(** Only the loop turn of a row's own injection time acts on it. *)
Lemma label_all_own_time base items ts t0 r :
  StronglySorted (fun a b => same_value a b = false) ts ->
  t0 ∈ ts -> py_eq (at_col "Time" r) t0 = true ->
  label_all base items ts r = label_group base items t0 r.
Proof.
  intros Hts. revert r. induction Hts as [|t ts Hts IH Ht]; intros r Hin Hr.
  { by apply elem_of_nil in Hin. }
  change (label_all base items (t :: ts) r)
    with (label_all base items ts (label_group base items t r)).
  rewrite Forall_forall in Ht.
  apply elem_of_cons in Hin as [<-|Hin].
  - apply label_all_other_times. apply Forall_forall. intros u Hu.
    rewrite chain_only_at_col; [|apply label_group_chain_only|done].
    apply not_true_is_false. intros Hru.
    assert (Htu : py_eq t0 u = true).
    { eapply py_eq_trans; [|done]. by rewrite py_eq_sym. }
    apply py_eq_same_value in Htu. by rewrite (Ht u Hu) in Htu.
  - assert (Hrt : py_eq (at_col "Time" r) t = false).
    { apply not_true_is_false. intros Hrt.
      assert (Htt : py_eq t t0 = true).
      { eapply py_eq_trans; [|done]. by rewrite py_eq_sym. }
      apply py_eq_same_value in Htt. by rewrite (Ht t0 Hin) in Htt. }
    rewrite label_group_other_time by done. by apply IH.
Qed.

(** *** Accepted labels *)

Lemma accepted_insert c (r : row) :
  c ∈ accepted_chains -> accepted (<["chain" := Str c]> r) = true.
Proof.
  intros Hc. unfold accepted, at_col. rewrite lookup_insert_eq. simpl.
  unfold isin_str, isin. apply existsb_exists. exists (Str c). split.
  - apply list_elem_of_In, list_elem_of_fmap. eauto.
  - simpl. apply String.eqb_refl.
Qed.

Lemma label_step_accepted base t item r :
  (forall R, item.2 = Some R -> item.1 ∈ accepted_chains) ->
  accepted r = true -> accepted (label_step base t item r) = true.
Proof.
  intros Hk Hr. unfold label_step. destruct item.2 as [R|] eqn:Hi; [|done].
  destruct (closest base t R) as [|r' [|]]; try done.
  destruct (_ && _); [|done]. apply accepted_insert. eauto.
Qed.

Lemma label_group_accepted base items t r :
  keys_accepted items ->
  accepted r = true -> accepted (label_group base items t r) = true.
Proof.
  unfold label_group. revert r. induction items as [|item items IH]; intros r Hk Hr; [done|].
  simpl. apply IH.
  - intros c R Hc. apply (Hk c R). by right.
  - apply label_step_accepted; [|done]. intros R HR. apply (Hk _ R).
    destruct item as [c rt]. simpl in *. subst. left.
Qed.

(** *** The smallest difference, and the selection in a part of the table *)

Lemma elem_of_floats x l : x ∈ floats l <-> Num x ∈ l.
Proof.
  unfold floats. rewrite list_elem_of_omap. split.
  - intros (c & Hc & Hx). destruct c; simplify_eq. done.
  - intros Hx. exists (Num x). done.
Qed.

Lemma fold_min_spec qs : forall q,
  ((fold_left Qmin qs q == q)%Q \/ exists x, x ∈ qs /\ (fold_left Qmin qs q == x)%Q)
  /\ (fold_left Qmin qs q <= q)%Q
  /\ forall x, x ∈ qs -> (fold_left Qmin qs q <= x)%Q.
Proof.
  induction qs as [|y qs IH]; intros q; simpl.
  - split; [left; reflexivity|]. split; [apply Qle_refl|].
    intros x Hx. by apply elem_of_nil in Hx.
  - destruct (IH (Qmin q y)) as (Hin & Hle & Hall). split; [|split].
    + destruct Hin as [Hin|(x & Hx & Hin)].
      * destruct (Q.min_spec q y) as [[_ Hm]|[_ Hm]].
        -- left. by transitivity (Qmin q y).
        -- right. exists y. split; [left | by transitivity (Qmin q y)].
      * right. exists x. split; [by right | done].
    + eapply Qle_trans; [exact Hle | apply Q.le_min_l].
    + intros x [->|Hx]%elem_of_cons; [|by apply Hall].
      eapply Qle_trans; [exact Hle | apply Q.le_min_r].
Qed.

Lemma series_min_spec l a :
  series_min l = Some a ->
  (exists x, Num x ∈ l /\ (a == x)%Q) /\ forall x, Num x ∈ l -> (a <= x)%Q.
Proof.
  unfold series_min. destruct (floats l) as [|q qs] eqn:Hf; [discriminate|].
  intros [= <-]. destruct (fold_min_spec qs q) as (Hin & Hle & Hall). split.
  - destruct Hin as [Hin|(x & Hx & Hin)].
    + exists q. split; [|done]. apply elem_of_floats. rewrite Hf. left.
    + exists x. split; [|done]. apply elem_of_floats. rewrite Hf. by right.
  - intros x Hx%elem_of_floats. rewrite Hf in Hx.
    apply elem_of_cons in Hx as [->|Hx]; [done | by apply Hall].
Qed.

Lemma series_min_None l x : series_min l = None -> Num x ∈ l -> False.
Proof.
  unfold series_min. intros Hm Hx%elem_of_floats.
  destruct (floats l); [by apply elem_of_nil in Hx | discriminate].
Qed.

Lemma series_min_is_Some l x : Num x ∈ l -> is_Some (series_min l).
Proof.
  intros Hx. destruct (series_min l) eqn:Hm; [done|].
  destruct (series_min_None _ _ Hm Hx).
Qed.

Lemma abs_difference_nonneg R c x : abs_difference R c = Num x -> (0 <= x)%Q.
Proof.
  destruct c as [| |q|]; try done. cbn [abs_difference]. intros Heq.
  assert (Hx : x = Qabs (q - R)) by congruence. rewrite Hx. apply Qabs_nonneg.
Qed.

Lemma band_contains_minimum (a x : Q) :
  (0 <= x)%Q -> (a == x)%Q -> Qle_bool x (a * (1 + default_threshold)) = true.
Proof.
  intros Hx Ha. apply Qle_bool_iff. rewrite Ha.
  assert (Hb : (x * (1 + default_threshold) == x + x * default_threshold)%Q) by ring.
  rewrite Hb. rewrite <- (Qplus_0_r x) at 1. apply Qplus_le_r.
  apply Qmult_le_0_compat; [done | discriminate].
Qed.

Lemma within_compat (a a' : Q) c :
  (a == a')%Q ->
  within (Some (a * (1 + default_threshold))%Q) c
  = within (Some (a' * (1 + default_threshold))%Q) c.
Proof.
  intros Ha. destruct c; try reflexivity. simpl.
  apply eq_true_iff_eq. rewrite !Qle_bool_iff. by rewrite Ha.
Qed.

Lemma closest_alt rs t R :
  closest rs t R = List.filter (fun r => within (limit rs t R) (difference R r)) (group rs t).
Proof. reflexivity. Qed.

(** A row at the smallest difference is always selected. *)
Lemma closest_has_minimum rs t R a :
  series_min (difference R <$> group rs t) = Some a ->
  exists r x, r ∈ closest rs t R /\ difference R r = Num x /\ (a == x)%Q.
Proof.
  intros Hm. destruct (series_min_spec _ _ Hm) as [(x & Hx & Hax) _].
  apply list_elem_of_fmap in Hx as (r & Hrx & Hr). exists r, x.
  split; [|done]. rewrite closest_alt. apply list_elem_of_In, filter_In.
  split; [by apply list_elem_of_In|]. unfold limit. rewrite Hm, <- Hrx. simpl.
  apply band_contains_minimum; [|done]. by eapply abs_difference_nonneg.
Qed.

Lemma group_filter kept rs t : group (List.filter kept rs) t = List.filter kept (group rs t).
Proof. apply filter_comm_bool. Qed.

Lemma elem_of_filter_bool {A : Type} (p : A -> bool) (l : list A) (x : A) :
  x ∈ List.filter p l <-> x ∈ l /\ p x = true.
Proof. rewrite !list_elem_of_In. apply filter_In. Qed.

(** No candidate in the table: none in a part of it. *)
Lemma closest_filter_nil kept rs t R :
  closest rs t R = [] -> closest (List.filter kept rs) t R = [].
Proof.
  intros Hcl. rewrite closest_alt.
  assert (Hnone : series_min (difference R <$> group rs t) = None).
  { destruct (series_min _) as [a|] eqn:Hm; [|done].
    destruct (closest_has_minimum _ _ _ _ Hm) as (r & x & Hr & _).
    rewrite Hcl in Hr. by apply elem_of_nil in Hr. }
  assert (Hnone' : limit (List.filter kept rs) t R = None).
  { unfold limit.
    destruct (series_min (difference R <$> group (List.filter kept rs) t)) as [a|] eqn:Hm;
      [|done].
    destruct (series_min_spec _ _ Hm) as [(x & Hx & _) _].
    destruct (series_min_None _ x Hnone).
    apply list_elem_of_fmap in Hx as (r & Hrx & Hr). apply list_elem_of_fmap.
    exists r. split; [done|]. rewrite group_filter in Hr.
    apply elem_of_filter_bool in Hr. tauto. }
  rewrite Hnone'. induction (group (List.filter kept rs) t) as [|r g IH]; [reflexivity|].
  cbn [List.filter]. rewrite IH. by destruct (difference R r).
Qed.

(** One candidate in the table, and it is kept: it is the one candidate in
    the part. *)
Lemma closest_filter_one kept rs t R r' :
  closest rs t R = [r'] -> kept r' = true ->
  closest (List.filter kept rs) t R = [r'].
Proof.
  intros Hcl Hkept.
  assert (Hr' : r' ∈ closest rs t R) by (rewrite Hcl; left).
  rewrite closest_alt in Hr'. apply elem_of_filter_bool in Hr' as [Hg Hw].
  unfold limit in Hw. destruct (series_min (difference R <$> group rs t)) as [a|] eqn:Hm.
  2:{ simpl in Hw. by destruct (difference R r'). }
  destruct (closest_has_minimum _ _ _ _ Hm) as (r0 & x & Hr0 & Hx & Hax).
  rewrite Hcl in Hr0. apply list_elem_of_singleton in Hr0 as ->.
  assert (Hg' : r' ∈ group (List.filter kept rs) t).
  { rewrite group_filter. by apply elem_of_filter_bool. }
  assert (Hsome : is_Some (series_min (difference R <$> group (List.filter kept rs) t))).
  { apply (series_min_is_Some _ x). apply list_elem_of_fmap. eauto. }
  destruct Hsome as [a' Hm'].
  assert (Haa : (a' == a)%Q).
  { destruct (series_min_spec _ _ Hm') as [(y & Hy & Hay) Hlow].
    destruct (series_min_spec _ _ Hm) as [_ Hlow0].
    apply Qle_antisym.
    - rewrite Hax. apply Hlow. apply list_elem_of_fmap. eauto.
    - rewrite Hay. apply Hlow0.
      apply list_elem_of_fmap in Hy as (r & Hry & Hr). apply list_elem_of_fmap.
      exists r. split; [done|]. rewrite group_filter in Hr.
      apply elem_of_filter_bool in Hr. tauto. }
  rewrite closest_alt. unfold limit at 1. rewrite Hm'. cbn [fmap option_fmap option_map].
  rewrite (filter_ext _ (fun r => within (limit rs t R) (difference R r))).
  2:{ intros r. unfold limit. rewrite Hm. by apply within_compat. }
  rewrite group_filter, filter_comm_bool. rewrite <- closest_alt, Hcl.
  simpl. by rewrite Hkept.
Qed.

(** The selection looks at the time only through [==]. *)
Lemma closest_time_compat rs t t' R :
  (forall x, py_eq x t = py_eq x t') -> closest rs t R = closest rs t' R.
Proof.
  intros Ht. rewrite !closest_alt.
  assert (Hg : group rs t = group rs t') by (apply filter_ext; intros r; apply Ht).
  unfold limit. by rewrite Hg.
Qed.

Lemma label_step_time_compat base t t' item r :
  (forall x, py_eq x t = py_eq x t') -> label_step base t item r = label_step base t' item r.
Proof.
  intros Ht. unfold label_step. destruct item.2; [|done].
  by rewrite (closest_time_compat _ _ _ _ Ht), Ht.
Qed.

Lemma label_group_time_compat base items t t' r :
  (forall x, py_eq x t = py_eq x t') ->
  label_group base items t r = label_group base items t' r.
Proof.
  intros Ht. unfold label_group. revert r.
  induction items as [|item its IH]; intros r; [done|].
  simpl. by rewrite (label_step_time_compat _ _ _ _ _ Ht), IH.
Qed.

Lemma label_group_ext base1 base2 (its : rt_table) t r :
  (forall item x, item ∈ its -> label_step base1 t item x = label_step base2 t item x) ->
  label_group base1 its t r = label_group base2 its t r.
Proof.
  unfold label_group. revert r.
  induction its as [|item its IH]; intros r Hstep; [done|].
  simpl. rewrite Hstep by left. apply IH. intros item' x Hi. apply Hstep. by right.
Qed.

(** *** The kept rows, classified again *)

Section Reclassify.

Variable base : list row.
Variable items : rt_table.

Local Abbreviation ts := (times_of base).
Local Abbreviation F := (relabel base items).
Local Abbreviation base' := (kept_rows base items).
Local Abbreviation ts' := (times_of (kept_rows base items)).

Hypothesis Hsettled : settled base items ts.
Hypothesis Hkeys : keys_accepted items.
Hypothesis Hunlabelled : Forall (fun r => at_col "chain" r = NA) base.

Lemma own_time r :
  r ∈ base -> at_col "Time" r <> NA ->
  exists t0, t0 ∈ ts /\ py_eq (at_col "Time" r) t0 = true.
Proof.
  intros Hr Hna.
  destruct (unique_covers (at_col "Time" <$> base) (at_col "Time" r)) as (t0 & Ht0 & Hs).
  { apply list_elem_of_fmap. eauto. }
  exists t0. split; [done|]. apply same_value_py_eq; [|done]. by rewrite same_value_sym.
Qed.

Lemma kept_has_time r : r ∈ base -> kept base items r = true -> at_col "Time" r <> NA.
Proof.
  intros Hr Hk Hna. unfold kept, relabel in Hk.
  rewrite label_all_other_times in Hk.
  - rewrite Forall_forall in Hunlabelled. unfold accepted in Hk.
    by rewrite (Hunlabelled r Hr) in Hk.
  - apply Forall_forall. intros t _. by rewrite Hna.
Qed.

Lemma label_group_app (its1 its2 : rt_table) t r :
  label_group base (its1 ++ its2)%list t r
  = label_group base its2 t (label_group base its1 t r).
Proof. unfold label_group. apply fold_left_app. Qed.

(** The one candidate of a chain ends up with an accepted label. *)
Lemma closest_kept t0 c R r' :
  t0 ∈ ts -> (c, Some R) ∈ items -> closest base t0 R = [r'] -> kept base items r' = true.
Proof.
  intros Ht0 Hc Hcl.
  assert (Hr' : r' ∈ closest base t0 R) by (rewrite Hcl; left).
  rewrite closest_alt in Hr'. apply elem_of_filter_bool in Hr' as [Hg Hw].
  apply elem_of_filter_bool in Hg as [Hb Htime].
  assert (Hrt : py_eq (at_col "Rt" r') (at_col "Rt" r') = true).
  { unfold difference in Hw. destruct (at_col "Rt" r'); try (by destruct (limit base t0 R)).
    simpl. apply Qeq_bool_iff. reflexivity. }
  unfold kept, relabel.
  rewrite (label_all_own_time base items ts t0) by (done || apply unique_distinct).
  apply list_elem_of_split in Hc as (pre & post & Hitems).
  rewrite Hitems, label_group_app.
  change (label_group base ((c, Some R) :: post) t0 (label_group base pre t0 r'))
    with (label_group base post t0
            (label_step base t0 (c, Some R) (label_group base pre t0 r'))).
  apply label_group_accepted.
  { intros c' R' Hc'. apply (Hkeys c' R'). rewrite Hitems.
    apply elem_of_app. right. by right. }
  unfold label_step. cbn [fst snd]. rewrite Hcl.
  rewrite !chain_only_at_col by (apply label_group_chain_only || done).
  rewrite Htime, Hrt. apply accepted_insert. apply (Hkeys c R).
  rewrite Hitems. apply elem_of_app. right. left.
Qed.

Lemma closest_filter_kept t0 c R :
  t0 ∈ ts -> (c, Some R) ∈ items -> closest base' t0 R = closest base t0 R.
Proof.
  intros Ht0 Hc. pose proof (Hsettled t0 c R Ht0 Hc) as Hlen.
  destruct (closest base t0 R) as [|r' [|r'' l]] eqn:Hcl; [| |simpl in Hlen; lia].
  - by apply closest_filter_nil.
  - apply closest_filter_one; [done|]. by eapply closest_kept.
Qed.

Lemma label_step_filter t0 item r :
  t0 ∈ ts -> item ∈ items -> label_step base' t0 item r = label_step base t0 item r.
Proof.
  intros Ht0 Hitem. destruct item as [c [R|]]; [|done].
  unfold label_step. cbn [fst snd]. by rewrite (closest_filter_kept t0 c R).
Qed.

Lemma label_group_filter t0 r :
  t0 ∈ ts -> label_group base' items t0 r = label_group base items t0 r.
Proof.
  intros Ht0. apply label_group_ext. intros item x Hitem. by apply label_step_filter.
Qed.

(** A kept row receives the same label when only the kept rows are
    classified. *)
Lemma label_all_filter r :
  r ∈ base' -> label_all base' items ts' r = F r.
Proof.
  intros Hr. apply elem_of_filter_bool in Hr as Hr0. destruct Hr0 as [Hb Hk].
  pose proof (kept_has_time r Hb Hk) as Hna.
  destruct (own_time r Hb Hna) as (t0 & Ht0 & Hrt0).
  destruct (unique_covers (at_col "Time" <$> base') (at_col "Time" r)) as (t1 & Ht1 & Hs).
  { apply list_elem_of_fmap. eauto. }
  assert (Hrt1 : py_eq (at_col "Time" r) t1 = true).
  { apply same_value_py_eq; [|done]. by rewrite same_value_sym. }
  unfold relabel. rewrite (label_all_own_time base items ts t0) by (done || apply unique_distinct).
  rewrite (label_all_own_time base' items ts' t1) by (done || apply unique_distinct).
  assert (Ht : forall x, py_eq x t1 = py_eq x t0).
  { intros x. apply py_eq_compat. eapply py_eq_trans; [|done]. by rewrite py_eq_sym. }
  rewrite <- label_group_filter by done. by apply label_group_time_compat.
Qed.

Lemma kept_times t' :
  t' ∈ ts' -> exists r t0, r ∈ base' /\ at_col "Time" r = t' /\ t0 ∈ ts /\ py_eq t' t0 = true.
Proof.
  intros Ht'%elem_of_unique. apply list_elem_of_fmap in Ht' as (r & -> & Hr).
  apply elem_of_filter_bool in Hr as Hr0. destruct Hr0 as [Hb Hk].
  destruct (own_time r Hb (kept_has_time r Hb Hk)) as (t0 & Ht0 & Hrt0). eauto 8.
Qed.

Lemma settled_filter : settled base' items ts'.
Proof.
  intros t' c R Ht' Hc. destruct (kept_times t' Ht') as (r & t0 & _ & _ & Ht0 & Htt).
  rewrite (closest_time_compat _ t' t0) by (intros x; by apply py_eq_compat).
  rewrite (closest_filter_kept t0 c R) by done. by eapply Hsettled.
Qed.

Lemma groups_filter t' :
  t' ∈ ts' -> exists r, r ∈ base' /\ py_eq (at_col "Time" r) t' = true.
Proof.
  intros Ht'. destruct (kept_times t' Ht') as (r & t0 & Hr & <- & Ht0 & Htt).
  exists r. split; [done|]. eapply py_eq_trans; [done|]. by rewrite py_eq_sym.
Qed.

(** Classifying the kept rows again keeps all of them, labelled as
    before. *)
Lemma relabel_kept :
  List.filter accepted (label_all base' items ts' <$> base') = F <$> base'
  /\ List.filter accepted (F <$> base) = F <$> base'.
Proof.
  assert (Heq : label_all base' items ts' <$> base' = F <$> base').
  { apply list_fmap_ext. intros i r Hr. apply label_all_filter.
    by eapply list_elem_of_lookup_2. }
  split.
  - rewrite Heq, filter_fmap_bool. f_equal.
    rewrite (filter_ext_in (fun a => accepted (F a)) (fun _ => true)).
    + clear. induction base' as [|r l IH]; [done|]. simpl. by rewrite IH.
    + intros r Hr%list_elem_of_In%elem_of_filter_bool. by destruct Hr.
  - by rewrite filter_fmap_bool.
Qed.

End Reclassify.

(** *** [process_dataframe], run twice *)

Lemma chain_in_cleared df : "chain" ∈ columns (cleared df).
Proof.
  unfold cleared, set_column. cbn [columns]. case_bool_decide; [done|].
  apply elem_of_app. right. left.
Qed.

Lemma cleared_unlabelled df : Forall (fun r => at_col "chain" r = NA) (rows (cleared df)).
Proof.
  unfold cleared, set_column. cbn [rows]. rewrite Forall_fmap. apply Forall_forall.
  intros r _. unfold compose, at_col. by rewrite lookup_insert_eq.
Qed.

Lemma reset_relabel base items (r : row) :
  at_col "chain" r = NA -> is_Some (r !! "chain") ->
  <["chain" := NA]> (relabel base items r) = r.
Proof.
  intros Hna [c Hc]. apply map_eq. intros k.
  destruct (decide (k = "chain")) as [->|Hne].
  - rewrite lookup_insert_eq. unfold at_col in Hna. rewrite Hc in Hna. simpl in Hna.
    by rewrite Hc, Hna.
  - rewrite lookup_insert_ne by done. unfold relabel.
    by rewrite label_all_chain_only.
Qed.

Lemma times_of_nil base : times_of base = [] -> base = [].
Proof. by destruct base. Qed.

Lemma select_accepted cols rs :
  select (fun r => isin_str accepted_chains (at_col "chain" r)) (Frame cols rs)
  = Frame cols (List.filter accepted rs).
Proof. reflexivity. Qed.

(** A run that asked nothing, from its result. *)
Lemma process_dataframe_quiet {ext : Externals} df items fp lp w out w1 :
  stdin w = [] ->
  process_dataframe df (Some items) fp lp w = (Ok out, w1) ->
  out = Frame (columns (cleared df))
          (List.filter accepted (relabel (rows (cleared df)) items <$> rows (cleared df)))
  /\ "Time" ∈ columns (cleared df)
  /\ settled (rows (cleared df)) items (times_of (rows (cleared df)))
  /\ (times_of (rows (cleared df)) <> [] ->
      "Identifier 1" ∈ columns (cleared df)
      /\ (needs_rt items -> "Rt" ∈ columns (cleared df))).
Proof.
  intros Hin Hrun. unfold process_dataframe in Hrun. fold (cleared df) in Hrun.
  destruct (cleared df) as [cols base]. cbn [rows columns] in *.
  apply bind_Ok in Hrun as (times & w0 & Htimes & Hrun).
  pose proof Htimes as Htime. apply column_Ok in Htime as [Htime ->].
  rewrite column_run in Htimes by done. cbn [rows] in Htimes.
  assert (Ht : times = at_col "Time" <$> base) by congruence. subst times. clear Htimes.
  apply bind_Ok in Hrun as (df1 & w2 & Hloop & Hrun).
  replace (Frame cols base) with (Frame cols (id <$> base)) in Hloop
    by (by rewrite list_fmap_id).
  apply times_loop_quiet in Hloop as (-> & -> & Hset & Hcols); [|apply chain_only_id|done].
  apply bind_Ok in Hrun as ([] & w3 & _ & Hrun). run_inv Hrun.
  rewrite select_accepted. done.
Qed.

(** A table without near-ties, classified. *)
Lemma process_dataframe_settled {ext : Externals} df items fp lp w :
  "Time" ∈ columns (cleared df) ->
  (times_of (rows (cleared df)) <> [] ->
   "Identifier 1" ∈ columns (cleared df)
   /\ (needs_rt items -> "Rt" ∈ columns (cleared df))) ->
  (forall t, t ∈ times_of (rows (cleared df)) ->
     exists r, r ∈ rows (cleared df) /\ py_eq (at_col "Time" r) t = true) ->
  settled (rows (cleared df)) items (times_of (rows (cleared df))) ->
  exists w',
    process_dataframe df (Some items) fp lp w
    = (Ok (Frame (columns (cleared df))
             (List.filter accepted
                (relabel (rows (cleared df)) items <$> rows (cleared df)))), w')
    /\ stdin w' = stdin w /\ stdout w' = stdout w.
Proof.
  intros Htime Hcols Hgroups Hset. unfold process_dataframe. fold (cleared df).
  erewrite (bind_run (column "Time" (cleared df))) by (by apply column_run).
  destruct (cleared df) as [cols base]. cbn [rows columns] in *.
  erewrite bind_run.
  2:{ replace (Frame cols base) with (Frame cols (id <$> base))
        by (by rewrite list_fmap_id).
      apply times_loop_no_tie; [apply chain_only_id | | done | done].
      intros Hne. destruct (Hcols Hne) as [Hid Hrt]. split; [done|]. auto. }
  rewrite select_accepted. eexists. split; [reflexivity|]. done.
Qed.



Lemma sample_keys_accepted : keys_accepted Sample.two_references.
Proof.
  intros c R Hc. unfold Sample.two_references in Hc.
  rewrite !elem_of_cons, elem_of_nil in Hc.
  repeat (destruct Hc as [Hc|Hc]; [try discriminate; injection Hc as -> _|]);
    try done; apply (bool_decide_unpack _); vm_compute; exact I.
Qed.


(** The table the operator enters has the nine chain labels as keys. *)
Lemma asked_table_keys_accepted {ext : Externals} lp w d w' :
  ask_user_for_rt lp w = (Ok (Some d), w') -> keys_accepted d.
Proof.
  intros Hkeys%ask_user_for_rt_keys c R Hc.
  change accepted_chains with chain_lengths. rewrite <- Hkeys.
  apply list_elem_of_fmap. by exists (c, Some R).
Qed.

(** With a key that is not a chain label the second run differs: the row
    labelled ["C34"] leaves the first output, and in the second run the
    remaining row is the closest one to that reference too. *)
Lemma foreign_key_not_idempotent :
  exists out w1 out2 w2,
    process_dataframe (ext := Sample.env) (Sample.injection 100 200)
      (Some Sample.foreign_references) "out" "log" (Sample.quiet []) = (Ok out, w1)
    /\ process_dataframe (ext := Sample.env) out
         (Some Sample.foreign_references) "out" "log" (Sample.quiet []) = (Ok out2, w2)
    /\ length (rows out) = 1%nat /\ rows out2 = [].
Proof.
  eexists _, _, _, _. split; [vm_compute; reflexivity|].
  split; [vm_compute; reflexivity|]. split; reflexivity.
Qed.


(** * Further properties of the program *)

(** ** [try_parse_date] *)

Lemma first_parse_Some {ext : Externals} formats date_str t :
  first_parse formats date_str = Some t <->
  exists pre fmt post,
    formats = (pre ++ fmt :: post)%list
    /\ Forall (fun f => strptime date_str f = None) pre
    /\ strptime date_str fmt = Some t.
Proof.
  induction formats as [|f formats IH]; simpl.
  - split; [discriminate|]. intros (pre & fmt & post & Heq & _). by destruct pre.
  - destruct (strptime date_str f) as [u|] eqn:Hf.
    + split.
      * intros [= <-]. exists [], f, formats. by repeat split.
      * intros (pre & fmt & post & Heq & Hpre & Hfmt). destruct pre as [|f' pre].
        -- simpl in Heq. injection Heq as <- _. congruence.
        -- simpl in Heq. injection Heq as <- _.
           apply Forall_cons in Hpre as [Hf' _]. congruence.
    + rewrite IH. split.
      * intros (pre & fmt & post & -> & Hpre & Hfmt).
        exists (f :: pre), fmt, post. repeat split; [|done]. by constructor.
      * intros (pre & fmt & post & Heq & Hpre & Hfmt). destruct pre as [|f' pre].
        -- simpl in Heq. injection Heq as <- _. congruence.
        -- simpl in Heq. injection Heq as <- ->.
           apply Forall_cons in Hpre as [_ Hpre]. eauto 6.
Qed.

Lemma first_parse_None {ext : Externals} formats date_str :
  first_parse formats date_str = None <->
  Forall (fun f => strptime date_str f = None) formats.
Proof.
  induction formats as [|f formats IH]; simpl; [by split|].
  destruct (strptime date_str f) as [u|] eqn:Hf.
  - split; [discriminate|]. intros [Hf' _]%Forall_cons. congruence.
  - rewrite IH. split; [by constructor | by intros [_ ?]%Forall_cons].
Qed.

(** X1. [try_parse_date] returns the parse under the first of the four
    formats that accepts the string, whatever the later formats would
    make of it, and [None] exactly when all four refuse it. *)
Theorem try_parse_date_first_format {ext : Externals} date_str :
  (forall t,
     try_parse_date date_str = Some t <->
     exists pre fmt post,
       date_formats = (pre ++ fmt :: post)%list
       /\ Forall (fun f => strptime date_str f = None) pre
       /\ strptime date_str fmt = Some t)
  /\ (try_parse_date date_str = None <->
      Forall (fun f => strptime date_str f = None) date_formats).
Proof.
  split; [intros t; apply first_parse_Some | apply first_parse_None].
Qed.

(** ** [import_data]: the analysis mode *)

(** X2. With an analysis mode other than ["dD"] and ["dC"] the variable
    [iso_rat] is never bound: [import_data] stops with an
    [UnboundLocalError] before it prints, logs or asks anything. *)
Theorem import_data_unknown_isotope {ext : Externals} df fp lp isotope w :
  isotope <> "dD" -> isotope <> "dC" ->
  import_data df fp lp isotope w = (Err UnboundLocalError, w).
Proof.
  intros HD HC. unfold import_data, prepare, normalize, iso_rat_of.
  apply String.eqb_neq in HD, HC. rewrite HD, HC. reflexivity.
Qed.

Lemma import_data_unknown_isotope_witness :
  import_data (ext := Sample.env) Sample.run_table "out" "log" "dN" (Sample.quiet ["y"])
  = (Err UnboundLocalError, Sample.quiet ["y"]).
Proof.
  apply (import_data_unknown_isotope (ext := Sample.env)); discriminate.
Defined.

(** ** Lines 72-88: no row is lost, every row is stamped *)

Lemma for_each_invariant {A S : Type} (P : S -> Prop) (l : list A) (body : A -> S -> M S) :
  (forall a s w s' w', body a s w = (Ok s', w') -> P s -> P s') ->
  forall s w s' w', for_each l body s w = (Ok s', w') -> P s -> P s'.
Proof.
  intros Hbody. induction l as [|a l IH]; intros s w s' w' Hrun Hs.
  - cbn [for_each] in Hrun. run_inv Hrun. done.
  - cbn [for_each] in Hrun. apply bind_Ok in Hrun as (s1 & w1 & Hstep & Hrun).
    eapply IH; [exact Hrun|]. eapply Hbody; eauto.
Qed.

Lemma normalize_step_rows new_name name df x w df' x' w' :
  normalize_step new_name name (df, x) w = (Ok (df', x'), w') ->
  length (rows df') = length (rows df).
Proof.
  unfold normalize_step. case_bool_decide.
  - destruct (List.filter _ _) as [|old ?]; [discriminate|].
    destruct (new_name !! x) as [new|]; [|discriminate].
    intros Hrun. run_inv Hrun. unfold rename. cbn [rows]. by rewrite length_fmap.
  - intros Hrun. apply bind_Ok in Hrun as ([] & w1 & _ & Hrun). run_inv Hrun.
    unfold set_column. cbn [rows]. by rewrite length_fmap.
Qed.

Lemma normalize_rows isotope df w df' w' :
  normalize isotope df w = (Ok df', w') -> length (rows df') = length (rows df).
Proof.
  unfold normalize. destruct (iso_rat_of isotope) as [iso_rat|]; [|discriminate].
  intros Hrun. apply bind_Ok in Hrun as ([df1 x1] & w1 & Hloop & Hrun). run_inv Hrun.
  cbn [fst].
  apply (for_each_invariant (fun st : frame * nat => length (rows st.1) = length (rows df)))
    in Hloop; [done| |done].
  intros name [d x] w0 [d' x'] w0' Hstep Hlen. cbn [fst] in *.
  rewrite <- Hlen. by eapply normalize_step_rows.
Qed.

Lemma add_timestamps_rows {ext : Externals} df w df' w' :
  add_timestamps df w = (Ok df', w') ->
  w' = w
  /\ Forall (fun r => is_Some (date_time_true r)) (rows df)
  /\ exists top,
       top = series_max (date2num <$> (default NA <$> (date_time_true <$> rows df)))
       /\ rows df' = stamp_row top <$> rows df.
Proof.
  intros (-> & -> & Hall)%add_timestamps_Ok. unfold stamp_columns.
  split; [done|]. split.
  { apply Forall_forall. intros r Hr. rewrite forallb_forall in Hall.
    apply list_elem_of_In, Hall in Hr. by apply bool_decide_eq_true in Hr. }
  eexists. split; [reflexivity|]. cbn [rows set_column].
  assert (Htop : at_col "date-time"
                   <$> ((fun r0 : row =>
                           <["date-time" := date2num (at_col "date-time_true" r0)]> r0)
                          <$> ((fun r0 : row =>
                                  <["date-time_true" := default NA (date_time_true r0)]> r0)
                                 <$> rows df))
                 = date2num <$> (default NA <$> (date_time_true <$> rows df))).
  { rewrite <- !list_fmap_compose. apply list_fmap_ext. intros j r' _.
    unfold compose, at_col. by rewrite lookup_insert_eq, lookup_insert_eq. }
  rewrite Htop. rewrite <- !list_fmap_compose. apply list_fmap_ext. intros i r _.
  unfold compose, stamp_row. cbv zeta. reflexivity.
Qed.

(** X3. Lines 72-88 drop no row. Every row of the table that reaches the
    segregation holds the parse of its own date and time (a null
    timestamp when no format accepts them) and, as numeric timestamp, the
    day number of that parse. *)
Theorem normalization_keeps_rows {ext : Externals} isotope df w df1 w1 df2 w2 :
  normalize isotope df w = (Ok df1, w1) ->
  add_timestamps df1 w1 = (Ok df2, w2) ->
  length (rows df2) = length (rows df)
  /\ Forall (fun r =>
               exists d t,
                 at_col "Date" r = Str d /\ at_col "Time" r = Str t
                 /\ at_col "date-time_true" r
                    = from_option Stamp NA (try_parse_date (d +:+ " " +:+ t))
                 /\ at_col "date-time" r = date2num (at_col "date-time_true" r))
            (rows df2).
Proof.
  intros Hn Ht. apply normalize_rows in Hn.
  apply add_timestamps_rows in Ht as (_ & Hall & top & _ & Hrows).
  rewrite Hrows, length_fmap. split; [done|].
  rewrite Forall_fmap. eapply Forall_impl; [exact Hall|].
  intros r [c Hc]. unfold compose, stamp_row, at_col. cbv zeta.
  rewrite !(lookup_insert_ne _ "time_rel") by done.
  rewrite !(lookup_insert_ne _ "date-time" "Date"), !(lookup_insert_ne _ "date-time" "Time") by done.
  rewrite !(lookup_insert_ne _ "date-time_true" "Date"),
    !(lookup_insert_ne _ "date-time_true" "Time") by done.
  rewrite lookup_insert_eq, (lookup_insert_ne _ "date-time" "date-time_true") by done.
  rewrite lookup_insert_eq. cbn [default].
  unfold date_time_true, at_col in Hc |- *.
  destruct (default NA (r !! "Date")) as [|d| |] eqn:Hd; try discriminate.
  destruct (default NA (r !! "Time")) as [|t| |] eqn:Htm; try discriminate.
  exists d, t. split; [done|]. split; [done|]. split; [done|].
  by rewrite lookup_insert_eq.
Qed.

Lemma normalization_keeps_rows_witness :
  length (rows Sample.normalized_table) = length (rows Sample.run_table)
  /\ Forall (fun r =>
               exists d t,
                 at_col "Date" r = Str d /\ at_col "Time" r = Str t
                 /\ at_col "date-time_true" r
                    = from_option Stamp NA
                        (try_parse_date (ext := Sample.env) (d +:+ " " +:+ t))
                 /\ at_col "date-time" r = date2num (at_col "date-time_true" r))
            (rows Sample.normalized_table).
Proof.
  eapply (normalization_keeps_rows (ext := Sample.env) "dD" Sample.run_table (Sample.quiet [])).
  - vm_compute. reflexivity.
  - vm_compute. reflexivity.
Defined.

(** ** The offset to the end of the run *)

Lemma fold_max_spec qs : forall q,
  ((fold_left Qmax qs q == q)%Q \/ exists x, x ∈ qs /\ (fold_left Qmax qs q == x)%Q)
  /\ (q <= fold_left Qmax qs q)%Q
  /\ forall x, x ∈ qs -> (x <= fold_left Qmax qs q)%Q.
Proof.
  induction qs as [|y qs IH]; intros q; simpl.
  - split; [left; reflexivity|]. split; [apply Qle_refl|].
    intros x Hx. by apply elem_of_nil in Hx.
  - destruct (IH (Qmax q y)) as (Hin & Hle & Hall). split; [|split].
    + destruct Hin as [Hin|(x & Hx & Hin)].
      * destruct (Q.max_spec q y) as [[_ Hm]|[_ Hm]].
        -- right. exists y. split; [left | by transitivity (Qmax q y)].
        -- left. by transitivity (Qmax q y).
      * right. exists x. split; [by right | done].
    + eapply Qle_trans; [apply Q.le_max_l | exact Hle].
    + intros x [->|Hx]%elem_of_cons; [|by apply Hall].
      eapply Qle_trans; [apply Q.le_max_r | exact Hle].
Qed.

Lemma series_max_spec l m :
  series_max l = Some m ->
  (exists x, Num x ∈ l /\ (m == x)%Q) /\ forall x, Num x ∈ l -> (x <= m)%Q.
Proof.
  unfold series_max. destruct (floats l) as [|q qs] eqn:Hf; [discriminate|].
  intros [= <-]. destruct (fold_max_spec qs q) as (Hin & Hle & Hall). split.
  - destruct Hin as [Hin|(x & Hx & Hin)].
    + exists q. split; [|done]. apply elem_of_floats. rewrite Hf. left.
    + exists x. split; [|done]. apply elem_of_floats. rewrite Hf. by right.
  - intros x Hx%elem_of_floats. rewrite Hf in Hx.
    apply elem_of_cons in Hx as [->|Hx]; [done | by apply Hall].
Qed.

Lemma series_max_is_Some l x : Num x ∈ l -> is_Some (series_max l).
Proof.
  intros Hx%elem_of_floats. unfold series_max.
  destruct (floats l); [by apply elem_of_nil in Hx | done].
Qed.

Lemma stamp_row_cells {ext : Externals} top r :
  at_col "date-time" (stamp_row top r) = date2num (default NA (date_time_true r))
  /\ at_col "time_rel" (stamp_row top r)
     = minus_max top (date2num (default NA (date_time_true r))).
Proof.
  unfold stamp_row, at_col. cbv zeta.
  rewrite (lookup_insert_ne _ "time_rel" "date-time") by done.
  by rewrite !lookup_insert_eq.
Qed.

(** X4. After lines 86-88 no row is later than the end of the run: a row
    with a numeric timestamp has an offset [time_rel] that is a number not
    above 0, a row without one has a null offset; and when some row has a
    numeric timestamp, some row is at offset 0. *)
Theorem time_rel_nonpositive {ext : Externals} df w df' w' :
  add_timestamps df w = (Ok df', w') ->
  Forall (fun r =>
            match at_col "date-time" r with
            | Num x => exists q, at_col "time_rel" r = Num q /\ (q <= 0)%Q
            | _ => at_col "time_rel" r = NA
            end) (rows df')
  /\ (Exists (fun r => at_col "date-time" r <> NA) (rows df') ->
      Exists (fun r => exists q, at_col "time_rel" r = Num q /\ (q == 0)%Q) (rows df')).
Proof.
  intros (_ & _ & top & Htop & Hrows)%add_timestamps_rows. rewrite Hrows.
  set (cell_of := fun r => date2num (default NA (date_time_true r))).
  assert (Hcol : date2num <$> (default NA <$> (date_time_true <$> rows df))
                 = cell_of <$> rows df).
  { rewrite <- !list_fmap_compose. done. }
  rewrite Hcol in Htop. split.
  - rewrite Forall_fmap. apply Forall_forall. intros r Hr. unfold compose.
    destruct (stamp_row_cells top r) as [-> ->]. fold (cell_of r).
    destruct (cell_of r) as [| |x|] eqn:Hx; try done.
    assert (Hin : Num x ∈ cell_of <$> rows df) by (apply list_elem_of_fmap; eauto).
    destruct (series_max_is_Some _ _ Hin) as [m Hm]. rewrite <- Htop in Hm.
    rewrite Hm. simpl. exists (x - m)%Q. split; [done|].
    rewrite Htop in Hm. apply series_max_spec in Hm as [_ Hm].
    apply Hm in Hin. rewrite <- (Qplus_opp_r m). by apply Qplus_le_l.
  - rewrite !Exists_fmap. rewrite !Exists_exists.
    intros (r & Hr & Hne). unfold compose in Hne.
    destruct (stamp_row_cells top r) as [Hdt _]. rewrite Hdt in Hne. fold (cell_of r) in Hne.
    destruct (cell_of r) as [| |x|] eqn:Hx; try done;
      try (unfold cell_of in Hx; by destruct (default NA (date_time_true r))).
    assert (Hin : Num x ∈ cell_of <$> rows df) by (apply list_elem_of_fmap; eauto).
    destruct (series_max_is_Some _ _ Hin) as [m Hm].
    destruct (series_max_spec _ _ Hm) as [(y & Hy & Hmy) _].
    apply list_elem_of_fmap in Hy as (r0 & Hy & Hr0).
    exists r0. split; [done|]. unfold compose.
    destruct (stamp_row_cells top r0) as [_ ->]. fold (cell_of r0).
    rewrite <- Hy, Htop, Hm. simpl. exists (y - m)%Q. split; [done|].
    rewrite Hmy. ring.
Qed.

Lemma time_rel_nonpositive_witness :
  Forall (fun r =>
            match at_col "date-time" r with
            | Num x => exists q, at_col "time_rel" r = Num q /\ (q <= 0)%Q
            | _ => at_col "time_rel" r = NA
            end) (rows Sample.normalized_table)
  /\ (Exists (fun r => at_col "date-time" r <> NA) (rows Sample.normalized_table) ->
      Exists (fun r => exists q, at_col "time_rel" r = Num q /\ (q == 0)%Q)
        (rows Sample.normalized_table)).
Proof.
  eapply (time_rel_nonpositive (ext := Sample.env)
            (Frame ["Identifier 1"; "Date"; "Time"; "Rt"; "area"; "dD"; "chain"]
               (rename_key "Component" "chain"
                  <$> (rename_key "Area All" "area"
                         <$> (rename_key "d 2H/1H" "dD" <$> rows Sample.run_table))))
            (Sample.quiet [])).
  vm_compute. reflexivity.
Defined.

(** ** Lines 72-84: the header after the loop over the source names *)

Lemma iso_rat_of_Some isotope iso_rat :
  iso_rat_of isotope = Some iso_rat ->
  (isotope = "dD" /\ iso_rat = "d 2H/1H") \/ (isotope = "dC" /\ iso_rat = "d 13C/12C").
Proof.
  unfold iso_rat_of. destruct (String.eqb_spec isotope "dC") as [->|HC].
  - intros [= <-]. by right.
  - destruct (String.eqb_spec isotope "dD") as [->|HD]; [|discriminate].
    intros [= <-]. by left.
Qed.

Lemma renamed_column_spec name df :
  name ∈ columns df -> Re.search name name = true ->
  renamed_column name df ∈ columns df
  /\ Re.search name (renamed_column name df) = true
  /\ List.filter (Re.search name) (columns df)
     = renamed_column name df :: tail (List.filter (Re.search name) (columns df)).
Proof.
  intros Hin Hs. unfold renamed_column.
  assert (Hf : name ∈ List.filter (Re.search name) (columns df)).
  { apply list_elem_of_In, filter_In. split; [by apply list_elem_of_In | done]. }
  destruct (List.filter _ _) as [|old l] eqn:Hl; [by apply elem_of_nil in Hf|].
  cbn [head default tail]. assert (Hold : In old (List.filter (Re.search name) (columns df))).
  { rewrite Hl. by left. }
  apply filter_In in Hold as [Hold1 Hold2]. by rewrite <- list_elem_of_In in Hold1.
Qed.

Lemma normalize_step_present new_name name df x new w :
  name ∈ columns df -> Re.search name name = true -> new_name !! x = Some new ->
  normalize_step new_name name (df, x) w
  = (Ok (rename (renamed_column name df) new df, S x), w).
Proof.
  intros Hin Hs Hx. unfold normalize_step. rewrite bool_decide_eq_true_2 by done.
  destruct (renamed_column_spec name df Hin Hs) as (_ & _ & ->). by rewrite Hx.
Qed.

Lemma normalize_step_absent new_name name df x w :
  name ∉ columns df ->
  normalize_step new_name name (df, x) w
  = (Ok (set_column name (fun _ => NA) df, x),
     World (stdin w) (stdout w ++ [name]) (logfile w)).
Proof.
  intros Hin. unfold normalize_step. by rewrite bool_decide_eq_false_2 by done.
Qed.

Lemma elem_of_rename c old new df :
  c ∈ columns (rename old new df)
  <-> (c = new /\ old ∈ columns df) \/ (c <> old /\ c ∈ columns df).
Proof.
  unfold rename. cbn [columns]. rewrite list_elem_of_fmap. split.
  - intros (y & -> & Hy). destruct (String.eqb_spec y old) as [->|Hne]; auto.
  - intros [[-> Hold]|[Hne Hc]].
    + exists old. by rewrite String.eqb_refl.
    + exists c. apply String.eqb_neq in Hne. by rewrite Hne.
Qed.

Lemma elem_of_set_column c name value df :
  c ∈ columns (set_column name value df) <-> c = name \/ c ∈ columns df.
Proof.
  unfold set_column. cbn [columns]. case_bool_decide.
  - split; [auto | intros [->|?]; done].
  - rewrite elem_of_app, list_elem_of_singleton. tauto.
Qed.

(** A source name is still in the header, or still out of it, after a turn
    of the loop for another name. *)
Lemma rename_keeps name c new df :
  name ∈ columns df -> Re.search name name = true ->
  Re.search name c = false -> c <> new ->
  c ∈ columns (rename (renamed_column name df) new df) <-> c ∈ columns df.
Proof.
  intros Hin Hs Hc Hnew. destruct (renamed_column_spec name df Hin Hs) as (_ & Hold & _).
  rewrite elem_of_rename. split.
  - intros [[-> _]|[_ ?]]; done.
  - intros Hcin. right. split; [|done]. intros ->. congruence.
Qed.

Lemma set_column_keeps name c value df :
  c <> name -> c ∈ columns (set_column name value df) <-> c ∈ columns df.
Proof. intros Hne. rewrite elem_of_set_column. split; [intros [?|?]; done | auto]. Qed.

Lemma rename_gives name new df :
  name ∈ columns df -> Re.search name name = true ->
  new ∈ columns (rename (renamed_column name df) new df).
Proof.
  intros Hin Hs. destruct (renamed_column_spec name df Hin Hs) as (Hold & _ & _).
  apply elem_of_rename. by left.
Qed.

Ltac keep_column H :=
  repeat first
    [ rewrite rename_keeps in H by (first [assumption | reflexivity | discriminate])
    | rewrite set_column_keeps in H by discriminate ].

Ltac normalize_turn :=
  lazymatch goal with
  | |- context [normalize_step ?nn ?name (?d, ?x) ?w] =>
      let H := fresh "Hin" in
      let H' := fresh "Hdf" in
      destruct (decide (name ∈ columns d)) as [H|H];
      [ rewrite (normalize_step_present nn name d x _ w H eq_refl eq_refl)
      | rewrite (normalize_step_absent nn name d x w H) ];
      pose proof H as H'; keep_column H'
  end.

Lemma normalize_run isotope df w :
  source_names isotope <> [] ->
  exists df',
    normalize isotope df w
    = (Ok df',
       World (stdin w)
             (stdout w ++ List.filter (fun name => negb (bool_decide (name ∈ columns df)))
                            (source_names isotope))
             (logfile w))
    /\ ("chain" ∈ columns df' ->
        "chain" ∈ columns df \/ "Component" ∈ columns df)
    /\ (Forall (fun name => name ∈ columns df) (source_names isotope) ->
        isotope ∈ columns df' /\ "area" ∈ columns df' /\ "chain" ∈ columns df').
Proof.
  unfold source_names, normalize. destruct (iso_rat_of isotope) as [iso_rat|] eqn:Hiso; [|done].
  intros _. destruct w as [i o l].
  apply iso_rat_of_Some in Hiso as [[-> ->]|[-> ->]];
    cbn [for_each List.filter]; unfold mbind, M_bind, mret, M_ret;
    normalize_turn; normalize_turn; normalize_turn;
    cbn [fst stdin stdout logfile];
    repeat match goal with
           | H : ?c ∈ columns df |- context [bool_decide (?c ∈ columns df)] =>
               rewrite (bool_decide_eq_true_2 (c ∈ columns df)) by exact H
           | H : ?c ∉ columns df |- context [bool_decide (?c ∈ columns df)] =>
               rewrite (bool_decide_eq_false_2 (c ∈ columns df)) by exact H
           end;
    cbn [negb app]; rewrite <- ?app_assoc, ?app_nil_r; cbn [app];
    (eexists; split; [reflexivity|]).
  all: split;
    [ first [ by intros _; right
            | intros Hc; keep_column Hc; by left ]
    | intros Hall; apply Forall_cons in Hall as [H1 Hall];
      apply Forall_cons in Hall as [H2 Hall]; apply Forall_cons in Hall as [H3 _];
      first
        [ done
        | split; [|split];
          repeat first
            [ apply rename_gives; [assumption | reflexivity]
            | rewrite rename_keeps by (first [assumption | reflexivity | discriminate]) ] ] ].
Qed.

(** X5. For the modes ["dD"] and ["dC"] the loop of lines 78-84 never
    fails: it returns a table, reads nothing, logs nothing, and prints
    the source names that are missing from the header of the export, in
    the order of the loop, and nothing else. *)
Theorem normalize_prints_missing isotope df w :
  isotope = "dD" \/ isotope = "dC" ->
  exists df',
    normalize isotope df w
    = (Ok df',
       World (stdin w)
             (stdout w ++ List.filter (fun name => negb (bool_decide (name ∈ columns df)))
                            (source_names isotope))
             (logfile w)).
Proof.
  intros Hiso. destruct (normalize_run isotope df w) as (df' & Hrun & _).
  - by destruct Hiso as [-> | ->].
  - eauto.
Qed.

Lemma normalize_prints_missing_witness :
  exists df',
    normalize "dD" Sample.unlabelled_export (Sample.quiet [])
    = (Ok df', World [] ["Component"] []).
Proof.
  destruct (normalize_prints_missing "dD" Sample.unlabelled_export (Sample.quiet []))
    as [df' Hrun]; [by left|].
  exists df'. exact Hrun.
Defined.

(** X6. When the header of the export holds the three source names, the
    normalised header holds the three canonical names (the mode,
    ["area"], ["chain"]), and nothing was printed. *)
Theorem normalize_canonical_header isotope df w df' w' :
  Forall (fun name => name ∈ columns df) (source_names isotope) ->
  normalize isotope df w = (Ok df', w') ->
  isotope ∈ columns df' /\ "area" ∈ columns df' /\ "chain" ∈ columns df' /\ w' = w.
Proof.
  intros Hall Hrun.
  assert (Hiso : source_names isotope <> []).
  { unfold source_names. unfold normalize in Hrun.
    destruct (iso_rat_of isotope); [done | discriminate]. }
  destruct (normalize_run isotope df w Hiso) as (df1 & Hrun1 & _ & Hhead).
  rewrite Hrun1 in Hrun. injection Hrun as <- <-.
  destruct (Hhead Hall) as (H1 & H2 & H3). repeat split; try done.
  assert (Hnone : List.filter (fun name => negb (bool_decide (name ∈ columns df)))
                    (source_names isotope) = []).
  { clear -Hall. induction Hall as [|name names Hin _ IH]; [done|].
    cbn [List.filter]. by rewrite bool_decide_eq_true_2. }
  rewrite Hnone, app_nil_r. by destruct w.
Qed.

Lemma normalize_canonical_header_witness :
  let df' := rename "Component" "chain"
               (rename "Area All" "area" (rename "d 2H/1H" "dD" Sample.run_table)) in
  "dD" ∈ columns df' /\ "area" ∈ columns df' /\ "chain" ∈ columns df'
  /\ Sample.quiet [] = Sample.quiet [].
Proof.
  apply (normalize_canonical_header "dD" Sample.run_table (Sample.quiet [])).
  - apply (bool_decide_unpack _). vm_compute. exact I.
  - vm_compute. reflexivity.
Defined.

(** ** An export without a component column *)

Lemma add_timestamps_columns {ext : Externals} df w df' w' c :
  add_timestamps df w = (Ok df', w') ->
  c ∈ columns df' -> c ∈ columns df \/ c ∈ ["date-time_true"; "date-time"; "time_rel"].
Proof.
  intros (_ & -> & _)%add_timestamps_Ok. unfold stamp_columns.
  rewrite !elem_of_set_column, !elem_of_cons. tauto.
Qed.

Lemma normalize_stdin isotope df w r w' :
  normalize isotope df w = (r, w') -> stdin w' = stdin w.
Proof.
  destruct (iso_rat_of isotope) as [iso_rat|] eqn:Hiso.
  - destruct (normalize_run isotope df w) as (df1 & -> & _).
    { unfold source_names. by rewrite Hiso. }
    by intros [= _ <-].
  - unfold normalize. rewrite Hiso. by intros [= _ <-].
Qed.

Lemma segregate_stdin df lp w r w' :
  segregate df lp w = (r, w') -> stdin w' = stdin w.
Proof.
  unfold segregate, str_accessor, attribute, column, drop_calibration, append_to_log,
    mbind, M_bind, mret, M_ret, raise.
  intros Hrun. repeat case_match; simplify_eq; reflexivity.
Qed.

Lemma prepare_stdin {ext : Externals} df lp isotope w r w' :
  prepare df lp isotope w = (r, w') -> stdin w' = stdin w.
Proof.
  unfold prepare, mbind, M_bind.
  destruct (normalize isotope df w) as [[df1|e] w1] eqn:Hn.
  - apply normalize_stdin in Hn. rewrite <- Hn.
    destruct (add_timestamps df1 w1) as [[df2|e] w2] eqn:Ht.
    + assert (w2 = w1) as ->.
      { by apply add_timestamps_rows in Ht as (-> & _). }
      apply segregate_stdin.
    + assert (w2 = w1) as ->.
      { unfold add_timestamps, mret, M_ret, raise in Ht. repeat case_match; by simplify_eq. }
      by intros [= _ <-].
  - apply normalize_stdin in Hn. by intros [= _ <-].
Qed.

(** X7. An export whose header has neither a ["Component"] nor a
    ["chain"] column cannot be imported, whatever else it holds and
    whatever the mode: [import_data] raises, and it does so before the
    operator is asked anything. *)
Theorem import_data_needs_component {ext : Externals} df fp lp isotope w :
  "Component" ∉ columns df -> "chain" ∉ columns df ->
  exists e w', import_data df fp lp isotope w = (Err e, w') /\ stdin w' = stdin w.
Proof.
  intros Hcomp Hchain.
  destruct (prepare df lp isotope w) as [[tables|e] w1] eqn:Hp.
  - exfalso. destruct tables as [[l d] u].
    pose proof (prepare_columns _ _ _ _ _ _ _ _ Hp) as (Hl & _).
    apply prepare_Ok in Hp as (df1 & w0 & df2 & w2 & Hn & Ht & Hs).
    apply segregate_Ok in Hs as (-> & _ & _ & _ & Hc).
    destruct (add_timestamps_columns _ _ _ _ _ Ht Hc) as [Hc1|Hc1].
    + destruct (normalize_run isotope df w) as (df' & Hrun & Hback & _).
      { unfold source_names. unfold normalize in Hn.
        by destruct (iso_rat_of isotope). }
      rewrite Hrun in Hn. injection Hn as -> _. tauto.
    + revert Hc1. rewrite !elem_of_cons, elem_of_nil. intros [?|[?|[?|[]]]]; done.
  - exists e, w1. split; [|by eapply prepare_stdin].
    unfold import_data. by apply bind_Err.
Qed.

Lemma import_data_needs_component_witness :
  exists e w',
    import_data (ext := Sample.env) Sample.unlabelled_export "out" "log" "dD" (Sample.quiet ["y"])
    = (Err e, w')
    /\ stdin w' = ["y"].
Proof.
  apply (import_data_needs_component (ext := Sample.env));
    apply (bool_decide_unpack _); vm_compute; exact I.
Defined.

(** ** Lines 90-110: what the segregation writes and when it stops *)

Lemma filter_submseteq_bool {A : Type} (p : A -> bool) (k l : list A) :
  k ⊆+ l -> List.filter p k ⊆+ List.filter p l.
Proof.
  induction 1 as [|x k l _ IH|x y l|x k l _ IH|k l m _ IH1 _ IH2]; simpl.
  - done.
  - destruct (p x); [by apply submseteq_skip | done].
  - destruct (p x), (p y); try done. apply submseteq_swap.
  - destruct (p x); [by apply submseteq_cons | done].
  - by etrans.
Qed.

Lemma count_chain_submseteq label (d1 d2 : frame) :
  rows d1 ⊆+ rows d2 -> (count_chain label d1 <= count_chain label d2)%nat.
Proof.
  intros Hsub. unfold count_chain, select. cbn [rows].
  by apply submseteq_length, filter_submseteq_bool.
Qed.

(** X8. A segregation that succeeds prints nothing, reads nothing and
    appends exactly three lines to the log: the number of linearity rows
    labelled C28, a number of drift rows labelled C24, and the notice that
    the first two drift standards are ignored. The drift number is counted
    before the first two runs are removed, so it is at least the number of
    C24 rows of the drift table that is returned. *)
Theorem segregate_log df lp w linearity_std drift_std unknown w' :
  segregate df lp w = (Ok (linearity_std, drift_std, unknown), w') ->
  w' = World (stdin w) (stdout w)
             (logfile w
              ++ ["Number of linearity standards analyzed: "
                    +:+ pretty (count_chain "C28" linearity_std);
                  "Number of Drift standards analyzed: "
                    +:+ pretty (count_chain "C24" (drift_candidates df));
                  "First two drift standards ignored."])
  /\ (count_chain "C24" drift_std <= count_chain "C24" (drift_candidates df))%nat.
Proof.
  intros Hrun. pose proof (segregate_Ok _ _ _ _ _ _ _ Hrun) as (-> & -> & -> & _ & _).
  split; [|apply count_chain_submseteq, remove_first_two_submseteq].
  revert Hrun.
  unfold segregate, str_accessor, attribute, column, drop_calibration, append_to_log,
    mbind, M_bind, mret, M_ret, raise.
  intros Hrun. repeat case_match; simplify_eq; cbn [stdin stdout logfile];
    by rewrite <- !app_assoc.
Qed.

Lemma segregate_log_witness :
  World [] []
    ["Number of linearity standards analyzed: 1";
     "Number of Drift standards analyzed: 3";
     "First two drift standards ignored."]
  = World [] []
      ([] ++ ["Number of linearity standards analyzed: "
                +:+ pretty (count_chain "C28" Sample.linearity_out);
              "Number of Drift standards analyzed: "
                +:+ pretty (count_chain "C24" (drift_candidates Sample.normalized_table));
              "First two drift standards ignored."])
  /\ (count_chain "C24" Sample.drift_out
      <= count_chain "C24" (drift_candidates Sample.normalized_table))%nat.
Proof.
  apply (segregate_log Sample.normalized_table "log" (Sample.quiet [])
           Sample.linearity_out Sample.drift_out Sample.unknown_out).
  vm_compute. reflexivity.
Defined.

(** ** Fewer than three drift runs *)

Lemma few_unique (L : list cell) (a b : cell) :
  Forall (fun c => same_value c a = true \/ same_value c b = true) L ->
  (length (unique L) <= 2)%nat.
Proof.
  intros Hall.
  assert (HU : Forall (fun c => same_value c a = true \/ same_value c b = true) (unique L)).
  { apply Forall_forall. intros c Hc%elem_of_unique. rewrite Forall_forall in Hall. auto. }
  pose proof (unique_distinct L) as Hd.
  destruct (unique L) as [|u0 [|u1 [|u2 U]]]; simpl; try lia.
  exfalso.
  apply StronglySorted_inv in Hd as [Hd H0].
  apply StronglySorted_inv in Hd as [_ H1].
  apply Forall_cons in H0 as [H01 H0]. apply Forall_cons in H0 as [H02 _].
  apply Forall_cons in H1 as [H12 _].
  apply Forall_cons in HU as [Hu0 HU]. apply Forall_cons in HU as [Hu1 HU].
  apply Forall_cons in HU as [Hu2 _].
  assert (Hsame : forall x y c, same_value x c = true -> same_value y c = true ->
                                same_value x y = true).
  { intros x y c Hx Hy. eapply same_value_trans; [exact Hx|]. by rewrite same_value_sym. }
  destruct Hu0 as [Hu0|Hu0], Hu1 as [Hu1|Hu1], Hu2 as [Hu2|Hu2];
    first [ rewrite (Hsame _ _ _ Hu0 Hu1) in H01; discriminate
          | rewrite (Hsame _ _ _ Hu0 Hu2) in H02; discriminate
          | rewrite (Hsame _ _ _ Hu1 Hu2) in H12; discriminate ].
Qed.

Lemma isin_covers (L : list cell) c : c ∈ L -> isin (unique L) c = true.
Proof.
  intros (t & Ht & Htc)%unique_covers. unfold isin. apply existsb_exists.
  exists t. split; [by apply list_elem_of_In | by rewrite same_value_sym].
Qed.

Lemma filter_none {A : Type} (p : A -> bool) (l : list A) :
  (forall x, x ∈ l -> p x = false) -> List.filter p l = [].
Proof.
  induction l as [|x l IH]; intros Hall; [done|]. simpl.
  rewrite (Hall x) by left. apply IH. intros y Hy. apply Hall. by right.
Qed.

(** X9. When the drift-standard rows carry no more than two distinct time
    signatures, lines 100-104 remove all of them: the drift table that is
    returned is empty. *)
Theorem drift_of_two_runs_empty df lp w linearity_std drift_std unknown w' (a b : cell) :
  segregate df lp w = (Ok (linearity_std, drift_std, unknown), w') ->
  Forall (fun r => same_value (at_col "date-time" r) a = true
                   \/ same_value (at_col "date-time" r) b = true)
         (rows (drift_candidates df)) ->
  rows drift_std = [].
Proof.
  intros (_ & -> & _)%segregate_Ok Hall.
  set (cand := drift_candidates df) in *. unfold remove_first_two.
  set (S := sort_values "date-time_true" cand).
  assert (HS : Forall (fun c => same_value c a = true \/ same_value c b = true)
                 (at_col "date-time" <$> rows S)).
  { rewrite Forall_fmap. apply Forall_forall. intros r Hr%elem_of_sort_values.
    rewrite Forall_forall in Hall. by apply Hall. }
  apply few_unique in HS. rewrite take_ge by done.
  unfold select. cbn [rows]. apply filter_none. intros r Hr.
  rewrite isin_covers; [done|]. apply list_elem_of_fmap. eauto.
Qed.

Lemma drift_of_two_runs_empty_witness :
  rows (remove_first_two
          (drift_candidates
             (Frame (columns Sample.normalized_table) (drop 4 (rows Sample.normalized_table)))))
  = [].
Proof.
  eapply (drift_of_two_runs_empty
            (Frame (columns Sample.normalized_table) (drop 4 (rows Sample.normalized_table)))
            "log" (Sample.quiet []) _ _ _ _
            (Num (50 # 86400)) (Num (50 # 86400))).
  - vm_compute. reflexivity.
  - apply (bool_decide_unpack _). vm_compute. exact I.
Defined.

(** ** A row without identifier *)

Lemma unmarked_of_no_string df r :
  r ∈ rows df -> is_str (at_col "Identifier 1" r) = false -> r ∈ rows (unmarked df).
Proof.
  intros Hr Hs. unfold unmarked. rewrite !elem_of_select. unfold has_markers, str_contains.
  by destruct (at_col "Identifier 1" r).
Qed.

(** X10. A table that has the columns the segregation reads, at least one
    identifier that is a string and at least one row whose identifier is
    not a string (an empty cell) cannot be segregated: after the three log
    lines, line 110 raises [TypeError]. *)
Theorem segregate_empty_identifier df lp w :
  Forall (fun c => c ∈ columns df) ["Identifier 1"; "chain"; "date-time_true"; "date-time"] ->
  Exists (fun r => is_str (at_col "Identifier 1" r) = true) (rows df) ->
  Exists (fun r => is_str (at_col "Identifier 1" r) = false) (rows df) ->
  segregate df lp w
  = (Err TypeError,
     World (stdin w) (stdout w)
           (logfile w
            ++ ["Number of linearity standards analyzed: "
                  +:+ pretty (count_chain "C28" (linearity_candidates df));
                "Number of Drift standards analyzed: "
                  +:+ pretty (count_chain "C24" (drift_candidates df));
                "First two drift standards ignored."])).
Proof.
  intros Hcols Hstr Hna.
  apply Forall_cons in Hcols as [Hid Hcols]. apply Forall_cons in Hcols as [Hch Hcols].
  apply Forall_cons in Hcols as [Hdt Hcols]. apply Forall_cons in Hcols as [Hdn _].
  assert (Hacc : str_accessor "Identifier 1" df w = (Ok tt, w)).
  { unfold str_accessor. rewrite bool_decide_eq_true_2 by done.
    destruct (rows df) as [|r0 rs] eqn:Hrows; [by apply Exists_nil in Hstr|].
    assert (Hex : existsb (fun r => is_str (at_col "Identifier 1" r)) (r0 :: rs) = true).
    { apply existsb_exists. apply Exists_exists in Hstr as (r & Hr & Hs).
      exists r. split; [by apply list_elem_of_In | done]. }
    by rewrite Hex. }
  assert (Hdrop : drop_calibration (unmarked df)
                  = fun w0 => (Err TypeError, w0)).
  { unfold drop_calibration.
    assert (Hall : forallb (fun r => is_str (at_col "Identifier 1" r)) (rows (unmarked df))
                   = false).
    { apply not_true_is_false. intros Hall. rewrite forallb_forall in Hall.
      apply Exists_exists in Hna as (r & Hr & Hs).
      pose proof (unmarked_of_no_string df r Hr Hs) as Hu.
      apply list_elem_of_In, Hall in Hu. congruence. }
    by rewrite Hall. }
  unfold segregate.
  erewrite bind_run by exact Hacc.
  erewrite bind_run by (by apply attribute_run).
  erewrite bind_run by apply append_to_log_run.
  erewrite bind_run by apply append_to_log_run.
  erewrite bind_run by (by apply column_run).
  erewrite bind_run by (by apply column_run).
  erewrite bind_run by apply append_to_log_run.
  rewrite Hdrop. cbn [mbind M_bind stdin stdout logfile].
  unfold mbind, M_bind. cbn [stdin stdout logfile]. by rewrite <- !app_assoc.
Qed.

Lemma segregate_empty_identifier_witness :
  fst (segregate
         (Frame (columns Sample.normalized_table)
                (<["Identifier 1" := NA]> (Sample.nth_row 0) :: rows Sample.normalized_table))
         "log" (Sample.quiet []))
  = Err TypeError.
Proof.
  rewrite (segregate_empty_identifier
             (Frame (columns Sample.normalized_table)
                (<["Identifier 1" := NA]> (Sample.nth_row 0) :: rows Sample.normalized_table))
             "log" (Sample.quiet [])).
  - reflexivity.
  - apply (bool_decide_unpack _). vm_compute. exact I.
  - apply (bool_decide_unpack _). vm_compute. exact I.
  - apply (bool_decide_unpack _). vm_compute. exact I.
Defined.

(** ** [closest_rt]: the peaks that are returned *)

Lemma abs_difference_Num R c d :
  abs_difference R c = Num d <-> exists y, c = Num y /\ d = Qabs (y - R).
Proof.
  destruct c as [| |q|]; cbn [abs_difference]; split;
    try done; try (intros (y & ? & _); done).
  - intros [= <-]. eauto.
  - intros (y & [= <-] & ->). done.
Qed.

Lemma Qle_scale (a thr : Q) : (0 <= a)%Q -> (0 <= thr)%Q -> (a <= a * (1 + thr))%Q.
Proof.
  intros Ha Hthr.
  assert (Hb : (a * (1 + thr) == a + a * thr)%Q) by ring.
  rewrite Hb. rewrite <- (Qplus_0_r a) at 1. apply Qplus_le_r.
  by apply Qmult_le_0_compat.
Qed.

Lemma within_true lim d :
  within lim d = true <-> exists x m, d = Num x /\ lim = Some m /\ (x <= m)%Q.
Proof.
  destruct d as [| |x|], lim as [m|]; cbn [within]; split; try done;
    try (intros (x' & m' & ? & ? & _); done).
  - intros Hle%Qle_bool_iff. eauto.
  - intros (x' & m' & [= <-] & [= <-] & Hle). by apply Qle_bool_iff.
Qed.

(** A peak is selected exactly when its distance to the target is within
    [1 + threshold] times the distance of every peak of the injection. *)
Lemma elem_of_closest_rows df t R thr (r0 : row) :
  (0 <= thr)%Q ->
  r0 ∈ rows (closest_rows df t R thr)
  <-> r0 ∈ rows df /\ py_eq (at_col "Time" r0) t = true
      /\ exists y, at_col "Rt" r0 = Num y
           /\ forall (r : row) x,
                r ∈ rows df -> py_eq (at_col "Time" r) t = true -> at_col "Rt" r = Num x ->
                (Qabs (y - R) <= Qabs (x - R) * (1 + thr))%Q.
Proof.
  intros Hthr. unfold closest_rows. cbv zeta. rewrite !elem_of_select.
  set (sample_df := select (fun r => py_eq (at_col "Time" r) t) df).
  set (D := (fun r : row => abs_difference R (at_col "Rt" r)) <$> rows sample_df).
  assert (HD : forall d, Num d ∈ D <->
                 exists (r : row) x, r ∈ rows df /\ py_eq (at_col "Time" r) t = true
                                     /\ at_col "Rt" r = Num x /\ d = Qabs (x - R)).
  { intros d. unfold D. rewrite list_elem_of_fmap. split.
    - intros (r & Hd & Hr). symmetry in Hd. apply abs_difference_Num in Hd as (x & Hx & ->).
      apply elem_of_select in Hr as [Hr Ht]. eauto 8.
    - intros (r & x & Hr & Ht & Hx & ->). exists r. split.
      + by rewrite Hx.
      + by apply elem_of_select. }
  assert (Hscale : (0 <= 1 + thr)%Q).
  { rewrite <- (Qplus_0_r 0). apply Qplus_le_compat; [discriminate | done]. }
  split.
  - intros [[Hr0 Ht0] Hw]. split; [done|]. split; [done|].
    apply within_true in Hw as (d & lim & Hd & Hlim & Hle).
    apply abs_difference_Num in Hd as (y & Hy & ->). exists y. split; [done|].
    intros r x Hr Ht Hx.
    destruct (series_min D) as [m|] eqn:Hm; [|done].
    assert (lim = (m * (1 + thr))%Q) as -> by (cbn in Hlim; congruence).
    apply series_min_spec in Hm as [_ Hm].
    eapply Qle_trans; [exact Hle|]. apply Qmult_le_compat_r; [|done].
    apply Hm, HD. eauto 8.
  - intros (Hr0 & Ht0 & y & Hy & Hall). split; [done|].
    rewrite Hy. cbn [abs_difference].
    assert (Hin : Num (Qabs (y - R)) ∈ D) by (apply HD; eauto 8).
    destruct (series_min_is_Some _ _ Hin) as [m Hm]. rewrite Hm.
    cbn [fmap option_fmap option_map within]. apply Qle_bool_iff.
    destruct (series_min_spec _ _ Hm) as [(d & Hd & Hmd) _].
    apply HD in Hd as (r & x & Hr & Ht & Hx & ->).
    rewrite Hmd. by eapply Hall.
Qed.



(** ** [ask_user_for_rt]: what the operator typed and what is returned *)

Lemma rt_entry_run {ext : Externals} rt w :
  rt_entry rt w
  = (if String.eqb (PyStr.lower (PyStr.strip rt)) "none" then Ok None
     else match py_float (PyStr.strip rt) with
          | Some q => Ok (Some q)
          | None => Err ValueError
          end, w).
Proof. unfold rt_entry. by repeat case_match. Qed.

Lemma build_rt_dict_Ok {ext : Externals} pairs w d w' :
  build_rt_dict pairs w = (Ok d, w') ->
  w' = w /\ d.*1 = pairs.*1 /\ Forall2 entry_value pairs.*2 d.*2.
Proof.
  revert d. induction pairs as [|[chain rt] pairs IH]; intros d Hrun.
  - cbn [build_rt_dict] in Hrun. run_inv Hrun. by repeat constructor.
  - cbn [build_rt_dict] in Hrun.
    apply bind_Ok in Hrun as (v & w1 & Hv & Hrun).
    apply bind_Ok in Hrun as (d0 & w2 & Hd & Hrun). run_inv Hrun.
    rewrite rt_entry_run in Hv.
    assert (w1 = w) as -> by congruence.
    apply IH in Hd as (-> & Hkeys & Hvals). split; [done|]. csimpl.
    split; [by rewrite Hkeys|]. constructor; [|done].
    unfold entry_value. destruct (String.eqb_spec (PyStr.lower (PyStr.strip rt)) "none").
    + by simplify_eq.
    + destruct (py_float (PyStr.strip rt)); by simplify_eq.
Qed.

Lemma build_rt_dict_Err {ext : Externals} pairs w :
  Exists (fun rt => PyStr.lower (PyStr.strip rt) <> "none" /\ py_float (PyStr.strip rt) = None)
         pairs.*2 ->
  build_rt_dict pairs w = (Err ValueError, w).
Proof.
  induction pairs as [|[chain rt] pairs IH]; csimpl; intros Hex.
  - by apply Exists_nil in Hex.
  - unfold mbind, M_bind. rewrite rt_entry_run.
    apply Exists_cons in Hex as [[Hne Hf]|Hex].
    + apply String.eqb_neq in Hne. by rewrite Hne, Hf.
    + destruct (String.eqb _ _); [|destruct (py_float _); [|done]]; by rewrite (IH Hex).
Qed.

(** One turn of the loop that goes round again leaves the end of the
    operator's lines to the next turn. *)
Lemma ask_once_suffix {ext : Externals} lp w w' :
  ask_once lp w = (Ok None, w') -> stdin w' `suffix_of` stdin w.
Proof.
  unfold ask_once, input. intros Hrun. apply bind_Ok in Hrun as (a & w1 & Hin & Hrun).
  destruct (stdin w) as [|line rest] eqn:Hw; [discriminate|]. simplify_eq. simpl in Hrun.
  destruct (pos_response _).
  - apply bind_Ok in Hrun as ([] & w2 & Hlog & Hrun). rewrite append_to_log_run in Hlog.
    simplify_eq. apply bind_Ok in Hrun as (b & w3 & Hin & Hrun).
    simpl in Hin. destruct rest as [|line2 rest]; [discriminate|]. simplify_eq.
    destruct (_ =? _)%nat.
    + run_inv Hrun.
    + apply bind_Ok in Hrun as ([] & w4 & Hp & Hrun). unfold print in Hp. simplify_eq.
      run_inv Hrun. simpl. by apply suffix_cons_r, suffix_cons_r.
  - destruct (neg_response _).
    + run_inv Hrun.
    + apply bind_Ok in Hrun as ([] & w4 & Hp & Hrun). unfold print in Hp. simplify_eq.
      run_inv Hrun. simpl. by apply suffix_cons_r.
Qed.

Lemma while_true_invariant {A : Type} (P : world -> Prop) fuel (body : M (option A)) w a w' :
  (forall w1 w2, P w1 -> body w1 = (Ok None, w2) -> P w2) ->
  P w ->
  while_true fuel body w = (Ok a, w') ->
  exists w1, P w1 /\ body w1 = (Ok (Some a), w').
Proof.
  intros Hstep. revert w. induction fuel as [|fuel IH]; intros w Hw Hrun; [discriminate|].
  simpl in Hrun. apply bind_Ok in Hrun as ([b|] & w1 & Hbody & Hrest).
  - run_inv Hrest. eauto.
  - eauto.
Qed.

(** The turn that returns a table. *)
Lemma ask_once_table {ext : Externals} lp w d w' :
  ask_once lp w = (Ok (Some (Some d)), w') ->
  exists line values,
    stdin w = line :: values :: stdin w'
    /\ pos_response (PyStr.lower (PyStr.strip line)) = true
    /\ length (PyStr.split "," values) = length chain_lengths
    /\ build_rt_dict (zip chain_lengths (PyStr.split "," values)) w' = (Ok d, w')
    /\ logfile w' = (logfile w ++ ["User opted to identify chains."])%list.
Proof.
  unfold ask_once, input. intros Hrun. apply bind_Ok in Hrun as (a & w1 & Hin & Hrun).
  destruct (stdin w) as [|line rest] eqn:Hw; [discriminate|]. simplify_eq. simpl in Hrun.
  destruct (pos_response _) eqn:Hpos.
  - apply bind_Ok in Hrun as ([] & w2 & Hlog & Hrun). rewrite append_to_log_run in Hlog.
    simplify_eq. apply bind_Ok in Hrun as (b & w3 & Hin & Hrun).
    simpl in Hin. destruct rest as [|line2 rest]; [discriminate|]. simplify_eq.
    destruct (_ =? _)%nat eqn:Hlen.
    + apply bind_Ok in Hrun as (d0 & w4 & Hd & Hrun). run_inv Hrun.
      pose proof (build_rt_dict_Ok _ _ _ _ Hd) as (-> & _).
      apply Nat.eqb_eq in Hlen. eexists _, _. simpl. split; [reflexivity|].
      split; [exact Hpos|]. split; [exact Hlen|]. split; [exact Hd | reflexivity].
    + apply bind_Ok in Hrun as ([] & w4 & Hp & Hrun). run_inv Hrun.
  - destruct (neg_response _).
    + apply bind_Ok in Hrun as ([] & w2 & _ & Hrun).
      apply bind_Ok in Hrun as ([] & w3 & _ & Hrun). run_inv Hrun.
    + apply bind_Ok in Hrun as ([] & w4 & Hp & Hrun). run_inv Hrun.
Qed.



Lemma ask_user_for_rt_eof {ext : Externals} lp out log :
  ask_user_for_rt lp (World [] out log)
  = (Err EOFError, World [] (out ++ [detect_question]) log).
Proof. reflexivity. Qed.

(** X14. As long as the operator's lines are neither a yes nor a no, the
    question is asked again after the message, once per line, and nothing
    is logged; when the lines run out the last question ends in an
    [EOFError]. In particular nothing is returned without an answer that
    [pos_response] or [neg_response] recognises. *)
Theorem no_recognized_answer {ext : Externals} lp w :
  Forall unrecognized (stdin w) ->
  ask_user_for_rt lp w
  = (Err EOFError,
     World []
           (stdout w
            ++ concat ((fun _ => [detect_question;
                                  "Invalid response. Please answer 'yes' or 'no'."])
                         <$> stdin w)
            ++ [detect_question])
           (logfile w)).
Proof.
  destruct w as [lines out log]. cbn [stdin stdout logfile]. intros Hall.
  revert out. induction Hall as [|line lines [Hpos Hneg] _ IH]; intros out.
  - apply ask_user_for_rt_eof.
  - rewrite (unrecognized_answer_reprompts lp line lines out log Hpos Hneg).
    rewrite IH. csimpl. by rewrite <- !app_assoc.
Qed.

Lemma no_recognized_answer_witness :
  ask_user_for_rt (ext := Sample.env) "log" (Sample.quiet ["maybe"; "Y E S"])
  = (Err EOFError,
     World []
           ([] ++ concat ((fun _ => [detect_question;
                                     "Invalid response. Please answer 'yes' or 'no'."])
                            <$> ["maybe"; "Y E S"])
            ++ [detect_question])
           []).
Proof.
  apply (no_recognized_answer (ext := Sample.env) "log" (Sample.quiet ["maybe"; "Y E S"])).
  apply (bool_decide_unpack _). vm_compute. exact I.
Defined.



(** ** [process_dataframe]: what a run can change *)

Lemma for_each_invariant_in {A S : Type} (P : S -> world -> Prop) (l : list A)
    (body : A -> S -> M S) :
  (forall a s w s' w', a ∈ l -> body a s w = (Ok s', w') -> P s w -> P s' w') ->
  forall s w s' w', for_each l body s w = (Ok s', w') -> P s w -> P s' w'.
Proof.
  induction l as [|a l IH]; intros Hbody s w s' w' Hrun Hs.
  - cbn [for_each] in Hrun. run_inv Hrun. done.
  - cbn [for_each] in Hrun. apply bind_Ok in Hrun as (s1 & w1 & Hstep & Hrun).
    eapply IH; [|exact Hrun|].
    + intros a0 s0 w0 s0' w0' Ha0. apply Hbody. by right.
    + eapply Hbody; [left | exact Hstep | exact Hs].
Qed.

(** A turn of the inner loop leaves the table as it is or writes the
    chain of the turn into the chain column; it touches the outside world
    only on the near-tie branch, after the column ["Area All"] was read. *)
Lemma chain_step_Ok {ext : Externals} t sid c rt df w df' w' :
  chain_step t sid (c, rt) df w = (Ok df', w') ->
  (df' = df \/ exists R v, rt = Some R /\ df' = assign t v c df)
  /\ (w' = w \/ "Area All" ∈ columns df).
Proof.
  unfold chain_step. destruct rt as [R|]; [|intros Hrun; run_inv Hrun; auto].
  intros Hrun. apply bind_Ok in Hrun as (cl & w0 & Hcl & Hrun).
  unfold closest_rt in Hcl. run_inv Hcl.
  destruct (rows (closest_rows df t R default_threshold)) as [|r [|r2 l]].
  - run_inv Hrun. auto.
  - run_inv Hrun. split; [right|left]; eauto.
  - apply bind_Ok in Hrun as (areas & w5 & Ha & Hrun). run_inv Ha.
    split; [|by right].
    apply bind_Ok in Hrun as (choice & w6 & _ & Hrun).
    destruct (String.eqb _ "none"); [run_inv Hrun; auto|].
    destruct (py_int _); [|discriminate].
    destruct (iloc _ _); [|discriminate]. run_inv Hrun. eauto.
Qed.

Lemma assign_same_data t v c df (rs0 : list row) :
  Forall2 same_data rs0 (rows df) -> Forall2 same_data rs0 (rows (assign t v c df)).
Proof.
  unfold assign, set_where. cbn [rows]. intros Hall.
  rewrite Forall2_fmap_r. eapply Forall2_impl; [exact Hall|].
  intros r0 r Hr. unfold compose. case_match; [|done].
  intros k Hk. rewrite lookup_insert_ne by done. by apply Hr.
Qed.

Lemma assign_labelled_from items t v c R df :
  (c, Some R) ∈ items ->
  Forall (labelled_from items) (rows df) ->
  Forall (labelled_from items) (rows (assign t v c df)).
Proof.
  unfold assign, set_where. cbn [rows]. intros Hc Hall.
  rewrite Forall_fmap. eapply Forall_impl; [exact Hall|].
  intros r Hr. unfold compose. case_match; [|done].
  right. exists c, R. split; [done|]. unfold at_col. by rewrite lookup_insert_eq.
Qed.

Lemma time_step_invariant {ext : Externals} items df0 w0 t df w df' w' :
  time_step items t df w = (Ok df', w') ->
  classifier_invariant items df0 w0 df w -> classifier_invariant items df0 w0 df' w'.
Proof.
  unfold time_step. intros Hrun Hinv.
  apply bind_Ok in Hrun as (ids & w1 & Hids & Hrun). run_inv Hids.
  destruct (rows (select _ df)) as [|r0 _]; [discriminate|].
  revert Hrun Hinv.
  apply (for_each_invariant_in (classifier_invariant items df0 w0) items
           (chain_step t (at_col "Identifier 1" r0))).
  intros [c rt] d w2 d' w2' Hitem Hstep (Hcols & Hdata & Hlab & Hw).
  apply chain_step_Ok in Hstep as [Hd Hw'].
  assert (Hworld : w2' = w0 \/ "Area All" ∈ columns df0).
  { destruct Hw as [->|?]; [|by right]. destruct Hw' as [->|Harea]; [by left|].
    right. by rewrite <- Hcols. }
  destruct Hd as [->|(R & v & -> & ->)]; [done|].
  split; [done|]. split; [by apply assign_same_data|].
  split; [by eapply assign_labelled_from | done].
Qed.

Lemma process_dataframe_invariant {ext : Externals} df items fp lp w out w' :
  process_dataframe df (Some items) fp lp w = (Ok out, w') ->
  exists df1 w1,
    classifier_invariant items (cleared df) w df1 w1
    /\ out = select accepted df1
    /\ w' = World (stdin w1) (stdout w1)
              (logfile w1 ++ ["Chain lengths identified by user: "
                               +:+ show_array (unique (at_col "chain" <$> rows out))]).
Proof.
  unfold process_dataframe. fold (cleared df). intros Hrun.
  apply bind_Ok in Hrun as (times & w0 & Htimes & Hrun). run_inv Htimes.
  apply bind_Ok in Hrun as (df1 & w1 & Hloop & Hrun).
  apply bind_Ok in Hrun as ([] & w2 & Hlog & Hrun). run_inv Hrun.
  rewrite append_to_log_run in Hlog. injection Hlog as <-.
  exists df1, w1. split; [|done].
  eapply (for_each_invariant_in (classifier_invariant items (cleared df) w));
    [|exact Hloop|].
  - intros t d w3 d' w3' _. apply time_step_invariant.
  - split; [done|]. split; [|split; [|by left]].
    + apply Forall2_same_length_lookup. split; [done|]. intros i r0 r Hr0 Hr.
      assert (r = r0) as -> by congruence. done.
    + unfold cleared, set_column. cbn [rows]. rewrite Forall_fmap.
      apply Forall_forall. intros r _. left. unfold compose, at_col.
      by rewrite lookup_insert_eq.
Qed.

Lemma cleared_same_data df : Forall2 same_data (rows df) (rows (cleared df)).
Proof.
  unfold cleared, set_column. cbn [rows]. rewrite Forall2_fmap_r.
  apply Forall2_same_length_lookup. split; [done|]. intros i r0 r Hr0 Hr.
  assert (r = r0) as -> by congruence. intros k Hk. by rewrite lookup_insert_ne.
Qed.

Lemma same_data_trans r0 r1 r2 : same_data r0 r1 -> same_data r1 r2 -> same_data r0 r2.
Proof. intros H1 H2 k Hk. by rewrite H2, H1. Qed.

Lemma accepted_label (r : row) :
  accepted r = true -> exists c, c ∈ accepted_chains /\ at_col "chain" r = Str c.
Proof.
  unfold accepted, isin_str, isin. intros (v & Hv & Hsame)%existsb_exists.
  apply list_elem_of_In, list_elem_of_fmap in Hv as (c & -> & Hc).
  exists c. split; [done|]. destruct (at_col "chain" r) as [|s| |]; try done.
  simpl in Hsame. apply String.eqb_eq in Hsame. by subst.
Qed.

(** X16. A classification that succeeds returns rows of the table in the
    order of the table, each with all its cells but the chain label as
    they came in; and the label of every row that is returned is one of
    the nine chain labels, the key of an entry of the reference table that
    has a retention time. *)
Theorem process_dataframe_only_labels {ext : Externals} df items fp lp w out w' :
  process_dataframe df (Some items) fp lp w = (Ok out, w') ->
  (exists labelled : list row,
     Forall2 same_data (rows df) labelled
     /\ rows out = List.filter accepted labelled)
  /\ Forall (fun r => exists c R, (c, Some R) ∈ items /\ c ∈ accepted_chains
                                  /\ at_col "chain" r = Str c) (rows out).
Proof.
  intros (df1 & w1 & (Hcols & Hdata & Hlab & _) & -> & _)%process_dataframe_invariant.
  split.
  - exists (rows df1). split; [|done].
    pose proof (cleared_same_data df) as Hc.
    clear -Hc Hdata. revert Hdata. generalize (rows df1).
    induction Hc as [|r0 r1 l0 l1 Hr _ IH]; intros l2 Hdata.
    + by apply Forall2_nil_inv_l in Hdata as ->.
    + apply Forall2_cons_inv_l in Hdata as (r2 & l2' & Hr2 & Hl2 & ->).
      constructor; [by eapply same_data_trans | by apply IH].
  - apply Forall_forall. intros r Hr. apply elem_of_select in Hr as [Hr Hacc].
    apply accepted_label in Hacc as (c & Hc & Hchain).
    rewrite Forall_forall in Hlab. destruct (Hlab r Hr) as [Hna|(c' & R & Hitem & Hchain')].
    + congruence.
    + assert (c' = c) as -> by congruence. eauto.
Qed.

Lemma process_dataframe_only_labels_witness :
  (exists labelled : list row,
     Forall2 same_data (rows Sample.two_injections) labelled
     /\ rows Sample.classified = List.filter accepted labelled)
  /\ Forall (fun r => exists c R, (c, Some R) ∈ Sample.two_references /\ c ∈ accepted_chains
                                  /\ at_col "chain" r = Str c) (rows Sample.classified).
Proof.
  eapply (process_dataframe_only_labels (ext := Sample.env) Sample.two_injections
            Sample.two_references "out" "log" (Sample.quiet [])).
  vm_compute. reflexivity.
Defined.

(** X17. On a table without a column ["Area All"] a classification that
    succeeds has asked nothing: it read no line and printed nothing, and
    it appended one line to the log, the list of the distinct labels it
    returns. *)
Theorem process_dataframe_without_area {ext : Externals} df items fp lp w out w' :
  "Area All" ∉ columns df ->
  process_dataframe df (Some items) fp lp w = (Ok out, w') ->
  w' = World (stdin w) (stdout w)
         (logfile w ++ ["Chain lengths identified by user: "
                          +:+ show_array (unique (at_col "chain" <$> rows out))]).
Proof.
  intros Harea (df1 & w1 & (_ & _ & _ & Hw) & _ & ->)%process_dataframe_invariant.
  destruct Hw as [->|Hin]; [done|]. exfalso.
  apply elem_of_set_column in Hin as [?|?]; done.
Qed.

Lemma process_dataframe_without_area_witness :
  exists out : frame,
    World [] [] ["Chain lengths identified by user: ['C18']"]
    = World [] []
        ([] ++ ["Chain lengths identified by user: "
                  +:+ show_array (unique (at_col "chain" <$> rows out))]).
Proof.
  eexists.
  eapply (process_dataframe_without_area (ext := Sample.env)
            (Frame ["Identifier 1"; "Time"; "Rt"] (rows (Sample.injection 500 600)))
            [("C18", Some 505%Q)] "out" "log" (Sample.quiet [])).
  - apply (bool_decide_unpack _). vm_compute. exact I.
  - vm_compute. reflexivity.
Defined.

(** X18. With a reference table, the labels the frame arrives with play
    no part: whatever the chain column holds, or whether there is one, the
    run is the run on the frame with that column overwritten. *)
Theorem process_dataframe_ignores_labels {ext : Externals} df items fp lp (value : row -> cell) :
  process_dataframe (set_column "chain" value df) (Some items) fp lp
  = process_dataframe df (Some items) fp lp.
Proof.
  unfold process_dataframe.
  replace (set_column "chain" (fun _ => NA) (set_column "chain" value df))
    with (set_column "chain" (fun _ => NA) df); [done|].
  unfold set_column. cbn [columns rows]. f_equal.
  - case_bool_decide as Hin.
    + by rewrite bool_decide_eq_true_2.
    + rewrite bool_decide_eq_true_2; [done|]. set_solver.
  - rewrite <- list_fmap_compose. apply list_fmap_ext. intros i r _.
    unfold compose. by rewrite insert_insert_eq.
Qed.

(** ** What [import_data] returns *)

Lemma isin_str_elem values c :
  isin_str values c = true -> exists s, s ∈ values /\ c = Str s.
Proof.
  unfold isin_str, isin. intros (v & Hv & Hsame)%existsb_exists.
  apply list_elem_of_In, list_elem_of_fmap in Hv as (s & -> & Hs).
  exists s. split; [done|]. destruct c as [|s'| |]; try done.
  simpl in Hsame. apply String.eqb_eq in Hsame. by subst.
Qed.

Lemma ask_once_declined {ext : Externals} lp w w' :
  ask_once lp w = (Ok (Some None), w') ->
  last (logfile w') = Some "User opted not to identify chains."
  /\ last (stdout w') = Some "Component detection not selected.".
Proof.
  unfold ask_once. intros Hrun. apply bind_Ok in Hrun as (line & w1 & _ & Hrun).
  destruct (pos_response _).
  - apply bind_Ok in Hrun as ([] & w2 & _ & Hrun).
    apply bind_Ok in Hrun as (values & w3 & _ & Hrun).
    destruct (_ =? _)%nat.
    + apply bind_Ok in Hrun as (d & w4 & _ & Hrun). run_inv Hrun.
    + apply bind_Ok in Hrun as ([] & w4 & _ & Hrun). run_inv Hrun.
  - destruct (neg_response _).
    + apply bind_Ok in Hrun as ([] & w2 & Hlog & Hrun).
      apply bind_Ok in Hrun as ([] & w3 & Hp & Hrun). run_inv Hrun.
      rewrite append_to_log_run in Hlog. unfold print in Hp. simplify_eq.
      cbn [stdin stdout logfile]. by rewrite !last_snoc.
    + apply bind_Ok in Hrun as ([] & w2 & _ & Hrun). run_inv Hrun.
Qed.

Lemma falsy_table_declined {ext : Externals} lp w rt_dict w' :
  ask_user_for_rt lp w = (Ok rt_dict, w') -> truthy rt_dict = false ->
  rt_dict = None
  /\ last (logfile w') = Some "User opted not to identify chains."
  /\ last (stdout w') = Some "Component detection not selected.".
Proof.
  intros Hask Hfalsy. destruct rt_dict as [d|].
  - apply ask_user_for_rt_keys in Hask. destruct d; [discriminate | done].
  - split; [done|]. unfold ask_user_for_rt in Hask.
    apply while_true_Ok in Hask as [w1 Hbody]. by eapply ask_once_declined.
Qed.

(** X19. [import_data] returns only after the operator has declined the
    detection by retention time: the last line of the log and the last
    line printed say so, and the correction log that is returned has its
    four entries at 0. *)
Theorem import_data_returns_after_decline {ext : Externals} df fp lp isotope w l d u clog w' :
  import_data df fp lp isotope w = (Ok (l, d, u, clog), w') ->
  last (logfile w') = Some "User opted not to identify chains."
  /\ last (stdout w') = Some "Component detection not selected."
  /\ clog = [("Drift", 0%Z); ("Linearity", 0%Z); ("VSMOW", 0%Z); ("Methylation", 0%Z)].
Proof.
  intros (u0 & w1 & rt_dict & _ & Hask & Hfalsy & _ & ->)%import_data_Ok.
  destruct (falsy_table_declined _ _ _ _ Hask Hfalsy) as (_ & Hlog & Hout). done.
Qed.

Lemma import_data_returns_after_decline_witness :
  last ["Number of linearity standards analyzed: 1";
        "Number of Drift standards analyzed: 3";
        "First two drift standards ignored.";
        "User opted not to identify chains."]
  = Some "User opted not to identify chains."
  /\ last [detect_question; "Invalid response. Please answer 'yes' or 'no'.";
           detect_question; "Component detection not selected."]
     = Some "Component detection not selected."
  /\ make_correction_df
     = [("Drift", 0%Z); ("Linearity", 0%Z); ("VSMOW", 0%Z); ("Methylation", 0%Z)].
Proof.
  eapply (import_data_returns_after_decline (ext := Sample.env) Sample.run_table "out" "log" "dD"
            (Sample.quiet ["what?"; " No "]) _ _ _ make_correction_df
            (World []
               [detect_question; "Invalid response. Please answer 'yes' or 'no'.";
                detect_question; "Component detection not selected."]
               ["Number of linearity standards analyzed: 1";
                "Number of Drift standards analyzed: 3";
                "First two drift standards ignored.";
                "User opted not to identify chains."])).
  vm_compute. reflexivity.
Defined.

(** X20. The labels of the tables [import_data] returns: a linearity row
    is labelled C20 or C28, a drift row C18 or C24, and an unknown row
    carries one of the nine chain labels. *)
Theorem returned_labels {ext : Externals} df fp lp isotope w l d u clog w' :
  import_data df fp lp isotope w = (Ok (l, d, u, clog), w') ->
  Forall (fun r => at_col "chain" r ∈ [Str "C20"; Str "C28"]) (rows l)
  /\ Forall (fun r => at_col "chain" r ∈ [Str "C18"; Str "C24"]) (rows d)
  /\ Forall (fun r => exists c, c ∈ chain_lengths /\ at_col "chain" r = Str c) (rows u).
Proof.
  intros (u0 & w1 & rt & Hp & _ & _ & -> & _)%import_data_Ok.
  apply prepare_Ok in Hp as (df1 & w2 & df2 & w3 & _ & _ & Hs).
  apply segregate_Ok in Hs as (-> & -> & -> & _ & _).
  split; [|split]; apply Forall_forall; intros r Hr.
  - apply elem_of_linearity_candidates in Hr as (_ & _ & Hr).
    apply isin_str_elem in Hr as (s & Hs & ->).
    change (Str s ∈ Str <$> ["C20"; "C28"]). apply list_elem_of_fmap. eauto.
  - apply elem_of_remove_first_two, elem_of_drift_candidates in Hr as (_ & _ & Hr).
    apply isin_str_elem in Hr as (s & Hs & ->).
    change (Str s ∈ Str <$> ["C18"; "C24"]). apply list_elem_of_fmap. eauto.
  - apply elem_of_select in Hr as [_ Hr].
    apply isin_str_elem in Hr as (s & Hs & ->). exists s. split; [|done].
    revert Hs. unfold whitelist, chain_lengths. rewrite !elem_of_cons. tauto.
Qed.

Lemma returned_labels_witness :
  Forall (fun r => at_col "chain" r ∈ [Str "C20"; Str "C28"]) (rows Sample.linearity_out)
  /\ Forall (fun r => at_col "chain" r ∈ [Str "C18"; Str "C24"]) (rows Sample.drift_out)
  /\ Forall (fun r => exists c, c ∈ chain_lengths /\ at_col "chain" r = Str c)
       (rows (select (fun r => isin_str whitelist (at_col "chain" r)) Sample.unknown_out)).
Proof.
  eapply (returned_labels (ext := Sample.env) Sample.run_table "out" "log" "dD"
            (Sample.quiet ["n"])).
  vm_compute. reflexivity.
Defined.

(** ** The number typed at a near-tie *)

Lemma iloc_spec {A : Type} (l : list A) (i : Z) :
  iloc l i
  = if decide (0 <= i)%Z then l !! Z.to_nat i
    else if decide (- Z.of_nat (length l) <= i)%Z then l !! Z.to_nat (Z.of_nat (length l) + i)
         else None.
Proof.
  unfold iloc. cbv zeta. destruct (Z.leb_spec 0 i); destruct (decide (0 <= i)%Z); try lia;
    [done|].
  destruct (Z.leb_spec (- Z.of_nat (length l)) i);
    destruct (decide (- Z.of_nat (length l) <= i)%Z); try lia; done.
Qed.



(** ** [closest_rt]: a wider band *)

Lemma sublist_filter_impl {A : Type} (p q : A -> bool) (l : list A) :
  (forall x, x ∈ l -> p x = true -> q x = true) ->
  List.filter p l `sublist_of` List.filter q l.
Proof.
  induction l as [|x l IH]; intros Himpl; [done|]. simpl.
  assert (IH' : List.filter p l `sublist_of` List.filter q l).
  { apply IH. intros y Hy. apply Himpl. by right. }
  destruct (p x) eqn:Hp.
  - rewrite (Himpl x) by (done || left). by apply sublist_skip.
  - destruct (q x); [by apply sublist_cons | done].
Qed.

(** X22. Raising the threshold never loses a peak: the selection for a
    threshold is, in the same order, part of the selection for any larger
    threshold. *)
Theorem closest_rt_threshold_monotone df time_val target_rt (thr thr' : Q) w out w1 out' w2 :
  (thr <= thr')%Q ->
  closest_rt df time_val target_rt thr w = (Ok out, w1) ->
  closest_rt df time_val target_rt thr' w = (Ok out', w2) ->
  rows out `sublist_of` rows out'.
Proof.
  intros Hle Hrun Hrun'. unfold closest_rt in Hrun, Hrun'. run_inv Hrun. run_inv Hrun'.
  unfold closest_rows. cbv zeta. unfold select at 1 3. cbn [rows].
  apply sublist_filter_impl. intros r Hr Hin.
  apply within_true in Hin as (dist & lim & Ha & Hlim & Hle').
  destruct (series_min _) as [m|] eqn:Hm; [|done].
  assert (lim = (m * (1 + thr))%Q) as -> by (cbn in Hlim; congruence).
  rewrite Ha. cbn [fmap option_fmap option_map within]. apply Qle_bool_iff.
  eapply Qle_trans; [exact Hle'|].
  destruct (series_min_spec _ _ Hm) as [(x & Hx & Hmx) _].
  apply list_elem_of_fmap in Hx as (r' & Hx & _). symmetry in Hx.
  apply abs_difference_nonneg in Hx.
  rewrite !(Qmult_comm m). apply Qmult_le_compat_r; [|by rewrite Hmx].
  by apply Qplus_le_r.
Qed.

Lemma closest_rt_threshold_monotone_witness :
  rows (closest_rows (Sample.injection 499 502) (Str "00:00:30") 500 default_threshold)
    `sublist_of` rows (closest_rows (Sample.injection 499 502) (Str "00:00:30") 500 1).
Proof.
  apply (closest_rt_threshold_monotone (Sample.injection 499 502) (Str "00:00:30") 500
           default_threshold 1 (Sample.quiet []) _ (Sample.quiet []) _ (Sample.quiet [])).
  - discriminate.
  - vm_compute. reflexivity.
  - vm_compute. reflexivity.
Defined.

(** ** A well-formed export, and an operator who declines *)

Lemma at_col_rename_key c old new (r : row) :
  c <> old -> c <> new -> at_col c (rename_key old new r) = at_col c r.
Proof.
  intros Hold Hnew. unfold rename_key, at_col. destruct (r !! old); [|done].
  by rewrite lookup_insert_ne, lookup_delete_ne.
Qed.

Lemma normalize_step_keeps new_name name c df0 df x w df' x' w' :
  Re.search name c = false -> name <> c -> c ∉ new_name ->
  normalize_step new_name name (df, x) w = (Ok (df', x'), w') ->
  (c ∈ columns df <-> c ∈ columns df0)
  /\ Forall2 (fun r r' : row => at_col c r' = at_col c r) (rows df0) (rows df) ->
  (c ∈ columns df' <-> c ∈ columns df0)
  /\ Forall2 (fun r r' : row => at_col c r' = at_col c r) (rows df0) (rows df').
Proof.
  intros Hsearch Hname Hnew. unfold normalize_step. case_bool_decide as Hin.
  - destruct (List.filter _ _) as [|old rest] eqn:Hf; [discriminate|].
    destruct (new_name !! x) as [new|] eqn:Hx; [|discriminate].
    intros Hrun [Hcols Hrows]. run_inv Hrun.
    assert (Hold : c <> old).
    { intros ->. assert (Hin' : In old (List.filter (Re.search name) (columns df))).
      { rewrite Hf. by left. }
      apply filter_In in Hin' as [_ Hs]. congruence. }
    assert (Hnew' : c <> new).
    { intros ->. apply Hnew. by eapply list_elem_of_lookup_2. }
    split.
    + rewrite elem_of_rename, <- Hcols. split; [intros [[? _]|[_ ?]]; done | auto].
    + unfold rename. cbn [rows]. rewrite Forall2_fmap_r.
      eapply Forall2_impl; [exact Hrows|]. intros r r' Hr. unfold compose.
      by rewrite at_col_rename_key.
  - intros Hrun [Hcols Hrows].
    apply bind_Ok in Hrun as ([] & w1 & _ & Hrun). run_inv Hrun. split.
    + rewrite set_column_keeps by done. done.
    + unfold set_column. cbn [rows]. rewrite Forall2_fmap_r.
      eapply Forall2_impl; [exact Hrows|]. intros r r' Hr. unfold compose, at_col.
      by rewrite lookup_insert_ne.
Qed.

Lemma normalize_keeps_column isotope c df w df' w' :
  untouched isotope c ->
  normalize isotope df w = (Ok df', w') ->
  (c ∈ columns df' <-> c ∈ columns df)
  /\ Forall2 (fun r r' : row => at_col c r' = at_col c r) (rows df) (rows df').
Proof.
  intros [Hnames Hnew]. unfold normalize, source_names in *.
  destruct (iso_rat_of isotope) as [iso_rat|]; [|discriminate].
  intros Hrun. apply bind_Ok in Hrun as ([df1 x1] & w1 & Hloop & Hrun).
  apply ret_Ok in Hrun as [Hdf Hw]. cbn [fst] in Hdf. subst df1 w1.
  pose (P := fun (st : frame * nat) (_ : world) =>
               (c ∈ columns st.1 <-> c ∈ columns df)
               /\ Forall2 (fun r r' : row => at_col c r' = at_col c r) (rows df) (rows st.1)).
  change (P (df', x1) w'). eapply (for_each_invariant_in P); [|exact Hloop|].
  - intros name [d x] w0 [d' x'] w0' Hname Hstep HP. unfold P in *. cbn [fst] in *.
    rewrite Forall_forall in Hnames. destruct (Hnames name Hname) as [Hs Hne].
    eapply normalize_step_keeps; eauto.
  - unfold P. cbn [fst]. split; [done|].
    apply Forall2_same_length_lookup. split; [done|]. intros i r r' Hr Hr'. congruence.
Qed.

Lemma at_col_stamp_row {ext : Externals} top c (r : row) :
  c ∉ ["date-time_true"; "date-time"; "time_rel"] ->
  at_col c (stamp_row top r) = at_col c r.
Proof.
  rewrite !elem_of_cons, elem_of_nil. intros Hc. unfold stamp_row, at_col. cbv zeta.
  rewrite (lookup_insert_ne _ "time_rel" c) by (intros <-; tauto).
  rewrite (lookup_insert_ne _ "date-time" c) by (intros <-; tauto).
  rewrite (lookup_insert_ne _ "date-time_true" c) by (intros <-; tauto). done.
Qed.

Lemma add_timestamps_run {ext : Externals} df w :
  rows df <> [] ->
  "Date" ∈ columns df -> "Time" ∈ columns df ->
  Forall (fun r => is_str (at_col "Date" r) = true /\ is_str (at_col "Time" r) = true)
         (rows df) ->
  exists df',
    add_timestamps df w = (Ok df', w)
    /\ (forall c, c ∈ columns df -> c ∈ columns df')
    /\ "date-time_true" ∈ columns df' /\ "date-time" ∈ columns df'
    /\ exists top, rows df' = stamp_row top <$> rows df.
Proof.
  intros Hrows0 Hd Ht Hall.
  assert (Hrun : add_timestamps df w = (Ok (stamp_columns df), w)).
  { unfold add_timestamps.
    assert (Hp : forallb (fun r => bool_decide (is_Some (date_time_true r))) (rows df) = true).
    { apply forallb_forall. intros r Hr%list_elem_of_In. rewrite Forall_forall in Hall.
      destruct (Hall r Hr) as [H1 H2]. apply bool_decide_eq_true. unfold date_time_true.
      destruct (at_col "Date" r); try done. destruct (at_col "Time" r); done. }
    rewrite Hp. destruct (rows df); [done|].
    by rewrite !bool_decide_eq_true_2 by done. }
  exists (stamp_columns df). split; [done|].
  pose proof (add_timestamps_rows _ _ _ _ Hrun) as (_ & _ & top & _ & Hrows).
  unfold stamp_columns in *.
  split; [|split; [|split]].
  - intros c Hc. rewrite !elem_of_set_column. auto.
  - rewrite !elem_of_set_column. auto.
  - rewrite !elem_of_set_column. auto.
  - eauto.
Qed.

Lemma segregate_run df lp w :
  Forall (fun c => c ∈ columns df) ["Identifier 1"; "chain"; "date-time_true"; "date-time"] ->
  Forall (fun r => is_str (at_col "Identifier 1" r) = true) (rows df) ->
  exists l d u w',
    segregate df lp w = (Ok (l, d, u), w')
    /\ stdin w' = stdin w
    /\ "chain" ∈ columns l /\ "chain" ∈ columns d /\ "chain" ∈ columns u.
Proof.
  intros Hcols Hall.
  apply Forall_cons in Hcols as [Hid Hcols]. apply Forall_cons in Hcols as [Hch Hcols].
  apply Forall_cons in Hcols as [Hdt Hcols]. apply Forall_cons in Hcols as [Hdn _].
  assert (Hacc : str_accessor "Identifier 1" df w = (Ok tt, w)).
  { unfold str_accessor. rewrite bool_decide_eq_true_2 by done.
    destruct (rows df) as [|r0 rs] eqn:Hrows; [done|].
    apply Forall_cons in Hall as [Hr0 _]. cbn [existsb]. by rewrite Hr0. }
  assert (Hdrop : forall w0, exists u, drop_calibration (unmarked df) w0 = (Ok u, w0)
                                       /\ columns u = columns df).
  { intros w0. unfold drop_calibration.
    assert (Hp : forallb (fun r => is_str (at_col "Identifier 1" r)) (rows (unmarked df))
                 = true).
    { apply forallb_forall. intros r Hr%list_elem_of_In.
      apply elem_of_unmarked in Hr as (Hr & _). rewrite Forall_forall in Hall. auto. }
    rewrite Hp. eauto. }
  destruct (segregate df lp w) as [[[[l d] u]|e] w'] eqn:Hrun.
  - exists l, d, u, w'. split; [done|]. split; [by eapply segregate_stdin|].
    apply segregate_Ok in Hrun as (-> & -> & -> & _ & _). done.
  - exfalso. revert Hrun. unfold segregate.
    erewrite bind_run by exact Hacc.
    erewrite bind_run by (by apply attribute_run).
    erewrite bind_run by apply append_to_log_run.
    erewrite bind_run by apply append_to_log_run.
    erewrite bind_run by (by apply column_run).
    erewrite bind_run by (by apply column_run).
    erewrite bind_run by apply append_to_log_run.
    match goal with
    | |- (drop_calibration _ ≫= _) ?w0 = _ -> _ =>
        destruct (Hdrop w0) as (u & Hu & _); erewrite bind_run by exact Hu
    end.
    discriminate.
Qed.

Lemma ask_user_for_rt_declines {ext : Externals} lp line rest out log :
  pos_response (PyStr.lower (PyStr.strip line)) = false ->
  neg_response (PyStr.lower (PyStr.strip line)) = true ->
  ask_user_for_rt lp (World (line :: rest) out log)
  = (Ok None,
     World rest (out ++ [detect_question; "Component detection not selected."])
           (log ++ ["User opted not to identify chains."])).
Proof.
  intros Hpos Hneg. unfold ask_user_for_rt. cbn [while_true stdin length].
  unfold ask_once, mbind, M_bind, input. cbn [stdin stdout logfile].
  rewrite Hpos, Hneg. unfold append_to_log, print, mret, M_ret. cbn [stdin stdout logfile].
  by rewrite <- !app_assoc.
Qed.

(** X23. [import_data] completes on a well-formed export when the
    operator declines: the mode is ["dD"] or ["dC"], the export has at
    least one row, the header holds the three source columns and
    ["Identifier 1"], ["Date"] and ["Time"], these three cells are text
    in every row, and the first line typed is a no. The three tables and
    the correction log are returned, and only that one line was read. *)
Theorem import_data_completes {ext : Externals} df fp lp isotope line rest out log :
  isotope = "dD" \/ isotope = "dC" ->
  rows df <> [] ->
  Forall (fun c => c ∈ columns df)
         (source_names isotope ++ ["Identifier 1"; "Date"; "Time"]) ->
  Forall (fun r => is_str (at_col "Identifier 1" r) = true
                   /\ is_str (at_col "Date" r) = true /\ is_str (at_col "Time" r) = true)
         (rows df) ->
  pos_response (PyStr.lower (PyStr.strip line)) = false ->
  neg_response (PyStr.lower (PyStr.strip line)) = true ->
  exists l d u w',
    import_data df fp lp isotope (World (line :: rest) out log)
    = (Ok (l, d, u, make_correction_df), w')
    /\ stdin w' = rest.
Proof.
  intros Hiso Hsome Hcols Hrows Hpos Hneg. set (w := World (line :: rest) out log).
  assert (Hsrc : source_names isotope <> []) by (by destruct Hiso as [-> | ->]).
  apply Forall_app in Hcols as [Hsource Hcols].
  apply Forall_cons in Hcols as [Hid Hcols]. apply Forall_cons in Hcols as [Hdate Hcols].
  apply Forall_cons in Hcols as [Htime _].
  destruct (normalize_run isotope df w Hsrc) as (df1 & Hn & _ & Hhead).
  destruct (Hhead Hsource) as (_ & _ & Hchain).
  set (w1 := World _ _ _) in Hn.
  assert (Hkeep : forall c, c ∈ ["Identifier 1"; "Date"; "Time"] ->
                    (c ∈ columns df1 <-> c ∈ columns df)
                    /\ Forall2 (fun r r' : row => at_col c r' = at_col c r)
                         (rows df) (rows df1)).
  { intros c Hc. apply (normalize_keeps_column isotope c df w df1 w1); [|done].
    revert Hc. rewrite !elem_of_cons, elem_of_nil.
    destruct Hiso as [-> | ->]; intros [->|[->|[->|[]]]];
      (split; [repeat constructor; done | apply (bool_decide_unpack _); vm_compute; exact I]). }
  destruct (Hkeep "Identifier 1") as [Hid1 Hids]; [rewrite !elem_of_cons; auto|].
  destruct (Hkeep "Date") as [Hdate1 Hdates]; [rewrite !elem_of_cons; auto|].
  destruct (Hkeep "Time") as [Htime1 Htimes]; [rewrite !elem_of_cons; auto|].
  assert (Hstr1 : Forall (fun r => is_str (at_col "Identifier 1" r) = true
                                   /\ is_str (at_col "Date" r) = true
                                   /\ is_str (at_col "Time" r) = true) (rows df1)).
  { apply Forall_lookup. intros i r' Hr'.
    destruct (Forall2_lookup_r _ _ _ _ _ Hids Hr') as (r & Hr & Ei).
    destruct (Forall2_lookup_r _ _ _ _ _ Hdates Hr') as (r2 & Hr2 & Ed).
    destruct (Forall2_lookup_r _ _ _ _ _ Htimes Hr') as (r3 & Hr3 & Et).
    assert (r2 = r) as -> by congruence. assert (r3 = r) as -> by congruence.
    rewrite Ei, Ed, Et. by eapply (Forall_lookup_1 _ _ _ _ Hrows). }
  destruct (add_timestamps_run df1 w1) as (df2 & Ht & Hsub & Hdt & Hdn & top & Hrows2).
  { intros Hnil. apply Forall2_length in Hids. rewrite Hnil in Hids.
    by destruct (rows df). }
  { by apply Hdate1. } { by apply Htime1. }
  { eapply Forall_impl; [exact Hstr1|]. intros r (_ & ? & ?). done. }
  destruct (segregate_run df2 lp w1) as (l & d & u & w2 & Hs & Hin & Hcl & Hcd & Hcu).
  { repeat constructor; try done; apply Hsub; [by apply Hid1 | done]. }
  { rewrite Hrows2, Forall_fmap. eapply Forall_impl; [exact Hstr1|].
    intros r (Hr & _). unfold compose. rewrite at_col_stamp_row; [done|].
    rewrite !elem_of_cons, elem_of_nil. intros [?|[?|[?|[]]]]; done. }
  destruct w2 as [in2 out2 log2]. cbn [stdin] in Hin. subst in2.
  eexists l, d, (select (fun r => isin_str whitelist (at_col "chain" r)) u), _.
  split.
  - unfold import_data, prepare.
    erewrite bind_run; [|erewrite bind_run by exact Hn; erewrite bind_run by exact Ht;
                         exact Hs].
    cbv beta.
    erewrite bind_run by (subst w1; cbn [stdin]; by apply ask_user_for_rt_declines).
    cbv beta.
    erewrite bind_run by (by apply classify_falsy).
    cbv beta iota. unfold return_tables.
    erewrite bind_run by (apply drop_unlabeled_loop_run; repeat constructor; done).
    reflexivity.
  - reflexivity.
Qed.

Lemma import_data_completes_witness :
  exists l d u w',
    import_data (ext := Sample.env) Sample.run_table "out" "log" "dD" (World [" No "; "y"] [] [])
    = (Ok (l, d, u, make_correction_df), w')
    /\ stdin w' = ["y"].
Proof.
  apply (import_data_completes (ext := Sample.env)).
  - by left.
  - unfold Sample.run_table. cbn [rows]. discriminate.
  - apply (bool_decide_unpack _). vm_compute. exact I.
  - apply (bool_decide_unpack _). vm_compute. exact I.
  - reflexivity.
  - reflexivity.
Defined.
